(** * Cross-database business validations: a shallow embedding

    The development follows the two Python modules of the repository,

    - [db_connectors/database.py]: [DatabaseConnector.execute_query] and
      [get_connector];
    - [business_validations.py]: [BusinessValidator] with its three checks
      [validate_customer_data], [validate_revenue_data],
      [validate_inventory_levels], and [main];

    together with the part of Python and of pandas these functions run on:
    insertion-ordered dictionaries, exceptions, [pd.DataFrame] built from a
    list of records, [pd.merge], column arithmetic and boolean row selection.

    Numbers.  A Python [int] is a [Z].  A Python [float] is a binary64
    number, carried by its exact rational value, or one of the three special
    values of IEEE arithmetic (the two infinities and NaN); every operation
    on floats rounds its exact result to the nearest binary64 number, ties
    to even, and overflows to an infinity.  An [int64] column wraps around
    modulo 2^64.  The sign of zero is outside the model: the two zeros are
    one value, as they are for [==].

    Sources.  A connector is its class and what its cursor answers to a
    query text: a result set (column names and rows) or a failure.  Opening
    and closing connections is left to the constructor given to
    [get_connector]. *)

From Stdlib Require Import String Ascii List ZArith QArith Qabs Qround.
From Stdlib Require Import Qcanon Qpower Bool Lia Lqa.
From Stdlib Require Import DecimalString.
Import ListNotations.

Close Scope Q_scope.

Set Implicit Arguments.

(** ** Python: exceptions and the result of a computation that may raise *)

Module Py.

(** The exception classes that occur; all derive from [Exception], so the
    clause [except Exception as e] of the source catches each of them. *)
Inductive exn_class :=
| Exception | ValueError | KeyError | IndexError | TypeError
| ZeroDivisionError | OverflowError | MergeError.

(** An exception object: its class and [str(e)]. *)
Record exn := mk_exn { exn_cls : exn_class; exn_str : string }.

Inductive result (A : Type) :=
| Ok (a : A)
| Raise (e : exn).
Arguments Ok {A} a.
Arguments Raise {A} e.

Definition bind {A B} (c : result A) (k : A -> result B) : result B :=
  match c with
  | Ok a => k a
  | Raise e => Raise e
  end.

(** [mapM f l] runs [f] over [l] from left to right and stops at the first
    exception, as a Python loop or comprehension does. *)
Fixpoint mapM {A B} (f : A -> result B) (l : list A) : result (list B) :=
  match l with
  | [] => Ok []
  | x :: l' =>
      bind (f x) (fun y => bind (mapM f l') (fun ys => Ok (y :: ys)))
  end.

(** [repr] of a plain identifier-like string, as [str(KeyError(k))] shows it. *)
Definition repr (s : string) : string := ("'" ++ s ++ "'")%string.

(** Decimal text of a length, as an f-string prints [len(...)]. *)
Definition str_of_nat (n : nat) : string :=
  NilZero.string_of_uint (Nat.to_uint n).

(** *** Scalars *)

Inductive float :=
| Fin (q : Q)
| PInf
| NInf
| NaN.

(** The scalar a driver puts in a row: [None] (SQL NULL), an [int], a
    [float], or text.  Dates and timestamps, which the checks only compare
    for equality, are carried as text. *)
Inductive value :=
| VNone
| VInt (n : Z)
| VFloat (x : float)
| VStr (s : string).

Definition float_eqb (x y : float) : bool :=
  match x, y with
  | Fin a, Fin b => Qeq_bool a b
  | PInf, PInf => true
  | NInf, NInf => true
  | _, _ => false                     (* NaN equals nothing, itself included *)
  end.

(** Python's [==] on scalars: an int and a float compare by numeric value. *)
Definition value_eqb (a b : value) : bool :=
  match a, b with
  | VNone, VNone => true
  | VInt m, VInt n => Z.eqb m n
  | VInt m, VFloat y => float_eqb (Fin (inject_Z m)) y
  | VFloat x, VInt n => float_eqb x (Fin (inject_Z n))
  | VFloat x, VFloat y => float_eqb x y
  | VStr s, VStr t => String.eqb s t
  | _, _ => false
  end.

(** *** Rounding to binary64

    [round q] is the float nearest to the rational [q], ties going to the
    even mantissa: 53 bits of mantissa, the unit in the last place no
    smaller than 2^-1074 (gradual underflow), and an infinity when the
    rounded mantissa reaches 2^1024. *)

(** The exponent of the leading bit of a positive rational. *)
Definition flog2 (q : Q) : Z :=
  let k := (Z.log2 (Qnum q) - Z.log2 (Zpos (Qden q)))%Z in
  if Qle_bool (2 ^ k)%Q q then k else (k - 1)%Z.

(** The nearest integer, ties to even. *)
Definition rne (q : Q) : Z :=
  let f := Qfloor q in
  match Qcompare (q - inject_Z f)%Q (1 # 2)%Q with
  | Lt => f
  | Eq => if Z.even f then f else (f + 1)%Z
  | Gt => (f + 1)%Z
  end.

(** The exponent of the unit in the last place. *)
Definition ulp_exponent (q : Q) : Z := Z.max (flog2 q - 52) (-1074).

(** The rounded value of a positive rational, before the overflow test. *)
Definition rounded (q : Q) : Q :=
  (inject_Z (rne (q / 2 ^ ulp_exponent q)) * 2 ^ ulp_exponent q)%Q.

Definition round_pos (q : Q) : float :=
  if Qle_bool (2 ^ 1024)%Q (rounded q) then PInf else Fin (Qred (rounded q)).

Definition f_neg (x : float) : float :=
  match x with
  | Fin a => Fin (- a)%Q
  | PInf => NInf
  | NInf => PInf
  | NaN => NaN
  end.

Definition round (q : Q) : float :=
  let r := Qred q in
  match (Qnum r ?= 0)%Z with
  | Eq => Fin 0%Q
  | Gt => round_pos r
  | Lt => f_neg (round_pos (- r)%Q)
  end.

(** The rationals that are binary64 numbers. *)
Definition binary64 (q : Q) : bool :=
  match round q with
  | Fin r => Qeq_bool r q
  | _ => false
  end.

(** [float(n)] for a Python int: [OverflowError] when the int rounds
    beyond the largest float. *)
Definition float_of_int (n : Z) : result float :=
  match round (inject_Z n) with
  | Fin q => Ok (Fin q)
  | _ => Raise (mk_exn OverflowError "int too large to convert to float")
  end.

(** [type(v).__name__], used in the text of a [TypeError]. *)
Definition type_name (v : value) : string :=
  match v with
  | VNone => "NoneType"
  | VInt _ => "int"
  | VFloat _ => "float"
  | VStr _ => "str"
  end.

(** *** Dictionaries

    A [dict] keeps its keys in insertion order; assigning to a key that is
    already present replaces the value and leaves the key where it is. *)

Definition dict (V : Type) := list (string * V).

Fixpoint dict_get {V} (d : dict V) (k : string) : option V :=
  match d with
  | [] => None
  | (k', v) :: d' => if String.eqb k' k then Some v else dict_get d' k
  end.

Fixpoint dict_set {V} (d : dict V) (k : string) (v : V) : dict V :=
  match d with
  | [] => [(k, v)]
  | (k', v') :: d' =>
      if String.eqb k' k then (k', v) :: d' else (k', v') :: dict_set d' k v
  end.

Definition dict_contains {V} (d : dict V) (k : string) : bool :=
  match dict_get d k with Some _ => true | None => false end.

Definition dict_keys {V} (d : dict V) : list string := map fst d.
Definition dict_values {V} (d : dict V) : list V := map snd d.

(** [dict(pairs)]: the pairs are inserted one after the other. *)
Definition dict_of_pairs {V} (ps : list (string * V)) : dict V :=
  fold_left (fun d p => dict_set d (fst p) (snd p)) ps [].

(** [d[k]], raising [KeyError(k)] when the key is absent. *)
Definition getitem {V} (d : dict V) (k : string) : result V :=
  match dict_get d k with
  | Some v => Ok v
  | None => Raise (mk_exn KeyError (repr k))
  end.

(** [zip(xs, ys)] stops at the shorter argument. *)
Fixpoint zip {A B} (xs : list A) (ys : list B) : list (A * B) :=
  match xs, ys with
  | x :: xs', y :: ys' => (x, y) :: zip xs' ys'
  | _, _ => []
  end.

(** [l[0]]. *)
Definition first {A} (l : list A) : result A :=
  match l with
  | x :: _ => Ok x
  | [] => Raise (mk_exn IndexError "list index out of range")
  end.

(** [len(set(l))] for scalars: the number of classes of [==]. *)
Fixpoint distinct (l : list value) : list value :=
  match l with
  | [] => []
  | x :: l' => x :: filter (fun y => negb (value_eqb x y)) (distinct l')
  end.

End Py.

Import Py.

Declare Scope py_scope.
Delimit Scope py_scope with py.
Notation "x <- c ;; k" := (bind c (fun x => k))
  (at level 61, c at next level, right associativity) : py_scope.

(** ** db_connectors/database.py *)

Module Database.

Local Open Scope string_scope.
Local Open Scope py_scope.

(** What the driver's cursor does with one query text.  [DriverError m]
    stands for any exception raised inside the [try] block of
    [execute_query] ([cursor.execute], reading [cursor.description],
    [cursor.fetchall]), with [m] its [str]; [ResultSet cols rows] gives the
    first component of each entry of [cursor.description] and the tuples of
    [cursor.fetchall()]. *)
Inductive cursor_outcome :=
| DriverError (m : string)
| ResultSet (description : list string) (rows : list (list value)).

Inductive connector_class :=
| PostgresConnector
| OracleConnector
| TeradataConnector
| SnowflakeConnector.

(** A connector instance: its class and its open cursor. *)
Record DatabaseConnector := mk_connector {
  conn_class : connector_class;
  cursor : string -> cursor_outcome
}.

(** [DatabaseConnector.execute_query]. *)
Definition execute_query (self : DatabaseConnector) (query : string)
  : result (list (dict value)) :=
  match cursor self query with
  | ResultSet columns fetched =>
      Ok (map (fun row => dict_of_pairs (zip columns row)) fetched)
  | DriverError m =>
      Raise (mk_exn Exception ("Error executing query: " ++ m))
  end.

Section GetConnector.

(** Calling a connector class: its [__init__] reads the configuration and
    opens the connection, and may raise. *)
Variable construct : connector_class -> result DatabaseConnector.

Definition connectors : dict connector_class :=
  [ ("postgres", PostgresConnector);
    ("oracle", OracleConnector);
    ("teradata", TeradataConnector);
    ("snowflake", SnowflakeConnector) ].

Definition get_connector (db_type : string) : result DatabaseConnector :=
  if negb (dict_contains connectors db_type)
  then Raise (mk_exn ValueError ("Unsupported database type: " ++ db_type))
  else cls <- getitem connectors db_type ;; construct cls.

End GetConnector.

End Database.

(** ** pandas: the operations the checks use

    A frame is kept row-major, one cell per column in each row, with the
    dtype pandas inferred for each column when the frame was built.  The
    texts of the exceptions Python, pandas and numpy raise vary with their
    versions; the ones below are representative, the classes are theirs.
    Ints are taken to be below 2^1024 in absolute value, the range in which
    the conversion of an int to a float does not overflow. *)

Module Pandas.

Local Open Scope string_scope.
Local Open Scope py_scope.

Inductive dtype := int64 | uint64 | float64 | object.

Definition is_numeric_dtype (t : dtype) : bool :=
  match t with object => false | _ => true end.

Definition dtype_eqb (a b : dtype) : bool :=
  match a, b with
  | int64, int64 | uint64, uint64 | float64, float64 | object, object => true
  | _, _ => false
  end.

Definition dtype_name (t : dtype) : string :=
  match t with
  | int64 => "int64"
  | uint64 => "uint64"
  | float64 => "float64"
  | object => "object"
  end.

Record Series := mk_series { s_dtype : dtype; s_cells : list value }.

Record DataFrame := mk_frame {
  columns : list (string * dtype);
  rows : list (list value)
}.

Definition labels (df : DataFrame) : list string := map fst (columns df).

(** [len(df)]. *)
Definition len (df : DataFrame) : nat := length (rows df).

(** [pd.isna]: [None] and NaN are the missing values. *)
Definition isna (v : value) : bool :=
  match v with
  | VNone | VFloat NaN => true
  | _ => false
  end.

Definition is_int (v : value) : bool :=
  match v with VInt _ => true | _ => false end.

Definition is_number (v : value) : bool :=
  match v with VInt _ | VFloat _ => true | _ => false end.

(** *** The dtype of a column built from Python objects

    [pd.DataFrame(records)] passes the cells of each column, in order,
    through [lib.maybe_convert_objects], which notes what it has seen and
    gives up, leaving the column as [object], at the first text cell and at
    the first int that 64 bits cannot hold.  An int met after a [None] is
    no longer checked against the 64 bits: the column will hold floats. *)

Definition INT64_MIN : Z := - 2 ^ 63.
Definition INT64_MAX : Z := 2 ^ 63 - 1.
Definition UINT64_MAX : Z := 2 ^ 64 - 1.

Record Seen := mk_seen {
  null_ : bool;      (* a [None] *)
  nan_ : bool;       (* a NaN *)
  float_ : bool;     (* a float other than NaN *)
  int_ : bool;       (* an int *)
  uint_ : bool;      (* an int above [INT64_MAX] *)
  sint_ : bool       (* a negative int *)
}.

Definition saw_int (s : Seen) (val : Z) : Seen :=
  mk_seen (null_ s) (nan_ s) (float_ s) (int_ s)
          (uint_ s || (Z.ltb INT64_MAX val && Z.leb val UINT64_MAX))
          (sint_ s || (Z.leb INT64_MIN val && Z.ltb val 0)).

(** The scan of the cells; [None] when the column stays [object]. *)
Fixpoint scan (s : Seen) (objects : list value) : option Seen :=
  match objects with
  | [] => Some s
  | VNone :: l =>
      scan (mk_seen true (nan_ s) (float_ s) (int_ s) (uint_ s) (sint_ s)) l
  | VFloat NaN :: l =>
      scan (mk_seen (null_ s) true (float_ s) (int_ s) (uint_ s) (sint_ s)) l
  | VFloat _ :: l =>
      scan (mk_seen (null_ s) (nan_ s) true (int_ s) (uint_ s) (sint_ s)) l
  | VInt val :: l =>
      let s := mk_seen (null_ s) (nan_ s) (float_ s) true (uint_ s) (sint_ s)
      in
      if null_ s then scan s l
      else
        let s := saw_int s val in
        if (uint_ s && sint_ s) || Z.ltb UINT64_MAX val
           || Z.ltb val INT64_MIN
        then None
        else scan s l
  | VStr _ :: l => None
  end.

(** Ints alone give [int64], or [uint64] when one of them is above
    [INT64_MAX]; numbers with a float, a NaN or a [None] among them give
    [float64]; a column of nothing but [None] stays [object]. *)
Definition infer_dtype (cells : list value) : dtype :=
  match scan (mk_seen false false false false false false) cells with
  | None => object
  | Some s =>
      if null_ s || nan_ s
      then (if float_ s || int_ s || nan_ s then float64 else object)
      else if float_ s then float64
      else if int_ s then (if uint_ s then uint64 else int64)
      else object
  end.

(** A cell as stored in a column of the given dtype: in a [float64] column
    an int becomes the nearest float and [None] becomes NaN. *)
Definition cast (t : dtype) (v : value) : value :=
  match t, v with
  | float64, VInt n => VFloat (round (inject_Z n))
  | float64, VNone => VFloat NaN
  | _, _ => v
  end.

Definition mem (k : string) (l : list string) : bool :=
  existsb (String.eqb k) l.

(** The column labels of [pd.DataFrame(records)]: the keys of the records
    in the order they are first seen. *)
Definition union_keys (records : list (dict value)) : list string :=
  fold_left
    (fun acc r => acc ++ filter (fun k => negb (mem k acc)) (dict_keys r))%list
    records [].

(** The cell of a record under a label; a record without the key gives NaN. *)
Definition cell (r : dict value) (c : string) : value :=
  match dict_get r c with
  | Some v => v
  | None => VFloat NaN
  end.

(** [pd.DataFrame(records)] for a list of dicts.  An empty list gives the
    frame with no column and no row. *)
Definition DataFrame_of_records (records : list (dict value)) : DataFrame :=
  let cols :=
    map (fun c => (c, infer_dtype (map (fun r => cell r c) records)))
        (union_keys records) in
  mk_frame cols
    (map (fun r => map (fun ct => cast (snd ct) (cell r (fst ct))) cols)
         records).

(** Position of a label among the columns. *)
Fixpoint index_of (c : string) (l : list string) : option nat :=
  match l with
  | [] => None
  | c' :: l' =>
      if String.eqb c' c then Some 0%nat
      else option_map S (index_of c l')
  end.

Definition column_cells (df : DataFrame) (i : nat) : list value :=
  map (fun row => nth i row VNone) (rows df).

(** [df[c]]: the column as a series, [KeyError(c)] when there is none. *)
Definition getitem (df : DataFrame) (c : string) : result Series :=
  match index_of c (labels df) with
  | Some i =>
      Ok (mk_series (nth i (map snd (columns df)) object) (column_cells df i))
  | None => Raise (mk_exn KeyError (repr c))
  end.

Fixpoint replace_nth {A} (i : nat) (x : A) (l : list A) : list A :=
  match i, l with
  | _, [] => []
  | O, _ :: l' => x :: l'
  | S i', y :: l' => y :: replace_nth i' x l'
  end.

(** [df[c] = s]: replaces the column [c] when it exists, else appends it. *)
Definition setitem (df : DataFrame) (c : string) (s : Series) : DataFrame :=
  match index_of c (labels df) with
  | Some i =>
      mk_frame (replace_nth i (c, s_dtype s) (columns df))
               (map (fun rv => replace_nth i (snd rv) (fst rv))
                    (zip (rows df) (s_cells s)))
  | None =>
      mk_frame (columns df ++ [(c, s_dtype s)])%list
               (map (fun rv => (fst rv ++ [snd rv])%list)
                    (zip (rows df) (s_cells s)))
  end.

(** [df[mask]]: the rows whose mask entry is [True]. *)
Definition select (df : DataFrame) (mask : list bool) : DataFrame :=
  mk_frame (columns df)
           (map fst (filter (fun rm => snd rm) (zip (rows df) mask))).

(** [df.to_dict('records')]. *)
Definition to_dict_records (df : DataFrame) : list (dict value) :=
  map (fun row => dict_of_pairs (zip (labels df) row)) (rows df).

(** *** pd.merge(left, right, on=..., suffixes=...), an inner join *)

(** Both frames must have every key column; the first key missing from
    either raises [KeyError(key)]. *)
Fixpoint check_keys (on : list string) (left right : DataFrame)
  : result unit :=
  match on with
  | [] => Ok tt
  | k :: on' =>
      if negb (mem k (labels right)) || negb (mem k (labels left))
      then Raise (mk_exn KeyError (repr k))
      else check_keys on' left right
  end.

(** pandas refuses to merge a numeric key column with an [object] key
    column that holds no integer (text, or nothing but [None]). *)
Definition incompatible (a b : Series) : bool :=
  (is_numeric_dtype (s_dtype a) && negb (is_numeric_dtype (s_dtype b))
   && negb (existsb is_int (s_cells b)))
  || (is_numeric_dtype (s_dtype b) && negb (is_numeric_dtype (s_dtype a))
      && negb (existsb is_int (s_cells a))).

Fixpoint check_dtypes (on : list string) (left right : DataFrame)
  : result unit :=
  match on with
  | [] => Ok tt
  | k :: on' =>
      a <- getitem left k ;;
      b <- getitem right k ;;
      if incompatible a b
      then Raise (mk_exn ValueError
             ("You are trying to merge on " ++ dtype_name (s_dtype a)
              ++ " and " ++ dtype_name (s_dtype b) ++ " columns for key "
              ++ repr k
              ++ ". If you wish to proceed you should use pd.concat"))
      else check_dtypes on' left right
  end.

(** The number a cell of a numeric column stands for in float64. *)
Definition to_float (v : value) : float :=
  match v with
  | VInt n => round (inject_Z n)
  | VFloat x => x
  | _ => NaN
  end.

(** Equality of a cell of a column of dtype [ta] and a cell of a column of
    dtype [tb].  Two numeric columns of different dtypes are compared after
    conversion to float64; in every other case the cells are compared as
    they are, with Python's [==] when a column is an [object] column. *)
Definition eq_cell (ta tb : dtype) (x y : value) : bool :=
  if is_numeric_dtype ta && is_numeric_dtype tb && negb (dtype_eqb ta tb)
  then float_eqb (to_float x) (to_float y)
  else value_eqb x y.

(** Two key cells match when they are equal, or when both are missing:
    pandas puts all missing keys of the two frames in one group. *)
Definition key_eqb (ta tb : dtype) (a b : value) : bool :=
  (isna a && isna b) || eq_cell ta tb a b.

(** The cells of a row under the given labels, and the dtypes of these
    columns. *)
Definition cells_at (lbls : list string) (on : list string)
  (row : list value) : list value :=
  map (fun k => match index_of k lbls with
                | Some i => nth i row VNone
                | None => VNone
                end) on.

Definition dtypes_at (df : DataFrame) (on : list string) : list dtype :=
  map (fun k => match index_of k (map fst (columns df)) with
                | Some i => nth i (map snd (columns df)) object
                | None => object
                end) on.

Definition keys_match (on : list string) (left right : DataFrame)
  (l r : list value) : bool :=
  forallb (fun tab => key_eqb (fst (fst tab)) (snd (fst tab))
                              (fst (snd tab)) (snd (snd tab)))
          (zip (zip (dtypes_at left on) (dtypes_at right on))
               (zip (cells_at (labels left) on l)
                    (cells_at (labels right) on r))).

(** What is kept of the right frame: the entries that are not under a key. *)
Definition drop_keys {A} (on : list string) (lbls : list string)
  (l : list A) : list A :=
  map snd (filter (fun ca => negb (mem (fst ca) on)) (zip lbls l)).

(** A label carried by both frames and not a key gets the suffix of its side. *)
Definition overlaps (on : list string) (left right : DataFrame)
  (c : string) : bool :=
  mem c (labels left) && mem c (labels right) && negb (mem c on).

Definition rename (on : list string) (left right : DataFrame)
  (suffix : string) (ct : string * dtype) : string * dtype :=
  (if overlaps on left right (fst ct) then fst ct ++ suffix else fst ct,
   snd ct).

Definition merged_columns (on : list string) (left right : DataFrame)
  (suffixes : string * string) : list (string * dtype) :=
  (map (rename on left right (fst suffixes)) (columns left)
   ++ map (rename on left right (snd suffixes))
          (drop_keys on (labels right) (columns right)))%list.

(** The first label that occurs twice. *)
Fixpoint first_dup (l : list string) : option string :=
  match l with
  | [] => None
  | c :: l' => if mem c l' then Some c else first_dup l'
  end.

(** The rows of the inner join, in the order of the left frame and, for one
    left row, in the order of the right frame. *)
Definition joined_rows (on : list string) (left right : DataFrame)
  : list (list value) :=
  flat_map
    (fun l =>
       map (fun r => (l ++ drop_keys on (labels right) r)%list)
           (filter (keys_match on left right l) (rows right)))
    (rows left).

(** [pd.merge(left, right, on=on, suffixes=suffixes)].  Suffixes that leave
    two columns under one label raise [MergeError]; the model also refuses
    the frames in which a suffixed label of one side meets an unsuffixed
    label of the other, which the checks could not index by label. *)
Definition merge (left right : DataFrame) (on : list string)
  (suffixes : string * string) : result DataFrame :=
  _ <- check_keys on left right ;;
  _ <- check_dtypes on left right ;;
  let cols := merged_columns on left right suffixes in
  match first_dup (map fst cols) with
  | Some c =>
      Raise (mk_exn MergeError
               ("Passing 'suffixes' which cause duplicate columns {"
                ++ repr c ++ "} is not allowed."))
  | None => Ok (mk_frame cols (joined_rows on left right))
  end.

(** *** Column arithmetic *)

Local Open Scope Q_scope.

Definition Qlt_bool (a b : Q) : bool := negb (Qle_bool b a).

(** Subtraction, division and multiplication of floats: the exact result,
    rounded. *)
Definition f_sub (x y : float) : float :=
  match x, y with
  | NaN, _ | _, NaN => NaN
  | Fin a, Fin b => round (a - b)
  | Fin _, PInf => NInf
  | Fin _, NInf => PInf
  | PInf, PInf => NaN
  | NInf, NInf => NaN
  | PInf, _ => PInf
  | NInf, _ => NInf
  end.

(** Division of float64 arrays: a finite non-zero number over zero is an
    infinity, zero over zero is NaN, and nothing is raised. *)
Definition f_div (x y : float) : float :=
  match x, y with
  | NaN, _ | _, NaN => NaN
  | Fin a, Fin b =>
      if Qeq_bool b 0
      then (if Qeq_bool a 0 then NaN
            else if Qlt_bool 0 a then PInf else NInf)
      else round (a / b)
  | Fin _, _ => Fin 0
  | _, PInf | _, NInf => NaN
  | PInf, Fin b => if Qlt_bool b 0 then NInf else PInf
  | NInf, Fin b => if Qlt_bool b 0 then PInf else NInf
  end.

Definition f_abs (x : float) : float :=
  match x with
  | Fin a => Fin (Qabs a)
  | PInf | NInf => PInf
  | NaN => NaN
  end.

(** [x * 100]. *)
Definition f_times100 (x : float) : float :=
  match x with
  | Fin a => round (a * 100)
  | _ => x
  end.

(** [x > 1]; a comparison with NaN is [False]. *)
Definition f_gt1 (x : float) : bool :=
  match x with
  | Fin a => Qlt_bool 1 a
  | PInf => true
  | _ => false
  end.

(** Integers of 64 bits wrap around. *)
Definition wrap64 (z : Z) : Z := ((z + 2 ^ 63) mod 2 ^ 64 - 2 ^ 63)%Z.
Definition wrapu64 (z : Z) : Z := (z mod 2 ^ 64)%Z.

(** The difference of a cell of a column of dtype [ta] and a cell of a
    column of dtype [tb], both numeric: 64-bit integer subtraction for two
    columns of the same integer dtype, float64 subtraction otherwise. *)
Definition int_sub (wrap : Z -> Z) (a b : value) : value :=
  match a, b with
  | VInt m, VInt n => VInt (wrap (m - n)%Z)
  | _, _ => VFloat (f_sub (to_float a) (to_float b))
  end.

Definition num_sub (ta tb : dtype) (a b : value) : value :=
  match ta, tb with
  | int64, int64 => int_sub wrap64 a b
  | uint64, uint64 => int_sub wrapu64 a b
  | _, _ => VFloat (f_sub (to_float a) (to_float b))
  end.

Definition sub_dtype (ta tb : dtype) : dtype :=
  match ta, tb with
  | int64, int64 => int64
  | uint64, uint64 => uint64
  | _, _ => float64
  end.

(** Python's [-] and [/] on two objects, as an [object] column applies them
    cell by cell.  Ints are subtracted exactly; an int met by a float is
    converted to a float first; the quotient of two ints is the exact
    quotient, rounded; a true division by zero raises. *)
Definition unsupported (op : string) (a b : value) : exn :=
  mk_exn TypeError
    ("unsupported operand type(s) for " ++ op ++ ": " ++ repr (type_name a)
     ++ " and " ++ repr (type_name b))%string.

Definition py_float (v : value) : result float :=
  match v with
  | VInt n => float_of_int n
  | VFloat x => Ok x
  | _ => Ok NaN
  end.

Definition py_sub (a b : value) : result value :=
  match a, b with
  | VInt m, VInt n => Ok (VInt (m - n)%Z)
  | _, _ =>
      if is_number a && is_number b
      then x <- py_float a ;;
           y <- py_float b ;;
           Ok (VFloat (f_sub x y))
      else Raise (unsupported "-" a b)
  end.

Definition is_zero (x : float) : bool :=
  match x with
  | Fin q => Qeq_bool q 0
  | _ => false
  end.

Definition py_truediv (a b : value) : result value :=
  match a, b with
  | VInt m, VInt n =>
      if Z.eqb n 0
      then Raise (mk_exn ZeroDivisionError "division by zero")
      else match round (inject_Z m / inject_Z n) with
           | Fin q => Ok (VFloat (Fin q))
           | _ => Raise (mk_exn OverflowError
                           "integer division result too large for a float")
           end
  | _, _ =>
      if is_number a && is_number b
      then x <- py_float a ;;
           y <- py_float b ;;
           if is_zero y
           then Raise (mk_exn ZeroDivisionError "float division by zero")
           else Ok (VFloat (f_div x y))
      else Raise (unsupported "/" a b)
  end.

(** Arithmetic with an [object] operand: the operator is applied to the
    cells in order; when that raises [TypeError], pandas applies it again to
    the pairs without a missing value and puts NaN elsewhere.  Any other
    exception, and an exception of the second pass, is raised. *)
Definition object_op (op : value -> value -> result value)
  (xs ys : list value) : result (list value) :=
  match mapM (fun xy => op (fst xy) (snd xy)) (zip xs ys) with
  | Ok cells => Ok cells
  | Raise e =>
      match exn_cls e with
      | TypeError =>
          mapM (fun xy => if isna (fst xy) || isna (snd xy)
                          then Ok (VFloat NaN)
                          else op (fst xy) (snd xy))
               (zip xs ys)
      | _ => Raise e
      end
  end.

(** [a - b] on two columns. *)
Definition sub (a b : Series) : result Series :=
  if is_numeric_dtype (s_dtype a) && is_numeric_dtype (s_dtype b)
  then Ok (mk_series
             (sub_dtype (s_dtype a) (s_dtype b))
             (map (fun xy => num_sub (s_dtype a) (s_dtype b)
                                     (fst xy) (snd xy))
                  (zip (s_cells a) (s_cells b))))
  else cells <- object_op py_sub (s_cells a) (s_cells b) ;;
       Ok (mk_series object cells).

(** [a / b] on two columns: numeric columns are divided in float64. *)
Definition truediv (a b : Series) : result Series :=
  if is_numeric_dtype (s_dtype a) && is_numeric_dtype (s_dtype b)
  then Ok (mk_series float64
             (map (fun xy => VFloat (f_div (to_float (fst xy))
                                           (to_float (snd xy))))
                  (zip (s_cells a) (s_cells b))))
  else cells <- object_op py_truediv (s_cells a) (s_cells b) ;;
       Ok (mk_series object cells).

(** [abs(s)] and [s * 100] on a column of floats, which a quotient is. *)
Definition abs (s : Series) : Series :=
  mk_series (s_dtype s)
    (map (fun v => VFloat (f_abs (to_float v))) (s_cells s)).

Definition times100 (s : Series) : Series :=
  mk_series (s_dtype s)
    (map (fun v => VFloat (f_times100 (to_float v))) (s_cells s)).

(** [s > 1] on a column of floats. *)
Definition gt1 (s : Series) : list bool :=
  map (fun v => f_gt1 (to_float v)) (s_cells s).

(** [a != b] on two columns, cell by cell: [True] wherever a value is
    missing. *)
Definition differs (ta tb : dtype) (x y : value) : bool :=
  isna x || isna y || negb (eq_cell ta tb x y).

Definition ne (a b : Series) : list bool :=
  map (fun xy => differs (s_dtype a) (s_dtype b) (fst xy) (snd xy))
      (zip (s_cells a) (s_cells b)).

End Pandas.

(** ** business_validations.py *)

Module BusinessValidations.

Import Database.

Local Open Scope string_scope.
Local Open Scope py_scope.

(** The four connectors [BusinessValidator.__init__] stores. *)
Record BusinessValidator := mk_validator {
  postgres : DatabaseConnector;
  oracle : DatabaseConnector;
  teradata : DatabaseConnector;
  snowflake : DatabaseConnector
}.

(** [BusinessValidator.__init__]. *)
Definition init (construct : connector_class -> result DatabaseConnector)
  : result BusinessValidator :=
  pg <- get_connector construct "postgres" ;;
  ora <- get_connector construct "oracle" ;;
  td <- get_connector construct "teradata" ;;
  sf <- get_connector construct "snowflake" ;;
  Ok (mk_validator pg ora td sf).

(** What a result dict of a check holds ([Dict[str, Any]]): scalars, and
    under ['discrepancies'] a list of records. *)
Inductive pyobj :=
| PyVal (v : value)
| PyRecords (l : list (dict value)).

Definition PyStr (s : string) : pyobj := PyVal (VStr s).

(** A triple-quoted literal, given line by line. *)
Definition newline : string := String (ascii_of_nat 10) EmptyString.

Definition text (lines : list string) : string :=
  String.concat newline lines.

(** [try: body except Exception as e: handler(e)]. *)
Definition try_except {A} (body : result A) (handler : exn -> A) : A :=
  match body with
  | Ok a => a
  | Raise e => handler e
  end.

(** [len(set(l))]; a list is not hashable. *)
Definition len_set (l : list pyobj) : result nat :=
  vs <- mapM (fun o => match o with
                       | PyVal v => Ok v
                       | PyRecords _ =>
                           Raise (mk_exn TypeError "unhashable type: 'list'")
                       end) l ;;
  Ok (length (distinct vs)).

(** *** validate_customer_data *)

Definition customer_pg_query : string := text
  [ "";
    "        SELECT COUNT(*) as customer_count ";
    "        FROM customers ";
    "        WHERE created_date >= CURRENT_DATE - INTERVAL '1 month'";
    "        " ].

Definition customer_oracle_query : string := text
  [ "";
    "        SELECT COUNT(*) as customer_count ";
    "        FROM customers ";
    "        WHERE created_date >= ADD_MONTHS(TRUNC(SYSDATE), -1)";
    "        " ].

Definition customer_teradata_query : string := text
  [ "";
    "        SELECT COUNT(*) as customer_count ";
    "        FROM customers ";
    "        WHERE created_date >= ADD_MONTHS(CURRENT_DATE, -1)";
    "        " ].

Definition customer_snowflake_query : string := text
  [ "";
    "        SELECT COUNT(*) as customer_count ";
    "        FROM customers ";
    "        WHERE created_date >= DATEADD(month, -1, CURRENT_DATE())";
    "        " ].

(** The first row of each of the four sources. *)
Definition customer_rows (self : BusinessValidator)
  : result (dict value * dict value * dict value * dict value) :=
  pg_rows <- execute_query (postgres self) customer_pg_query ;;
  pg_result <- first pg_rows ;;
  oracle_rows <- execute_query (oracle self) customer_oracle_query ;;
  oracle_result <- first oracle_rows ;;
  teradata_rows <- execute_query (teradata self) customer_teradata_query ;;
  teradata_result <- first teradata_rows ;;
  snowflake_rows <- execute_query (snowflake self) customer_snowflake_query ;;
  snowflake_result <- first snowflake_rows ;;
  Ok (pg_result, oracle_result, teradata_result, snowflake_result).

(** The dict [results] as first built: one count per source. *)
Definition customer_counts (self : BusinessValidator) : result (dict pyobj) :=
  r <- customer_rows self ;;
  let '(pg_result, oracle_result, teradata_result, snowflake_result) := r in
  pg_count <- getitem pg_result "customer_count" ;;
  oracle_count <- getitem oracle_result "customer_count" ;;
  teradata_count <- getitem teradata_result "customer_count" ;;
  snowflake_count <- getitem snowflake_result "customer_count" ;;
  Ok [ ("postgres_count", PyVal pg_count);
       ("oracle_count", PyVal oracle_count);
       ("teradata_count", PyVal teradata_count);
       ("snowflake_count", PyVal snowflake_count) ].

(** The body of the [try] block. *)
Definition customer_try (self : BusinessValidator) : result (dict pyobj) :=
  results <- customer_counts self ;;
  let counts := dict_values results in
  n <- len_set counts ;;
  if negb (Nat.eqb n 1)
  then
    let results := dict_set results "validation_status" (PyStr "FAILED") in
    Ok (dict_set results "message"
          (PyStr "Customer counts do not match across systems"))
  else
    let results := dict_set results "validation_status" (PyStr "PASSED") in
    Ok (dict_set results "message"
          (PyStr "Customer counts match across all systems")).

Definition error_result (prefix : string) (e : exn) : dict pyobj :=
  [ ("validation_status", PyStr "ERROR");
    ("message", PyStr (prefix ++ exn_str e)) ].

Definition validate_customer_data (self : BusinessValidator) : dict pyobj :=
  try_except (customer_try self) (error_result "Error during validation: ").

(** *** validate_revenue_data *)

Definition revenue_pg_query : string := text
  [ "";
    "        SELECT date_trunc('day', transaction_date) as date,";
    "               SUM(amount) as daily_revenue";
    "        FROM transactions";
    "        WHERE transaction_date >= CURRENT_DATE - INTERVAL '7 days'";
    "        GROUP BY date_trunc('day', transaction_date)";
    "        ORDER BY date";
    "        " ].

Definition revenue_snowflake_query : string := text
  [ "";
    "        SELECT DATE_TRUNC('day', transaction_date) as date,";
    "               SUM(amount) as daily_revenue";
    "        FROM transactions";
    "        WHERE transaction_date >= DATEADD(day, -7, CURRENT_DATE())";
    "        GROUP BY DATE_TRUNC('day', transaction_date)";
    "        ORDER BY date";
    "        " ].

(** [merged_data] as [pd.merge] returns it. *)
Definition revenue_merged (self : BusinessValidator)
  : result Pandas.DataFrame :=
  pg_rows <- execute_query (postgres self) revenue_pg_query ;;
  let pg_data := Pandas.DataFrame_of_records pg_rows in
  sf_rows <- execute_query (snowflake self) revenue_snowflake_query ;;
  let snowflake_data := Pandas.DataFrame_of_records sf_rows in
  Pandas.merge pg_data snowflake_data ["date"] ("_pg", "_sf").

(** [abs((pg - sf) / pg) * 100] over the merged frame. *)
Definition diff_percentage (merged_data : Pandas.DataFrame)
  : result Pandas.Series :=
  pg <- Pandas.getitem merged_data "daily_revenue_pg" ;;
  sf <- Pandas.getitem merged_data "daily_revenue_sf" ;;
  difference <- Pandas.sub pg sf ;;
  pg' <- Pandas.getitem merged_data "daily_revenue_pg" ;;
  quotient <- Pandas.truediv difference pg' ;;
  Ok (Pandas.times100 (Pandas.abs quotient)).

(** The frame [discrepancies]. *)
Definition revenue_discrepancies (self : BusinessValidator)
  : result Pandas.DataFrame :=
  merged_data <- revenue_merged self ;;
  pct <- diff_percentage merged_data ;;
  let merged_data := Pandas.setitem merged_data "diff_percentage" pct in
  pct' <- Pandas.getitem merged_data "diff_percentage" ;;
  Ok (Pandas.select merged_data (Pandas.gt1 pct')).

Definition revenue_verdict (discrepancies : Pandas.DataFrame) : dict pyobj :=
  if Nat.ltb 0 (Pandas.len discrepancies)
  then [ ("validation_status", PyStr "FAILED");
         ("message",
          PyStr ("Found " ++ str_of_nat (Pandas.len discrepancies)
                 ++ " days with revenue discrepancy > 1%"));
         ("discrepancies", PyRecords (Pandas.to_dict_records discrepancies)) ]
  else [ ("validation_status", PyStr "PASSED");
         ("message",
          PyStr "Revenue data matches within 1% tolerance across systems") ].

Definition revenue_try (self : BusinessValidator) : result (dict pyobj) :=
  discrepancies <- revenue_discrepancies self ;;
  Ok (revenue_verdict discrepancies).

Definition validate_revenue_data (self : BusinessValidator) : dict pyobj :=
  try_except (revenue_try self) (error_result "Error during validation: ").

(** *** validate_inventory_levels *)

Definition inventory_query : list string :=
  [ "";
    "        SELECT ";
    "            product_id,";
    "            product_name,";
    "            current_stock,";
    "            last_updated";
    "        FROM inventory";
    "        WHERE current_stock < reorder_point";
    "        " ].

Definition inventory_pg_query : string := text inventory_query.
Definition inventory_oracle_query : string := text inventory_query.

Definition inventory_merged (self : BusinessValidator)
  : result Pandas.DataFrame :=
  pg_rows <- execute_query (postgres self) inventory_pg_query ;;
  let pg_data := Pandas.DataFrame_of_records pg_rows in
  oracle_rows <- execute_query (oracle self) inventory_oracle_query ;;
  let oracle_data := Pandas.DataFrame_of_records oracle_rows in
  Pandas.merge pg_data oracle_data ["product_id"; "product_name"]
               ("_pg", "_oracle").

Definition inventory_discrepancies (self : BusinessValidator)
  : result Pandas.DataFrame :=
  merged_data <- inventory_merged self ;;
  stock_pg <- Pandas.getitem merged_data "current_stock_pg" ;;
  stock_oracle <- Pandas.getitem merged_data "current_stock_oracle" ;;
  Ok (Pandas.select merged_data (Pandas.ne stock_pg stock_oracle)).

Definition inventory_verdict (discrepancies : Pandas.DataFrame)
  : dict pyobj :=
  if Nat.ltb 0 (Pandas.len discrepancies)
  then [ ("validation_status", PyStr "FAILED");
         ("message",
          PyStr ("Found " ++ str_of_nat (Pandas.len discrepancies)
                 ++ " products with inventory discrepancies"));
         ("discrepancies", PyRecords (Pandas.to_dict_records discrepancies)) ]
  else [ ("validation_status", PyStr "PASSED");
         ("message", PyStr "Inventory levels match across systems") ].

Definition inventory_try (self : BusinessValidator) : result (dict pyobj) :=
  discrepancies <- inventory_discrepancies self ;;
  Ok (inventory_verdict discrepancies).

Definition validate_inventory_levels (self : BusinessValidator)
  : dict pyobj :=
  try_except (inventory_try self)
             (error_result "Error during inventory validation: ").

(** *** main

    The three checks run one after the other on the same validator; the
    result is the list of objects printed after ["Status: "] and
    ["Message: "].  Closing the four connectors when the [with] block is
    left has no part in what the checks return and is not modelled. *)
Definition report (validation : dict pyobj) : result (list pyobj) :=
  status <- getitem validation "validation_status" ;;
  message <- getitem validation "message" ;;
  Ok [status; message].

Definition run_checks (validator : BusinessValidator)
  : result (list pyobj) :=
  let customer_validation := validate_customer_data validator in
  customer <- report customer_validation ;;
  let revenue_validation := validate_revenue_data validator in
  revenue <- report revenue_validation ;;
  let inventory_validation := validate_inventory_levels validator in
  inventory <- report inventory_validation ;;
  Ok (customer ++ revenue ++ inventory)%list.


End BusinessValidations.

(** ** db_connectors/config.py

    The four functions read their options through [config] of
    python-decouple.  An option is looked up in the process environment,
    then in the repository (the options of the [.env] or [settings.ini]
    file decouple found), then falls back on the default when one is given;
    what was found goes through the cast.  Values found are text; the two
    defaults of this module are ints. *)

Module Config.

Local Open Scope string_scope.

Inductive setting :=
| Str (s : string)
| Int (n : Z).

(** What a call of [config] raises: decouple's [UndefinedValueError], or
    the exception of the cast. *)
Inductive raised :=
| UndefinedValueError (message : string)
| CastError (e : exn).

Inductive outcome (A : Type) :=
| Returned (a : A)
| Raised (r : raised).
Arguments Returned {A} a.
Arguments Raised {A} r.

Definition and_then {A B} (c : outcome A) (k : A -> outcome B) : outcome B :=
  match c with
  | Returned a => k a
  | Raised r => Raised r
  end.

Notation "x <-- c ;; k" := (and_then c (fun x => k))
  (at level 61, c at next level, right associativity).

Section Decouple.

(** [os.environ] and the repository. *)
Variable environ : dict string.
Variable repository : dict string.

(** Python's [int(s)] on a [str]: the integer, or the [ValueError] raised. *)
Variable int_of_str : string -> result Z.

Definition undefined_message (option : string) : string :=
  option ++ " not found. Declare it as envvar or define a default value.".

(** [config(option, default=..., cast=...)]; [default = None] stands for
    no default given. *)
Definition config (option : string) (default : Datatypes.option setting)
  (cast : setting -> outcome setting) : outcome setting :=
  value <--
    match dict_get environ option with
    | Some s => Returned (Str s)                 (* option in os.environ *)
    | None =>
        match dict_get repository option with
        | Some s => Returned (Str s)             (* option in repository *)
        | None =>
            match default with
            | Some v => Returned v
            | None =>
                Raised (UndefinedValueError (undefined_message option))
            end
        end
    end ;;
  cast value.

(** No cast given: the value is returned as found. *)
Definition as_found (v : setting) : outcome setting := Returned v.

(** [cast=int]. *)
Definition int (v : setting) : outcome setting :=
  match v with
  | Int n => Returned (Int n)
  | Str s =>
      match int_of_str s with
      | Ok n => Returned (Int n)
      | Raise e => Raised (CastError e)
      end
  end.

Definition get_postgres_config : outcome (dict setting) :=
  host <-- config "PG_HOST" None as_found ;;
  database <-- config "PG_DATABASE" None as_found ;;
  user <-- config "PG_USER" None as_found ;;
  password <-- config "PG_PASSWORD" None as_found ;;
  port <-- config "PG_PORT" (Some (Int 5432)) int ;;
  Returned [ ("host", host); ("database", database); ("user", user);
             ("password", password); ("port", port) ].

Definition get_oracle_config : outcome (dict setting) :=
  host <-- config "ORACLE_HOST" None as_found ;;
  service_name <-- config "ORACLE_SERVICE" None as_found ;;
  user <-- config "ORACLE_USER" None as_found ;;
  password <-- config "ORACLE_PASSWORD" None as_found ;;
  port <-- config "ORACLE_PORT" (Some (Int 1521)) int ;;
  Returned [ ("host", host); ("service_name", service_name); ("user", user);
             ("password", password); ("port", port) ].

Definition get_teradata_config : outcome (dict setting) :=
  host <-- config "TERADATA_HOST" None as_found ;;
  user <-- config "TERADATA_USER" None as_found ;;
  password <-- config "TERADATA_PASSWORD" None as_found ;;
  database <-- config "TERADATA_DATABASE" None as_found ;;
  Returned [ ("host", host); ("user", user); ("password", password);
             ("database", database) ].

Definition get_snowflake_config : outcome (dict setting) :=
  account <-- config "SNOWFLAKE_ACCOUNT" None as_found ;;
  user <-- config "SNOWFLAKE_USER" None as_found ;;
  password <-- config "SNOWFLAKE_PASSWORD" None as_found ;;
  database <-- config "SNOWFLAKE_DATABASE" None as_found ;;
  warehouse <-- config "SNOWFLAKE_WAREHOUSE" None as_found ;;
  schema <-- config "SNOWFLAKE_SCHEMA" None as_found ;;
  Returned [ ("account", account); ("user", user); ("password", password);
             ("database", database); ("warehouse", warehouse);
             ("schema", schema) ].

End Decouple.

End Config.

(** ** Closing the connectors: DatabaseConnector.close and
    BusinessValidator.__exit__

    [close] only tests the two attributes of a connector and calls their
    [close()].  A driver object is given by its name, its truth value and
    what its [close()] does; the names of the objects closed so far are
    passed along. *)

Module Lifecycle.

Record driver_object := mk_object {
  obj_name : string;
  obj_truthy : bool;
  obj_close : option exn          (* [None]: [close()] returns *)
}.

(** The attributes [connection] and [cursor]; [None] is Python's [None]. *)
Record DatabaseConnector := mk_state {
  connection : option driver_object;
  cursor : option driver_object
}.

(** [DatabaseConnector.__init__]. *)
Definition init : DatabaseConnector := mk_state None None.

(** [if x: x.close()]. *)
Definition close_if_set (x : option driver_object) (closed : list string)
  : result unit * list string :=
  match x with
  | Some o =>
      if obj_truthy o
      then (match obj_close o with
            | Some e => Raise e
            | None => Ok tt
            end,
            (closed ++ [obj_name o])%list)
      else (Ok tt, closed)
  | None => (Ok tt, closed)
  end.

(** [DatabaseConnector.close]. *)
Definition close (self : DatabaseConnector) (closed : list string)
  : result unit * list string :=
  match close_if_set (cursor self) closed with
  | (Ok _, closed1) => close_if_set (connection self) closed1
  | (Raise e, closed1) => (Raise e, closed1)
  end.

Record BusinessValidator := mk_validator {
  postgres : DatabaseConnector;
  oracle : DatabaseConnector;
  teradata : DatabaseConnector;
  snowflake : DatabaseConnector
}.

(** [BusinessValidator.__exit__]: the four connectors are closed in turn;
    the method returns [None], so it hides no exception of the block. *)
Definition __exit__ (self : BusinessValidator) (closed : list string)
  : result unit * list string :=
  match close (postgres self) closed with
  | (Raise e, closed1) => (Raise e, closed1)
  | (Ok _, closed1) =>
      match close (oracle self) closed1 with
      | (Raise e, closed2) => (Raise e, closed2)
      | (Ok _, closed2) =>
          match close (teradata self) closed2 with
          | (Raise e, closed3) => (Raise e, closed3)
          | (Ok _, closed3) => close (snowflake self) closed3
          end
      end
  end.

End Lifecycle.

(** ** Notions used in the statements *)

Import Database BusinessValidations.

Local Open Scope string_scope.
Local Open Scope list_scope.

(** The status a check reports. *)
Definition status (validation : dict pyobj) : option pyobj :=
  dict_get validation "validation_status".

Definition PASSED : option pyobj := Some (PyStr "PASSED").
Definition FAILED : option pyobj := Some (PyStr "FAILED").
Definition ERROR : option pyobj := Some (PyStr "ERROR").

(** The dict [results] of the customer check as first built. *)
Definition counts_dict (a b c d : value) : dict pyobj :=
  [ ("postgres_count", PyVal a);
    ("oracle_count", PyVal b);
    ("teradata_count", PyVal c);
    ("snowflake_count", PyVal d) ].

(** What the customer check returns once the four counts are read. *)
Definition customer_verdict (a b c d : value) : dict pyobj :=
  counts_dict a b c d ++
  (if Nat.eqb (length (distinct [a; b; c; d])) 1
   then [ ("validation_status", PyStr "PASSED");
          ("message", PyStr "Customer counts match across all systems") ]
   else [ ("validation_status", PyStr "FAILED");
          ("message",
           PyStr "Customer counts do not match across systems") ]).

(** *** The revenue check on result sets of the query's shape *)

(** A fetched row of the revenue query: the day, as text, and its revenue. *)
Definition day_row (p : string * value) : list value :=
  [VStr (fst p); snd p].

(** The days present in both sources, with the revenue of each side. *)
Definition joined_days (pg sf : list (string * value))
  : list (string * value * value) :=
  flat_map
    (fun p => map (fun q => (fst p, snd p, snd q))
                  (filter (fun q => String.eqb (fst p) (fst q)) sf))
    pg.

(** The number a cell holds, when it holds a finite one. *)
Definition number (v : value) : option Q :=
  match v with
  | VInt n => Some (inject_Z n)
  | VFloat (Fin q) => Some q
  | _ => None
  end.

Definition in_int64 (n : Z) : bool :=
  Z.leb Pandas.INT64_MIN n && Z.leb n Pandas.INT64_MAX.

(** A number as a driver delivers it and a column of 64-bit integers or
    of floats holds it: an int of 64 bits, or a float. *)
Definition plain (v : value) : bool :=
  match v with
  | VInt n => in_int64 n
  | VFloat (Fin q) => binary64 q
  | VFloat _ => true
  | _ => false
  end.

Definition plain_or_none (v : value) : bool :=
  match v with
  | VNone => true
  | _ => plain v
  end.

(** [abs((pg - sf) / pg) * 100] for one day, in numeric columns of dtypes
    [tp] and [ts]: the difference is taken in 64-bit integers when both
    columns hold integers and in float64 otherwise, the quotient, its
    absolute value and the product are taken in float64. *)
Definition percentage (tp ts : Pandas.dtype) (pg sf : value) : float :=
  Pandas.f_times100
    (Pandas.f_abs
       (Pandas.f_div
          (Pandas.to_float
             (Pandas.num_sub tp ts (Pandas.cast tp pg) (Pandas.cast ts sf)))
          (Pandas.to_float (Pandas.cast tp pg)))).

(** A joined day is flagged when its percentage is above 1. *)
Definition flagged (tp ts : Pandas.dtype) (day : string * value * value)
  : bool :=
  Pandas.f_gt1 (percentage tp ts (snd (fst day)) (snd day)).

(** The row of [discrepancies] for a joined day, in columns of dtypes
    [tp] and [ts] for the two revenues. *)
Definition discrepancy_row (tp ts : Pandas.dtype)
  (day : string * value * value) : list value :=
  [ VStr (fst (fst day));
    Pandas.cast tp (snd (fst day));
    Pandas.cast ts (snd day);
    VFloat (percentage tp ts (snd (fst day)) (snd day)) ].

(** The float of one hundredth, and the smallest ratio that, rounded and
    multiplied by 100, is told from it: one hundredth of 1 + 2^-52. *)
Definition hundredth : Q := 5764607523034235 # 576460752303423488.
Definition above_hundredth : Q := ((1 + (1 # 4503599627370496)) / 100)%Q.
Definition above_hundredth_float : Q :=
  1441151880758559 # 144115188075855872.
Definition above_one : Q := 4503599627370497 # 4503599627370496.


(** The order of the floats other than NaN. *)
Definition f_le (x y : float) : Prop :=
  match x, y with
  | NaN, _ | _, NaN => False
  | NInf, _ => True
  | _, PInf => True
  | Fin a, Fin b => (a <= b)%Q
  | _, _ => False
  end.

Definition discrepancy_columns (tp ts : Pandas.dtype)
  : list (string * Pandas.dtype) :=
  [ ("date", Pandas.object);
    ("daily_revenue_pg", tp);
    ("daily_revenue_sf", ts);
    ("diff_percentage", Pandas.float64) ].

(** *** The inventory check on result sets of the query's shape *)

(** A fetched row of the inventory query with an integer identifier, a
    name, an integer stock and the text of a timestamp. *)
Record item := mk_item {
  item_id : Z;
  item_name : string;
  item_stock : Z;
  item_updated : string
}.

(** Identifier and stock within 64 bits, as the integer columns of the
    databases deliver them. *)
Definition item_in_int64 (it : item) : bool :=
  in_int64 (item_id it) && in_int64 (item_stock it).

Definition item_row (it : item) : list value :=
  [VInt (item_id it); VStr (item_name it); VInt (item_stock it);
   VStr (item_updated it)].

Definition same_product (a b : item) : bool :=
  Z.eqb (item_id a) (item_id b) && String.eqb (item_name a) (item_name b).

(** The products present in both sources, with the row of each side. *)
Definition joined_items (pg ora : list item) : list (item * item) :=
  flat_map (fun a => map (fun b => (a, b)) (filter (same_product a) ora)) pg.

Definition stock_differs (p : item * item) : bool :=
  negb (Z.eqb (item_stock (fst p)) (item_stock (snd p))).

Definition item_record (it : item) : dict value :=
  [ ("product_id", VInt (item_id it));
    ("product_name", VStr (item_name it));
    ("current_stock", VInt (item_stock it));
    ("last_updated", VStr (item_updated it)) ].

Definition item_columns : list (string * Pandas.dtype) :=
  [ ("product_id", Pandas.int64); ("product_name", Pandas.object);
    ("current_stock", Pandas.int64); ("last_updated", Pandas.object) ].

(** A row of the merged inventory frame, and the record reported for it. *)
Definition joined_item_columns : list (string * Pandas.dtype) :=
  [ ("product_id", Pandas.int64); ("product_name", Pandas.object);
    ("current_stock_pg", Pandas.int64); ("last_updated_pg", Pandas.object);
    ("current_stock_oracle", Pandas.int64);
    ("last_updated_oracle", Pandas.object) ].

Definition joined_item_row (p : item * item) : list value :=
  [ VInt (item_id (fst p)); VStr (item_name (fst p));
    VInt (item_stock (fst p)); VStr (item_updated (fst p));
    VInt (item_stock (snd p)); VStr (item_updated (snd p)) ].

Definition joined_item_record (p : item * item) : dict value :=
  [ ("product_id", VInt (item_id (fst p)));
    ("product_name", VStr (item_name (fst p)));
    ("current_stock_pg", VInt (item_stock (fst p)));
    ("last_updated_pg", VStr (item_updated (fst p)));
    ("current_stock_oracle", VInt (item_stock (snd p)));
    ("last_updated_oracle", VStr (item_updated (snd p))) ].

(** The dtype of the column at a position of a frame, and whether [!=]
    holds between the cells of a row at two positions. *)
Definition column_dtype (df : Pandas.DataFrame) (i : nat) : Pandas.dtype :=
  nth i (map snd (Pandas.columns df)) Pandas.object.

Definition reported (df : Pandas.DataFrame) (i j : nat) (row : list value)
  : bool :=
  Pandas.differs (column_dtype df i) (column_dtype df j)
                 (nth i row VNone) (nth j row VNone).

(** *** Options and driver objects *)

(** The text [config] finds for an option: the environment first, then
    the repository. *)
Definition lookup (environ repository : dict string) (option : string)
  : Datatypes.option string :=
  match dict_get environ option with
  | Some s => Some s
  | None => dict_get repository option
  end.

(** The first option of a list that is defined nowhere. *)
Definition first_undefined (environ repository : dict string)
  (options : list string) : Datatypes.option string :=
  find (fun o => match lookup environ repository o with
                 | Some _ => false
                 | None => true
                 end) options.

(** The driver objects [__exit__] closes, in the order it reaches them:
    for each connector its cursor, then its connection, skipping the
    attributes that are [None] or false. *)
Definition set_objects (x : option Lifecycle.driver_object)
  : list Lifecycle.driver_object :=
  match x with
  | Some o => if Lifecycle.obj_truthy o then [o] else []
  | None => []
  end.

Definition connector_objects (c : Lifecycle.DatabaseConnector)
  : list Lifecycle.driver_object :=
  set_objects (Lifecycle.cursor c) ++ set_objects (Lifecycle.connection c).

Definition validator_objects (v : Lifecycle.BusinessValidator)
  : list Lifecycle.driver_object :=
  connector_objects (Lifecycle.postgres v)
  ++ connector_objects (Lifecycle.oracle v)
  ++ connector_objects (Lifecycle.teradata v)
  ++ connector_objects (Lifecycle.snowflake v).

(** Closing a list of objects one after the other, up to the first whose
    [close()] raises. *)
Fixpoint close_all (objs : list Lifecycle.driver_object)
  (closed : list string) : result unit * list string :=
  match objs with
  | [] => (Ok tt, closed)
  | o :: rest =>
      match Lifecycle.obj_close o with
      | Some e => (Raise e, closed ++ [Lifecycle.obj_name o])
      | None => close_all rest (closed ++ [Lifecycle.obj_name o])
      end
  end.

(** *** Sample sources *)

(** A connector that answers every query with the same result set, and
    one whose every query fails. *)
Definition source (cls : connector_class) (cols : list string)
  (fetched : list (list value)) : DatabaseConnector :=
  mk_connector cls (fun _ => ResultSet cols fetched).

Definition unreachable (cls : connector_class) : DatabaseConnector :=
  mk_connector cls (fun _ => DriverError "connection refused").

Definition revenue_columns : list string := ["date"; "daily_revenue"].

Definition inventory_columns : list string :=
  ["product_id"; "product_name"; "current_stock"; "last_updated"].

(** The validator whose PostgreSQL side holds [pg] and whose other side,
    Snowflake for the revenue check, holds [sf]. *)
Definition revenue_sources (pg sf : list (list value)) : BusinessValidator :=
  mk_validator (source PostgresConnector revenue_columns pg)
               (unreachable OracleConnector)
               (unreachable TeradataConnector)
               (source SnowflakeConnector revenue_columns sf).

Definition inventory_sources (pg ora : list (list value))
  : BusinessValidator :=
  mk_validator (source PostgresConnector inventory_columns pg)
               (source OracleConnector inventory_columns ora)
               (unreachable TeradataConnector)
               (unreachable SnowflakeConnector).

(** The tables A and B of the specification's scenario, with a fourth
    column for [last_updated]. *)
Definition table_A : list (list value) :=
  [ [VInt 1; VStr "x"; VInt 10; VStr "2024-05-01"];
    [VInt 2; VStr "y"; VInt 20; VStr "2024-05-01"];
    [VInt 3; VStr "z"; VInt 30; VStr "2024-05-01"] ].

Definition table_B : list (list value) :=
  [ [VInt 1; VStr "x"; VInt 10; VStr "2024-05-01"];
    [VInt 2; VStr "y"; VInt 25; VStr "2024-05-01"];
    [VInt 4; VStr "w"; VInt 40; VStr "2024-05-01"] ].

(** ** Dictionaries *)

Section DictFacts.

Variable V : Type.
Implicit Types (d : dict V) (k : string) (v : V) (ps : list (string * V)).

Lemma dict_get_set d k v k' :
  dict_get (dict_set d k v) k' =
  if String.eqb k k' then Some v else dict_get d k'.
Proof.
  induction d as [|[k0 v0] d IH]; simpl.
  - reflexivity.
  - destruct (String.eqb k0 k) eqn:E0; simpl.
    + apply String.eqb_eq in E0; subst k0.
      destruct (String.eqb k k'); reflexivity.
    + rewrite IH.
      destruct (String.eqb k0 k') eqn:E1; [|reflexivity].
      apply String.eqb_eq in E1; subst k0.
      now rewrite String.eqb_sym, E0.
Qed.

Lemma dict_set_length d k v :
  length (dict_set d k v) =
  if dict_contains d k then length d else S (length d).
Proof.
  unfold dict_contains.
  induction d as [|[k0 v0] d IH]; simpl; [reflexivity|].
  destruct (String.eqb k0 k); simpl; [reflexivity|].
  rewrite IH. now destruct (dict_get d k).
Qed.

Lemma dict_contains_set d k v k' :
  dict_contains (dict_set d k v) k' = String.eqb k k' || dict_contains d k'.
Proof.
  unfold dict_contains. rewrite dict_get_set.
  now destruct (String.eqb k k').
Qed.

(** Inserting a list of pairs: the value under a key is the one of the last
    pair with that key, and earlier contents survive under the other keys. *)
Lemma fold_set_get ps : forall d k,
  dict_get (fold_left (fun d p => dict_set d (fst p) (snd p)) ps d) k =
  match dict_get (rev ps) k with
  | Some v => Some v
  | None => dict_get d k
  end.
Proof.
  induction ps as [|[k0 v0] ps IH]; intros d k; simpl; [reflexivity|].
  rewrite IH, dict_get_set.
  assert (G : forall (l1 l2 : dict V),
             dict_get (l1 ++ l2) k =
             match dict_get l1 k with
             | Some v => Some v
             | None => dict_get l2 k
             end).
  { induction l1 as [|[k1 v1] l1 IH1]; intros l2; simpl; [reflexivity|].
    destruct (String.eqb k1 k); [reflexivity|apply IH1]. }
  rewrite G. destruct (dict_get (rev ps) k); [reflexivity|].
  simpl. now destruct (String.eqb k0 k).
Qed.

Lemma fold_set_contains ps : forall d k,
  dict_contains d k = true \/ In k (map fst ps) ->
  dict_contains (fold_left (fun d p => dict_set d (fst p) (snd p)) ps d) k
  = true.
Proof.
  induction ps as [|[k0 v0] ps IH]; intros d k H; simpl.
  - destruct H as [H|[]]; exact H.
  - apply IH. rewrite dict_contains_set. simpl in H.
    destruct H as [H|[H|H]].
    + left. rewrite H. apply orb_true_r.
    + subst k0. rewrite String.eqb_refl. left; reflexivity.
    + right; exact H.
Qed.

Lemma fold_set_length ps : forall d,
  (length (fold_left (fun d p => dict_set d (fst p) (snd p)) ps d)
   <= length d + length ps)%nat.
Proof.
  induction ps as [|p ps IH]; intros d; simpl; [lia|].
  specialize (IH (dict_set d (fst p) (snd p))).
  rewrite dict_set_length in IH.
  destruct (dict_contains d (fst p)); lia.
Qed.

Lemma dict_of_pairs_get_last ps1 k v ps2 :
  ~ In k (map fst ps2) ->
  dict_get (dict_of_pairs (ps1 ++ (k, v) :: ps2)) k = Some v.
Proof.
  intros Hlast. unfold dict_of_pairs.
  rewrite fold_left_app. simpl. rewrite fold_set_get.
  assert (G : dict_get (rev ps2) k = None).
  { assert (Hr : ~ In k (map fst (rev ps2)))
      by (rewrite map_rev, <- in_rev; exact Hlast).
    induction (rev ps2) as [|[k1 v1] l IHl]; simpl; [reflexivity|].
    destruct (String.eqb k1 k) eqn:E.
    - apply String.eqb_eq in E. exfalso. apply Hr. left; exact E.
    - apply IHl. intros Hin. apply Hr. right; exact Hin. }
  rewrite G, dict_get_set, String.eqb_refl. reflexivity.
Qed.

Lemma dict_of_pairs_shorter ps1 k v ps2 :
  In k (map fst ps1) ->
  (length (dict_of_pairs (ps1 ++ (k, v) :: ps2))
   < length (ps1 ++ (k, v) :: ps2))%nat.
Proof.
  intros Hdup. unfold dict_of_pairs.
  rewrite fold_left_app. simpl.
  pose proof (fold_set_contains ps1 [] k (or_intror Hdup)) as Hc.
  pose proof (fold_set_length ps1 []) as H1.
  set (d1 := fold_left (fun d p => dict_set d (fst p) (snd p)) ps1 []) in *.
  pose proof (fold_set_length ps2 (dict_set d1 k v)) as H2.
  rewrite dict_set_length, Hc in H2.
  rewrite length_app. simpl in *. lia.
Qed.

End DictFacts.

Lemma zip_length_le {A B} (xs : list A) : forall (ys : list B),
  (length (zip xs ys) <= length ys)%nat.
Proof.
  induction xs as [|x xs IH]; intros [|y ys]; simpl; try lia.
  specialize (IH ys). lia.
Qed.

Lemma dict_set_fresh {V} (d : dict V) k v :
  ~ In k (map fst d) -> dict_set d k v = d ++ [(k, v)].
Proof.
  induction d as [|[k0 v0] d IH]; simpl; intros H; [reflexivity|].
  destruct (String.eqb_spec k0 k) as [E|E].
  - exfalso. apply H. left; exact E.
  - f_equal. apply IH. intros Hin. apply H. right; exact Hin.
Qed.

(** With distinct keys nothing is overwritten: the dict is the list of pairs. *)
Lemma dict_of_pairs_nodup {V} (ps : list (string * V)) :
  NoDup (map fst ps) -> dict_of_pairs ps = ps.
Proof.
  unfold dict_of_pairs.
  enough (G : forall acc, NoDup (map fst (acc ++ ps)) ->
                fold_left (fun d p => dict_set d (fst p) (snd p)) ps acc
                = acc ++ ps) by (intros H; apply (G [] H)).
  induction ps as [|[k v] ps IH]; intros acc H; simpl.
  - now rewrite app_nil_r.
  - rewrite dict_set_fresh.
    + rewrite IH; rewrite <- app_assoc; [reflexivity|exact H].
    + rewrite map_app in H. simpl in H.
      apply NoDup_remove_2 in H. intros Hin. apply H.
      apply in_or_app. left; exact Hin.
Qed.

(** ** db_connectors/database.py: get_connector and execute_query *)

(** C9.  A name outside the four supported ones makes [get_connector] raise
    [ValueError] with the message ["Unsupported database type: <name>"];
    each of the four names calls the constructor of its own connector
    class and returns what that call yields. *)
Theorem get_connector_dispatch
  (construct : connector_class -> result DatabaseConnector)
  (db_type : string) :
  (~ In db_type ["postgres"; "oracle"; "teradata"; "snowflake"] ->
   get_connector construct db_type =
   Raise (mk_exn ValueError ("Unsupported database type: " ++ db_type)%string))
  /\ get_connector construct "postgres" = construct PostgresConnector
  /\ get_connector construct "oracle" = construct OracleConnector
  /\ get_connector construct "teradata" = construct TeradataConnector
  /\ get_connector construct "snowflake" = construct SnowflakeConnector.
Proof.
  split; [|repeat split; reflexivity].
  intros Hout. unfold get_connector, dict_contains, connectors, dict_get.
  repeat match goal with
  | |- context [String.eqb ?a db_type] =>
      destruct (String.eqb_spec a db_type) as [E|_];
      [exfalso; apply Hout; rewrite <- E; simpl; tauto|]
  end.
  reflexivity.
Qed.

Lemma get_connector_dispatch_witness :
  get_connector (fun cls => Ok (mk_connector cls (fun _ => DriverError "")))
                "mysql"
  = Raise (mk_exn ValueError "Unsupported database type: mysql").
Proof.
  apply (get_connector_dispatch
           (fun cls => Ok (mk_connector cls (fun _ => DriverError "")))
           "mysql").
  simpl. intros [H|[H|[H|[H|[]]]]]; discriminate H.
Defined.

(** C10.  [execute_query] turns every fetched row into the dict of the
    pairs (column name, cell) taken position by position.  The value under
    a name is that of the last column so named, so a repeated column name
    overwrites the earlier cell and the dict has fewer entries than the row
    has cells; with distinct names the dict is the list of pairs itself. *)
Theorem execute_query_zips_columns
  (self : DatabaseConnector) (query : string)
  (columns : list string) (fetched : list (list value)) :
  cursor self query = ResultSet columns fetched ->
  execute_query self query =
    Ok (map (fun row => dict_of_pairs (zip columns row)) fetched)
  /\ forall row, In row fetched ->
       (NoDup (map fst (zip columns row)) ->
        dict_of_pairs (zip columns row) = zip columns row)
       /\ forall ps1 c v ps2,
            zip columns row = ps1 ++ (c, v) :: ps2 ->
            ~ In c (map fst ps2) ->
            dict_get (dict_of_pairs (zip columns row)) c = Some v
            /\ (In c (map fst ps1) ->
                (length (dict_of_pairs (zip columns row)) < length row)%nat).
Proof.
  intros Hcur. split.
  - unfold execute_query. now rewrite Hcur.
  - intros row _. split; [apply dict_of_pairs_nodup|].
    intros ps1 c v ps2 Hzip Hlast. rewrite Hzip. split.
    + now apply dict_of_pairs_get_last.
    + intros Hdup.
      apply Nat.lt_le_trans with (m := length (ps1 ++ (c, v) :: ps2)).
      * now apply dict_of_pairs_shorter.
      * rewrite <- Hzip. apply zip_length_le.
Qed.

Lemma execute_query_zips_columns_witness :
  let self := mk_connector PostgresConnector
                (fun _ => ResultSet ["id"; "name"; "id"]
                                    [[VInt 1; VStr "a"; VInt 2]]) in
  execute_query self "SELECT a.id, a.name, b.id FROM a, b" =
    Ok [[("id", VInt 2); ("name", VStr "a")]]
  /\ dict_get (dict_of_pairs (zip ["id"; "name"; "id"]
                                  [VInt 1; VStr "a"; VInt 2])) "id"
     = Some (VInt 2)
  /\ (length (dict_of_pairs (zip ["id"; "name"; "id"]
                                 [VInt 1; VStr "a"; VInt 2])) < 3)%nat.
Proof.
  intros self.
  destruct (@execute_query_zips_columns self
              "SELECT a.id, a.name, b.id FROM a, b"
              ["id"; "name"; "id"] [[VInt 1; VStr "a"; VInt 2]] eq_refl)
    as [Hq Hrows].
  split; [exact Hq|].
  destruct (Hrows [VInt 1; VStr "a"; VInt 2] (or_introl eq_refl)) as [_ Hlast].
  destruct (Hlast [("id", VInt 1); ("name", VStr "a")] "id" (VInt 2) []
              eq_refl (fun H => H)) as [Hget Hlen].
  split; [exact Hget|].
  apply Hlen. simpl. left; reflexivity.
Defined.

(** ** Python equality on scalars *)

Lemma float_eqb_sym x y : float_eqb x y = float_eqb y x.
Proof.
  destruct x, y; simpl; try reflexivity.
  destruct (Qeq_bool q q0) eqn:E.
  - symmetry. now apply Qeq_bool_sym.
  - destruct (Qeq_bool q0 q) eqn:E'; [|reflexivity].
    apply Qeq_bool_sym in E'. congruence.
Qed.

Lemma float_eqb_trans x y z :
  float_eqb x y = true -> float_eqb y z = true -> float_eqb x z = true.
Proof.
  destruct x, y, z; simpl; try discriminate; try reflexivity.
  apply Qeq_bool_trans.
Qed.

Lemma value_eqb_sym a b : value_eqb a b = value_eqb b a.
Proof.
  destruct a, b; cbn [value_eqb]; try reflexivity.
  - apply Z.eqb_sym.
  - apply float_eqb_sym.
  - apply float_eqb_sym.
  - apply float_eqb_sym.
  - apply String.eqb_sym.
Qed.

Lemma value_eqb_int m n : value_eqb (VInt m) (VInt n) = true <-> m = n.
Proof. simpl. apply Z.eqb_eq. Qed.

Lemma inject_Z_eqb m n :
  float_eqb (Fin (inject_Z m)) (Fin (inject_Z n)) = true -> m = n.
Proof.
  simpl. intros H. apply Qeq_bool_iff in H. now apply inject_Z_injective.
Qed.

Lemma value_eqb_trans a b c :
  value_eqb a b = true -> value_eqb b c = true -> value_eqb a c = true.
Proof.
  destruct a as [|m|x|s], b as [|n|y|t], c as [|p|z|u]; cbn [value_eqb];
    try discriminate; try reflexivity.
  - rewrite !Z.eqb_eq. congruence.
  - rewrite Z.eqb_eq. now intros ->.
  - intros H1 H2. apply Z.eqb_eq. apply inject_Z_eqb.
    now apply float_eqb_trans with y.
  - apply float_eqb_trans.
  - rewrite Z.eqb_eq. now intros H1 ->.
  - apply float_eqb_trans.
  - apply float_eqb_trans.
  - apply float_eqb_trans.
  - rewrite !String.eqb_eq. congruence.
Qed.

(** [len(set([a, b, c, d])) == 1] exactly when [a] equals each of the
    other three. *)
Lemma distinct_four a b c d :
  length (distinct [a; b; c; d]) = 1%nat <->
  value_eqb a b = true /\ value_eqb a c = true /\ value_eqb a d = true.
Proof.
  generalize (value_eqb_trans a b c) (value_eqb_trans a b d)
             (value_eqb_trans a c d).
  cbn [distinct filter].
  destruct (value_eqb c d); cbn [negb filter];
    destruct (value_eqb b c); cbn [negb filter];
    destruct (value_eqb b d); cbn [negb filter];
    destruct (value_eqb a b); cbn [negb filter];
    destruct (value_eqb a c); cbn [negb filter];
    destruct (value_eqb a d); cbn [negb filter length];
    intros T1 T2 T3; split; intros H;
    try (destruct H as (H1 & H2 & H3));
    try discriminate; try (repeat split; reflexivity);
    try (specialize (T1 eq_refl eq_refl); discriminate);
    try (specialize (T2 eq_refl eq_refl); discriminate);
    try (specialize (T3 eq_refl eq_refl); discriminate).
Qed.

(** ** Rounding to binary64 *)

Section Rounding.

Local Open Scope Q_scope.

Lemma two_nonzero : ~ 2 == 0.
Proof. discriminate. Qed.

Lemma pow2_pos (e : Z) : 0 < 2 ^ e.
Proof. apply Qpower_0_lt. reflexivity. Qed.

Lemma pow2_le (a b : Z) : (a <= b)%Z -> 2 ^ a <= 2 ^ b.
Proof. intros H. apply Qpower_le_compat_l; [exact H|discriminate]. Qed.

Lemma pow2_lt (a b : Z) : (a < b)%Z -> 2 ^ a < 2 ^ b.
Proof. intros H. apply Qpower_lt_compat_l; [exact H|reflexivity]. Qed.

Lemma pow2_lt_inv (a b : Z) : 2 ^ a < 2 ^ b -> (a < b)%Z.
Proof. intros H. apply (Qpower_lt_compat_l_inv 2); [exact H|reflexivity]. Qed.

Lemma pow2_plus (a b : Z) : 2 ^ (a + b) == 2 ^ a * 2 ^ b.
Proof. apply Qpower_plus. discriminate. Qed.

Lemma pow2_Z (n : Z) : (0 <= n)%Z -> inject_Z (2 ^ n) == 2 ^ n.
Proof. intros H. now rewrite Zpower_Qpower. Qed.

Lemma pow2_minus (a b : Z) : 2 ^ (a - b) == 2 ^ a / 2 ^ b.
Proof. apply Qpower_minus. discriminate. Qed.

(** [flog2 q] is the exponent of the leading bit of [q]. *)
Lemma flog2_spec (q : Q) :
  0 < q -> 2 ^ flog2 q <= q /\ q < 2 ^ (flog2 q + 1).
Proof.
  destruct q as [n d]. intros Hq.
  assert (Hn : (0 < n)%Z) by (unfold Qlt in Hq; simpl in Hq; lia).
  unfold flog2. cbn [Qnum Qden].
  set (a := Z.log2 n). set (b := Z.log2 (Zpos d)).
  destruct (Z.log2_spec n Hn) as [Ha1 Ha2]. fold a in Ha1, Ha2.
  destruct (Z.log2_spec (Zpos d) (Pos2Z.is_pos d)) as [Hb1 Hb2].
  fold b in Hb1, Hb2.
  assert (Ha0 : (0 <= a)%Z) by apply Z.log2_nonneg.
  assert (Hb0 : (0 <= b)%Z) by apply Z.log2_nonneg.
  assert (Pa : (0 < 2 ^ a)%Z) by (apply Z.pow_pos_nonneg; lia).
  assert (Pb : (0 < 2 ^ b)%Z) by (apply Z.pow_pos_nonneg; lia).
  destruct (Qle_bool (2 ^ (a - b)) (n # d)) eqn:E.
  - split; [now apply Qle_bool_iff|].
    replace (a - b + 1)%Z with (Z.succ a - b)%Z by lia.
    rewrite pow2_minus, <- !pow2_Z by lia.
    apply Qlt_shift_div_l.
    + change 0 with (inject_Z 0). rewrite <- Zlt_Qlt. exact Pb.
    + unfold Qlt, Qmult, inject_Z. cbn [Qnum Qden].
      revert Ha2 Hb1. generalize (2 ^ Z.succ a)%Z (2 ^ b)%Z.
      intros za zb Ha2 Hb1. nia.
  - assert (Hlt : n # d < 2 ^ (a - b)).
    { apply Qnot_le_lt. intros H. apply Qle_bool_iff in H. congruence. }
    split.
    + replace (a - b - 1)%Z with (a - Z.succ b)%Z by lia.
      rewrite pow2_minus, <- !pow2_Z by lia.
      apply Qle_shift_div_r.
      * change 0 with (inject_Z 0). rewrite <- Zlt_Qlt.
        apply Z.pow_pos_nonneg; lia.
      * unfold Qle, Qmult, inject_Z. cbn [Qnum Qden].
        revert Ha1 Hb2 Pa. generalize (2 ^ a)%Z (2 ^ Z.succ b)%Z.
        intros za zb Ha1 Hb2 Pa. nia.
    + now replace (a - b - 1 + 1)%Z with (a - b)%Z by lia.
Qed.

Lemma flog2_unique (q : Q) (k : Z) :
  0 < q -> 2 ^ k <= q -> q < 2 ^ (k + 1) -> flog2 q = k.
Proof.
  intros Hq Hl Hu. destruct (flog2_spec Hq) as [Hl' Hu'].
  assert (H1 : (flog2 q < k + 1)%Z)
    by (apply pow2_lt_inv; eapply Qle_lt_trans; eassumption).
  assert (H2 : (k < flog2 q + 1)%Z)
    by (apply pow2_lt_inv; eapply Qle_lt_trans; eassumption).
  lia.
Qed.

Lemma flog2_monotone (a b : Q) : 0 < a -> a <= b -> (flog2 a <= flog2 b)%Z.
Proof.
  intros Ha Hab.
  assert (Hb : 0 < b) by (eapply Qlt_le_trans; eassumption).
  destruct (flog2_spec Ha) as [Hl _]. destruct (flog2_spec Hb) as [_ Hu].
  assert (H : (flog2 a < flog2 b + 1)%Z).
  { apply pow2_lt_inv. eapply Qle_lt_trans; [exact Hl|].
    eapply Qle_lt_trans; eassumption. }
  lia.
Qed.

(** Rounding to the nearest integer. *)
Lemma rne_bounds (q : Q) : (Qfloor q <= rne q <= Qfloor q + 1)%Z.
Proof.
  unfold rne. destruct (Qcompare _ _); [destruct (Z.even _)| |]; lia.
Qed.

Lemma rne_monotone (a b : Q) : a <= b -> (rne a <= rne b)%Z.
Proof.
  intros Hab. pose proof (Qfloor_resp_le _ _ Hab) as Hf.
  pose proof (rne_bounds a) as Ba. pose proof (rne_bounds b) as Bb.
  destruct (Z.eq_dec (Qfloor a) (Qfloor b)) as [E|N]; [|lia].
  clear Ba Bb Hf. unfold rne. rewrite E.
  destruct (Qcompare_spec (a - inject_Z (Qfloor b)) (1 # 2)) as [Ca|Ca|Ca];
    destruct (Qcompare_spec (b - inject_Z (Qfloor b)) (1 # 2)) as [Cb|Cb|Cb];
    try (destruct (Z.even (Qfloor b)); lia); try lia; exfalso; lra.
Qed.

Lemma rne_Z (n : Z) : rne (inject_Z n) = n.
Proof.
  unfold rne. rewrite Qfloor_Z.
  assert (H : Qcompare (inject_Z n - inject_Z n) (1 # 2) = Lt).
  { apply Qlt_alt.
    setoid_replace (inject_Z n - inject_Z n) with 0 by ring. reflexivity. }
  now rewrite H.
Qed.

Lemma rne_Qeq (a b : Q) : a == b -> rne a = rne b.
Proof.
  intros H. apply Z.le_antisymm; apply rne_monotone; rewrite H;
    apply Qle_refl.
Qed.

Lemma ulp_exponent_monotone (a b : Q) :
  0 < a -> a <= b -> (ulp_exponent a <= ulp_exponent b)%Z.
Proof.
  intros Ha Hab. unfold ulp_exponent.
  pose proof (flog2_monotone Ha Hab). lia.
Qed.

Lemma scaled_monotone (a b : Q) (e : Z) : a <= b -> a / 2 ^ e <= b / 2 ^ e.
Proof.
  intros H. unfold Qdiv. apply Qmult_le_compat_r; [exact H|].
  apply Qlt_le_weak, Qinv_lt_0_compat, pow2_pos.
Qed.

Lemma rounded_nonneg (q : Q) : 0 <= q -> 0 <= rounded q.
Proof.
  intros Hq. unfold rounded.
  apply Qmult_le_0_compat; [|apply Qlt_le_weak, pow2_pos].
  change 0 with (inject_Z 0). rewrite <- Zle_Qle.
  rewrite <- (rne_Z 0). apply rne_monotone.
  apply Qle_shift_div_l; [apply pow2_pos|]. now rewrite Qmult_0_l.
Qed.

Lemma rne_le_pow2 (x : Q) (k : Z) :
  (0 <= k)%Z -> x <= 2 ^ k -> inject_Z (rne x) <= 2 ^ k.
Proof.
  intros Hk Hx. apply Qle_trans with (inject_Z (2 ^ k)).
  - rewrite <- Zle_Qle. rewrite <- (rne_Z (2 ^ k)). apply rne_monotone.
    now rewrite (pow2_Z Hk).
  - rewrite (pow2_Z Hk). apply Qle_refl.
Qed.

Lemma rne_ge_pow2 (x : Q) (k : Z) :
  (0 <= k)%Z -> 2 ^ k <= x -> 2 ^ k <= inject_Z (rne x).
Proof.
  intros Hk Hx. apply Qle_trans with (inject_Z (2 ^ k)).
  - rewrite (pow2_Z Hk). apply Qle_refl.
  - rewrite <- Zle_Qle. rewrite <- (rne_Z (2 ^ k)) at 1.
    apply rne_monotone. now rewrite (pow2_Z Hk).
Qed.

(** A bound on the rounded mantissa gives a bound on the rounded value. *)
Lemma rounded_upper (q : Q) (k : Z) :
  (0 <= k)%Z -> q <= 2 ^ (k + ulp_exponent q) ->
  rounded q <= 2 ^ (k + ulp_exponent q).
Proof.
  intros Hk Hq. unfold rounded. rewrite pow2_plus.
  apply Qmult_le_compat_r; [|apply Qlt_le_weak, pow2_pos].
  apply (rne_le_pow2 Hk).
  apply Qle_shift_div_r; [apply pow2_pos|]. now rewrite <- pow2_plus.
Qed.

Lemma rounded_lower (q : Q) (k : Z) :
  (0 <= k)%Z -> 2 ^ (k + ulp_exponent q) <= q ->
  2 ^ (k + ulp_exponent q) <= rounded q.
Proof.
  intros Hk Hq. unfold rounded. rewrite pow2_plus.
  apply Qmult_le_compat_r; [|apply Qlt_le_weak, pow2_pos].
  apply (rne_ge_pow2 Hk).
  apply Qle_shift_div_l; [apply pow2_pos|]. now rewrite <- pow2_plus.
Qed.

Lemma rounded_monotone (a b : Q) : 0 < a -> a <= b -> rounded a <= rounded b.
Proof.
  intros Ha Hab.
  assert (Hb : 0 < b) by (eapply Qlt_le_trans; eassumption).
  pose proof (ulp_exponent_monotone Ha Hab) as He.
  destruct (Z.eq_dec (ulp_exponent a) (ulp_exponent b)) as [E|N].
  - unfold rounded. rewrite E.
    apply Qmult_le_compat_r; [|apply Qlt_le_weak, pow2_pos].
    rewrite <- Zle_Qle. apply rne_monotone. now apply scaled_monotone.
  - assert (Hlt : (ulp_exponent a < ulp_exponent b)%Z) by lia.
    destruct (flog2_spec Ha) as [_ Hua]. destruct (flog2_spec Hb) as [Hlb _].
    assert (Eb : ulp_exponent b = (flog2 b - 52)%Z)
      by (unfold ulp_exponent in *; lia).
    assert (Ea : (flog2 a - 52 <= ulp_exponent a)%Z)
      by (unfold ulp_exponent; lia).
    apply Qle_trans with (2 ^ (53 + ulp_exponent a)).
    + apply rounded_upper; [lia|].
      apply Qlt_le_weak. eapply Qlt_le_trans; [exact Hua|].
      apply pow2_le. lia.
    + apply Qle_trans with (2 ^ (52 + ulp_exponent b)).
      * apply pow2_le. lia.
      * apply rounded_lower; [lia|].
        replace (52 + ulp_exponent b)%Z with (flog2 b) by lia. exact Hlb.
Qed.

Lemma round_pos_monotone (a b : Q) :
  0 < a -> a <= b -> f_le (round_pos a) (round_pos b).
Proof.
  intros Ha Hab. pose proof (rounded_monotone Ha Hab) as H.
  unfold round_pos.
  destruct (Qle_bool (2 ^ 1024) (rounded b)) eqn:Eb.
  - destruct (Qle_bool (2 ^ 1024) (rounded a)); exact I.
  - destruct (Qle_bool (2 ^ 1024) (rounded a)) eqn:Ea.
    + exfalso. apply Qle_bool_iff in Ea.
      assert (Hb : 2 ^ 1024 <= rounded b) by (eapply Qle_trans; eassumption).
      apply Qle_bool_iff in Hb. congruence.
    + change (Qred (rounded a) <= Qred (rounded b)).
      now rewrite !Qred_correct.
Qed.

Lemma round_pos_nonneg (q : Q) : 0 <= q -> f_le (Fin 0) (round_pos q).
Proof.
  intros Hq. unfold round_pos.
  destruct (Qle_bool (2 ^ 1024) (rounded q)); [exact I|].
  change (0 <= Qred (rounded q)). rewrite Qred_correct.
  now apply rounded_nonneg.
Qed.

(** The sign of a rational is the sign of its numerator. *)
Lemma sign_pos (q : Q) : (Qnum q ?= 0)%Z = Gt <-> 0 < q.
Proof.
  unfold Qlt. cbn. rewrite Z.compare_gt_iff. lia.
Qed.

Lemma sign_neg (q : Q) : (Qnum q ?= 0)%Z = Lt <-> q < 0.
Proof.
  unfold Qlt. cbn. rewrite Z.compare_lt_iff. lia.
Qed.

Lemma sign_zero (q : Q) : (Qnum q ?= 0)%Z = Eq <-> q == 0.
Proof.
  unfold Qeq. cbn. rewrite Z.compare_eq_iff. lia.
Qed.

Lemma f_le_neg (x y : float) : f_le x y -> f_le (f_neg y) (f_neg x).
Proof.
  destruct x, y; cbn; try tauto. apply Qopp_le_compat.
Qed.

Lemma f_le_trans (x y z : float) : f_le x y -> f_le y z -> f_le x z.
Proof.
  destruct x, y, z; cbn; try tauto. apply Qle_trans.
Qed.

(** Rounding depends on the value of the rational only. *)
Lemma round_Qeq (a b : Q) : a == b -> round a = round b.
Proof. intros H. unfold round. now rewrite (Qred_complete _ _ H). Qed.

(** Rounding is monotone. *)
Theorem round_monotone (a b : Q) : a <= b -> f_le (round a) (round b).
Proof.
  intros Hab. unfold round.
  assert (Hab' : Qred a <= Qred b) by now rewrite !Qred_correct.
  revert Hab'. generalize (Qred a) (Qred b). clear a b Hab.
  intros a b Hab.
  destruct (Qnum a ?= 0)%Z eqn:Sa; destruct (Qnum b ?= 0)%Z eqn:Sb;
    try (apply sign_zero in Sa); try (apply sign_pos in Sa);
    try (apply sign_neg in Sa); try (apply sign_zero in Sb);
    try (apply sign_pos in Sb); try (apply sign_neg in Sb);
    try (exfalso; lra).
  - apply Qle_refl.
  - apply round_pos_nonneg. lra.
  - change (Fin 0) with (f_neg (Fin 0)). apply f_le_neg.
    apply round_pos_nonneg. lra.
  - apply f_le_neg. apply round_pos_monotone; lra.
  - apply f_le_trans with (Fin 0).
    + change (Fin 0) with (f_neg (Fin 0)).
      apply f_le_neg, round_pos_nonneg. lra.
    + apply round_pos_nonneg. lra.
  - now apply round_pos_monotone.
Qed.

Lemma Qopp_opp_eq (q : Q) : - - q = q.
Proof. destruct q. unfold Qopp. cbn. now rewrite Z.opp_involutive. Qed.

Lemma f_neg_involutive (x : float) : f_neg (f_neg x) = x.
Proof. destruct x; cbn; try reflexivity. now rewrite Qopp_opp_eq. Qed.

(** Rounding is symmetric. *)
Lemma round_opp (a : Q) : round (- a) = f_neg (round a).
Proof.
  unfold round. rewrite Qred_opp. generalize (Qred a). clear a. intros a.
  assert (E : (Qnum (- a) ?= 0)%Z = CompOpp (Qnum a ?= 0)%Z).
  { destruct a as [n d]. cbn. now destruct n. }
  rewrite E. destruct (Qnum a ?= 0)%Z; cbn [CompOpp].
  - reflexivity.
  - now rewrite f_neg_involutive.
  - now rewrite Qopp_opp_eq.
Qed.

Lemma round_zero (a : Q) : a == 0 -> round a = Fin 0.
Proof. intros H. now rewrite (round_Qeq H). Qed.

End Rounding.

Section Exact.

Local Open Scope Q_scope.

Lemma flog2_Qeq (a b : Q) : 0 < a -> a == b -> flog2 a = flog2 b.
Proof.
  intros Ha E.
  assert (Hb : 0 < b) by now rewrite <- E.
  apply Z.le_antisymm; apply flog2_monotone; try assumption;
    rewrite E; apply Qle_refl.
Qed.

Lemma ulp_exponent_Qeq (a b : Q) :
  0 < a -> a == b -> ulp_exponent a = ulp_exponent b.
Proof. intros Ha E. unfold ulp_exponent. now rewrite (flog2_Qeq Ha E). Qed.

(** A positive rational on the grid of its own exponent is not moved. *)
Lemma rounded_exact (q : Q) (m : Z) :
  q == inject_Z m * 2 ^ ulp_exponent q -> rounded q == q.
Proof.
  intros E. unfold rounded.
  assert (H : q / 2 ^ ulp_exponent q == inject_Z m).
  { rewrite E at 1. field. apply Qpower_not_0. discriminate. }
  rewrite (rne_Qeq H), rne_Z. now rewrite <- E.
Qed.

Lemma round_pos_exact (q : Q) (m : Z) :
  q == inject_Z m * 2 ^ ulp_exponent q -> q < 2 ^ 1024 ->
  round_pos q = Fin (Qred q).
Proof.
  intros E Hq. pose proof (rounded_exact E) as R. unfold round_pos.
  destruct (Qle_bool (2 ^ 1024) (rounded q)) eqn:O.
  - exfalso. apply Qle_bool_iff in O. rewrite R in O.
    exact (Qlt_not_le _ _ Hq O).
  - f_equal. now apply Qred_complete.
Qed.

Lemma Qred_inject_Z (n : Z) : Qred (inject_Z n) = inject_Z n.
Proof. apply Qred_identity. cbn. apply Z.gcd_1_r. Qed.

Lemma flog2_Z (n : Z) : (0 < n)%Z -> flog2 (inject_Z n) = Z.log2 n.
Proof.
  intros Hn. destruct (Z.log2_spec n Hn) as [H1 H2].
  pose proof (Z.log2_nonneg n) as H0.
  apply flog2_unique.
  - change 0 with (inject_Z 0). now rewrite <- Zlt_Qlt.
  - rewrite <- pow2_Z by exact H0. now rewrite <- Zle_Qle.
  - rewrite <- pow2_Z by lia. rewrite <- Zlt_Qlt.
    now replace (Z.log2 n + 1)%Z with (Z.succ (Z.log2 n)) by lia.
Qed.

(** Integers below 2^53 in absolute value are floats. *)
Lemma round_pos_Z (n : Z) :
  (0 < n < 2 ^ 53)%Z -> round_pos (inject_Z n) = Fin (inject_Z n).
Proof.
  intros [Hn Hb].
  assert (Hl : (Z.log2 n < 53)%Z) by (apply Z.log2_lt_pow2; lia).
  pose proof (Z.log2_nonneg n) as H0.
  assert (Ee : ulp_exponent (inject_Z n) = (Z.log2 n - 52)%Z)
    by (unfold ulp_exponent; rewrite (flog2_Z Hn); lia).
  rewrite <- (Qred_inject_Z n) at 2.
  apply round_pos_exact with (m := (n * 2 ^ (52 - Z.log2 n))%Z).
  - rewrite Ee, inject_Z_mult, pow2_Z by lia.
    rewrite <- Qmult_assoc, <- pow2_plus.
    replace (52 - Z.log2 n + (Z.log2 n - 52))%Z with 0%Z by lia.
    change (2 ^ 0) with 1. now rewrite Qmult_1_r.
  - apply Qlt_le_trans with (2 ^ 53).
    + rewrite <- pow2_Z by lia. now rewrite <- Zlt_Qlt.
    + apply pow2_le. lia.
Qed.

Lemma round_Z (n : Z) :
  (Z.abs n < 2 ^ 53)%Z -> round (inject_Z n) = Fin (inject_Z n).
Proof.
  intros Hn. destruct (Z.lt_trichotomy n 0) as [Neg|[->|Pos]].
  - assert (E : inject_Z n = - inject_Z (- n)).
    { unfold inject_Z, Qopp. cbn. now rewrite Z.opp_involutive. }
    rewrite E, round_opp. unfold round at 1.
    rewrite Qred_inject_Z. cbn [inject_Z Qnum].
    destruct (Z.compare_spec (- n) 0); try lia.
    rewrite round_pos_Z by lia. reflexivity.
  - reflexivity.
  - unfold round. rewrite Qred_inject_Z. cbn [inject_Z Qnum].
    destruct (Z.compare_spec n 0); try lia.
    apply round_pos_Z. lia.
Qed.

(** What it is to be a float. *)
Lemma binary64_round (q : Q) :
  binary64 q = true -> exists r, round q = Fin r /\ r == q.
Proof.
  unfold binary64. destruct (round q) as [r| | |]; try discriminate.
  intros H. exists r. split; [reflexivity|]. now apply Qeq_bool_iff.
Qed.

(** A positive float is a multiple of the unit in its last place. *)
Lemma binary64_grid (q : Q) :
  binary64 q = true -> 0 < q ->
  exists m : Z, q == inject_Z m * 2 ^ ulp_exponent q.
Proof.
  intros B Hq. destruct (@binary64_round q B) as (r & R & E).
  unfold round in R.
  assert (Hq' : 0 < Qred q) by now rewrite Qred_correct.
  apply sign_pos in Hq'. rewrite Hq' in R. unfold round_pos in R.
  destruct (Qle_bool _ _); [discriminate|].
  assert (Er : r = Qred (rounded (Qred q))) by congruence. subst r.
  rewrite Qred_correct in E. unfold rounded in E.
  assert (Ee : ulp_exponent (Qred q) = ulp_exponent q).
  { apply ulp_exponent_Qeq; [now rewrite Qred_correct|apply Qred_correct]. }
  rewrite Ee in E. eexists. symmetry. exact E.
Qed.

(** The bounds of a rounded number. *)
Lemma round_le (q u uf : Q) :
  q <= u -> round u = Fin uf -> f_le (round q) (Fin uf).
Proof. intros H E. rewrite <- E. now apply round_monotone. Qed.

Lemma round_ge (l q lf : Q) :
  l <= q -> round l = Fin lf -> f_le (Fin lf) (round q).
Proof. intros H E. rewrite <- E. now apply round_monotone. Qed.

Lemma round_between (l u q lf uf : Q) :
  l <= q -> q <= u -> round l = Fin lf -> round u = Fin uf ->
  exists r, round q = Fin r /\ lf <= r /\ r <= uf.
Proof.
  intros Hl Hu El Eu.
  pose proof (round_ge Hl El) as H1. pose proof (round_le Hu Eu) as H2.
  destruct (round q) as [r| | |]; cbn in H1, H2; try contradiction.
  now exists r.
Qed.

End Exact.

Section Threshold.

Import Pandas.

Local Open Scope Q_scope.

Lemma Qlt_bool_iff (a b : Q) : Qlt_bool a b = true <-> a < b.
Proof.
  unfold Qlt_bool. rewrite negb_true_iff. split.
  - intros H. apply Qnot_le_lt. intros Hle.
    apply Qle_bool_iff in Hle. congruence.
  - intros H. destruct (Qle_bool b a) eqn:E; [|reflexivity].
    apply Qle_bool_iff in E. exfalso. exact (Qlt_not_le _ _ H E).
Qed.

Lemma Qlt_bool_false (a b : Q) : b <= a -> Qlt_bool a b = false.
Proof.
  intros H. destruct (Qlt_bool a b) eqn:E; [|reflexivity].
  apply Qlt_bool_iff in E. exfalso. exact (Qlt_not_le _ _ E H).
Qed.


Lemma round_hundredth : round (1 # 100) = Fin hundredth.
Proof. vm_compute. reflexivity. Qed.

Lemma round_minus_hundredth : round (- (1 # 100)) = Fin (- hundredth).
Proof. vm_compute. reflexivity. Qed.

Lemma round_hundredth_times_100 : round (hundredth * 100) = Fin 1.
Proof. vm_compute. reflexivity. Qed.


Lemma round_above_hundredth :
  round above_hundredth = Fin above_hundredth_float.
Proof. vm_compute. reflexivity. Qed.

Lemma round_above_hundredth_times_100 :
  round (above_hundredth_float * 100) = Fin above_one.
Proof. vm_compute. reflexivity. Qed.

(** A ratio of at most one hundredth, rounded, gives a percentage of at
    most 1. *)
Lemma ratio_small (x : Q) :
  Qabs x <= 1 # 100 -> f_gt1 (f_times100 (f_abs (round x))) = false.
Proof.
  intros Hx. apply Qabs_Qle_condition in Hx. destruct Hx as [Hl Hu].
  destruct (round_between Hl Hu round_minus_hundredth round_hundredth)
    as (t & -> & Tl & Tu).
  cbn [f_abs f_times100].
  assert (Ha : Qabs t <= hundredth) by (apply Qabs_Qle_condition; tauto).
  assert (Hm : Qabs t * 100 <= hundredth * 100)
    by (apply Qmult_le_compat_r; [exact Ha|discriminate]).
  pose proof (round_le Hm round_hundredth_times_100) as Hr.
  destruct (round (Qabs t * 100)) as [p| | |]; cbn in Hr; try contradiction;
    try reflexivity.
  cbn [f_gt1]. now apply Qlt_bool_false.
Qed.

Lemma gt1_above (x : float) : f_le (Fin above_one) x -> f_gt1 x = true.
Proof.
  destruct x as [p| | |]; cbn [f_le]; try contradiction; try reflexivity.
  intros H. cbn [f_gt1]. apply Qlt_bool_iff.
  eapply Qlt_le_trans; [|exact H]. reflexivity.
Qed.

Lemma times100_above (t : Q) :
  above_hundredth_float <= t -> f_gt1 (f_times100 (Fin t)) = true.
Proof.
  intros Ht. cbn [f_times100]. apply gt1_above.
  apply round_ge with (l := above_hundredth_float * 100).
  - apply Qmult_le_compat_r; [exact Ht|discriminate].
  - exact round_above_hundredth_times_100.
Qed.

(** A ratio distinctly above one hundredth, rounded, gives a percentage
    above 1. *)
Lemma ratio_large (x : Q) :
  above_hundredth <= Qabs x -> f_gt1 (f_times100 (f_abs (round x))) = true.
Proof.
  intros Hx.
  destruct (Qlt_le_dec x 0) as [Neg|Pos].
  - rewrite Qabs_neg in Hx by now apply Qlt_le_weak.
    assert (Hx' : above_hundredth <= - x) by exact Hx.
    pose proof (round_ge Hx' round_above_hundredth) as H.
    rewrite round_opp in H.
    destruct (round x) as [t| | |]; cbn in H; try contradiction;
      try reflexivity.
    cbn [f_abs]. apply times100_above.
    eapply Qle_trans; [exact H|]. rewrite <- Qabs_opp. apply Qle_Qabs.
  - rewrite Qabs_pos in Hx by exact Pos.
    pose proof (round_ge Hx round_above_hundredth) as H.
    destruct (round x) as [t| | |]; cbn in H; try contradiction;
      try reflexivity.
    cbn [f_abs]. apply times100_above.
    eapply Qle_trans; [exact H|]. apply Qle_Qabs.
Qed.

(** The percentage of a difference [d] over a baseline [a] other than 0,
    both finite. *)
Lemma percentage_small (d a : Q) :
  ~ a == 0 -> Qabs d * 100 <= Qabs a ->
  f_gt1 (f_times100 (f_abs (f_div (Fin d) (Fin a)))) = false.
Proof.
  intros Ha H. cbn [f_div].
  destruct (Qeq_bool a 0) eqn:E; [apply Qeq_bool_iff in E; contradiction|].
  apply ratio_small. unfold Qdiv. rewrite Qabs_Qmult, Qabs_Qinv.
  assert (Hp : 0 < Qabs a).
  { destruct (Qlt_le_dec 0 (Qabs a)) as [L|G]; [exact L|].
    exfalso. apply Ha. apply Qabs_Qle_condition in G. lra. }
  apply Qle_shift_div_r; [exact Hp|].
  apply Qmult_le_r with (z := 100); [reflexivity|].
  setoid_replace ((1 # 100) * Qabs a * 100) with (Qabs a) by ring.
  exact H.
Qed.

Lemma percentage_large (d a : Q) :
  ~ a == 0 ->
  (1 + (1 # 4503599627370496)) * Qabs a <= Qabs d * 100 ->
  f_gt1 (f_times100 (f_abs (f_div (Fin d) (Fin a)))) = true.
Proof.
  intros Ha H. cbn [f_div].
  destruct (Qeq_bool a 0) eqn:E; [apply Qeq_bool_iff in E; contradiction|].
  apply ratio_large. unfold Qdiv. rewrite Qabs_Qmult, Qabs_Qinv.
  assert (Hp : 0 < Qabs a).
  { destruct (Qlt_le_dec 0 (Qabs a)) as [L|G]; [exact L|].
    exfalso. apply Ha. apply Qabs_Qle_condition in G. lra. }
  apply Qle_shift_div_l; [exact Hp|].
  apply Qmult_le_r with (z := 100); [reflexivity|].
  unfold above_hundredth.
  setoid_replace ((1 + (1 # 4503599627370496)) / 100 * Qabs a * 100)
    with ((1 + (1 # 4503599627370496)) * Qabs a) by field.
  exact H.
Qed.

End Threshold.

(** ** The three checks: verdict and error handling *)

(** Closes a goal whose premise equates two different statuses. *)
Ltac clash := let H := fresh "H" in intros H; discriminate H.

Section Checks.

Variable self : BusinessValidator.

Lemma customer_counts_shape results :
  customer_counts self = Ok results ->
  exists a b c d, results = counts_dict a b c d.
Proof.
  unfold customer_counts.
  destruct (customer_rows self) as [[[[r1 r2] r3] r4]|e]; cbn [bind];
    [|discriminate].
  destruct (getitem r1 "customer_count") as [a|]; cbn [bind]; [|discriminate].
  destruct (getitem r2 "customer_count") as [b|]; cbn [bind]; [|discriminate].
  destruct (getitem r3 "customer_count") as [c|]; cbn [bind]; [|discriminate].
  destruct (getitem r4 "customer_count") as [d|]; cbn [bind]; [|discriminate].
  intros H. injection H as <-. now exists a, b, c, d.
Qed.

Lemma customer_try_verdict a b c d :
  customer_counts self = Ok (counts_dict a b c d) ->
  customer_try self = Ok (customer_verdict a b c d).
Proof.
  intros H. unfold customer_try, customer_verdict. rewrite H. cbn [bind].
  change (len_set (dict_values (counts_dict a b c d)))
    with (Ok (A := nat) (length (distinct [a; b; c; d]))).
  cbn [bind].
  destruct (Nat.eqb (length (distinct [a; b; c; d])) 1); reflexivity.
Qed.

Lemma customer_try_raise e :
  customer_counts self = Raise e -> customer_try self = Raise e.
Proof. intros H. unfold customer_try. now rewrite H. Qed.

Lemma status_customer_verdict a b c d :
  status (customer_verdict a b c d) =
  if Nat.eqb (length (distinct [a; b; c; d])) 1 then PASSED else FAILED.
Proof.
  unfold customer_verdict.
  destruct (Nat.eqb (length (distinct [a; b; c; d])) 1); reflexivity.
Qed.


Lemma status_revenue_verdict d :
  status (revenue_verdict d) =
  if Nat.ltb 0 (Pandas.len d) then FAILED else PASSED.
Proof.
  unfold revenue_verdict. destruct (Nat.ltb 0 (Pandas.len d)); reflexivity.
Qed.

Lemma status_inventory_verdict d :
  status (inventory_verdict d) =
  if Nat.ltb 0 (Pandas.len d) then FAILED else PASSED.
Proof.
  unfold inventory_verdict. destruct (Nat.ltb 0 (Pandas.len d)); reflexivity.
Qed.



Lemma customer_error_iff :
  status (validate_customer_data self) = ERROR <->
  exists e, customer_counts self = Raise e.
Proof.
  unfold validate_customer_data.
  destruct (customer_counts self) as [results|e] eqn:E.
  - destruct (customer_counts_shape E) as (a & b & c & d & ->).
    rewrite (customer_try_verdict E). cbn [try_except].
    rewrite status_customer_verdict.
    split; [|intros [e He]; discriminate He].
    destruct (Nat.eqb (length (distinct [a; b; c; d])) 1); clash.
  - rewrite (customer_try_raise E). cbn [try_except].
    split; [intros _; now exists e|reflexivity].
Qed.


Lemma frame_error_iff (body : result Pandas.DataFrame)
  (verdict : Pandas.DataFrame -> dict pyobj) (prefix : string) :
  (forall d, status (verdict d) =
             if Nat.ltb 0 (Pandas.len d) then FAILED else PASSED) ->
  status (try_except (bind body (fun d => Ok (verdict d)))
                     (error_result prefix)) = ERROR <->
  exists e, body = Raise e.
Proof.
  intros Hverdict. destruct body as [d|e]; cbn [bind try_except].
  - rewrite Hverdict. split; [|intros [e He]; discriminate He].
    destruct (Nat.ltb 0 (Pandas.len d)); clash.
  - split; [intros _; now exists e|reflexivity].
Qed.



End Checks.

(** ** validate_customer_data: exact match of the four counts *)

Section CustomerCounts.

Variable self : BusinessValidator.
Variables r1 r2 r3 r4 : dict value.
Variables rest1 rest2 rest3 rest4 : list (dict value).
Variables a b c d : value.

Hypothesis pg_rows :
  execute_query (postgres self) customer_pg_query = Ok (r1 :: rest1).
Hypothesis oracle_rows :
  execute_query (oracle self) customer_oracle_query = Ok (r2 :: rest2).
Hypothesis teradata_rows :
  execute_query (teradata self) customer_teradata_query = Ok (r3 :: rest3).
Hypothesis snowflake_rows :
  execute_query (snowflake self) customer_snowflake_query = Ok (r4 :: rest4).
Hypothesis pg_count : dict_get r1 "customer_count" = Some a.
Hypothesis oracle_count : dict_get r2 "customer_count" = Some b.
Hypothesis teradata_count : dict_get r3 "customer_count" = Some c.
Hypothesis snowflake_count : dict_get r4 "customer_count" = Some d.

Lemma customer_counts_read :
  customer_counts self = Ok (counts_dict a b c d).
Proof using All.
  unfold customer_counts, customer_rows.
  rewrite pg_rows, oracle_rows, teradata_rows, snowflake_rows.
  cbn [bind first]. unfold getitem.
  now rewrite pg_count, oracle_count, teradata_count, snowflake_count.
Qed.

Lemma validate_customer_data_verdict :
  validate_customer_data self = customer_verdict a b c d.
Proof using All.
  unfold validate_customer_data.
  now rewrite (@customer_try_verdict self _ _ _ _ customer_counts_read).
Qed.

(** C2.  When the four sources each return a row with a count, the
    customer check reports PASSED exactly when the four counts are equal
    (Python's [==]; for integer counts, the same number four times).  When
    the counts have more than one distinct value it reports FAILED, and the
    result holds the count of every source under [postgres_count],
    [oracle_count], [teradata_count] and [snowflake_count]. *)
Theorem customer_exact_match :
  (status (validate_customer_data self) = PASSED <->
   value_eqb a b = true /\ value_eqb a c = true /\ value_eqb a d = true)
  /\ ((1 < length (distinct [a; b; c; d]))%nat ->
      validate_customer_data self =
      [ ("postgres_count", PyVal a);
        ("oracle_count", PyVal b);
        ("teradata_count", PyVal c);
        ("snowflake_count", PyVal d);
        ("validation_status", PyStr "FAILED");
        ("message", PyStr "Customer counts do not match across systems") ])
  /\ (forall m n p q : Z,
        a = VInt m -> b = VInt n -> c = VInt p -> d = VInt q ->
        (status (validate_customer_data self) = PASSED <->
         m = n /\ n = p /\ p = q)).
Proof using All.
  rewrite validate_customer_data_verdict, status_customer_verdict.
  assert (Hpassed :
    (if Nat.eqb (length (distinct [a; b; c; d])) 1 then PASSED else FAILED)
    = PASSED <->
    value_eqb a b = true /\ value_eqb a c = true /\ value_eqb a d = true).
  { rewrite <- distinct_four.
    destruct (Nat.eqb_spec (length (distinct [a; b; c; d])) 1) as [E|E].
    - tauto.
    - split; [clash|contradiction]. }
  split; [exact Hpassed|split].
  - intros Hmany. unfold customer_verdict.
    destruct (Nat.eqb_spec (length (distinct [a; b; c; d])) 1) as [E|E].
    + lia.
    + reflexivity.
  - intros m n p q -> -> -> ->. rewrite Hpassed, !value_eqb_int. lia.
Qed.

End CustomerCounts.

Lemma customer_exact_match_witness :
  let count n :=
    mk_connector PostgresConnector
      (fun _ => ResultSet ["customer_count"] [[VInt n]]) in
  validate_customer_data
    (mk_validator (count 5%Z) (count 5%Z) (count 5%Z) (count 6%Z))
  = [ ("postgres_count", PyVal (VInt 5));
      ("oracle_count", PyVal (VInt 5));
      ("teradata_count", PyVal (VInt 5));
      ("snowflake_count", PyVal (VInt 6));
      ("validation_status", PyStr "FAILED");
      ("message", PyStr "Customer counts do not match across systems") ].
Proof.
  intros count.
  refine (proj1 (proj2
    (@customer_exact_match
       (mk_validator (count 5%Z) (count 5%Z) (count 5%Z) (count 6%Z))
       [("customer_count", VInt 5)] [("customer_count", VInt 5)]
       [("customer_count", VInt 5)] [("customer_count", VInt 6)]
       [] [] [] [] (VInt 5) (VInt 5) (VInt 5) (VInt 6)
       eq_refl eq_refl eq_refl eq_refl eq_refl eq_refl eq_refl eq_refl)) _).
  simpl. lia.
Defined.

(** ** Exceptions never leave a check *)

Lemma execute_query_error (conn : DatabaseConnector) (query m : string) :
  cursor conn query = DriverError m ->
  execute_query conn query =
  Raise (mk_exn Exception ("Error executing query: " ++ m)%string).
Proof. intros H. unfold execute_query. now rewrite H. Qed.

(** Runs a chain of [bind]s whose outcome is to be some exception: each
    step either raises, which ends the chain, or returns and goes on. *)
Ltac raises :=
  repeat match goal with
  | |- exists e, Raise ?x = Raise e => exists x; reflexivity
  | H : ?c = Raise _ |- exists e, bind ?c _ = Raise e =>
      rewrite H; cbn [bind]
  | |- exists e, bind ?c _ = Raise e =>
      let E := fresh "E" in destruct c eqn:E; cbn [bind]
  end.

Section ErrorHandling.

Variable self : BusinessValidator.

Lemma report_customer :
  exists s m, report (validate_customer_data self) = Ok [s; m]
              /\ status (validate_customer_data self) = Some s.
Proof.
  unfold validate_customer_data.
  destruct (customer_counts self) as [results|e] eqn:E.
  - destruct (customer_counts_shape self E) as (a & b & c & d & ->).
    rewrite (customer_try_verdict self E). cbn [try_except].
    unfold customer_verdict.
    destruct (Nat.eqb (length (distinct [a; b; c; d])) 1);
      do 2 eexists; split; reflexivity.
  - rewrite (customer_try_raise self E). do 2 eexists; split; reflexivity.
Qed.

Lemma report_revenue :
  exists s m, report (validate_revenue_data self) = Ok [s; m]
              /\ status (validate_revenue_data self) = Some s.
Proof.
  unfold validate_revenue_data, revenue_try.
  destruct (revenue_discrepancies self) as [d|e]; cbn [bind try_except].
  - unfold revenue_verdict.
    destruct (Nat.ltb 0 (Pandas.len d)); do 2 eexists; split; reflexivity.
  - do 2 eexists; split; reflexivity.
Qed.

Lemma report_inventory :
  exists s m, report (validate_inventory_levels self) = Ok [s; m]
              /\ status (validate_inventory_levels self) = Some s.
Proof.
  unfold validate_inventory_levels, inventory_try.
  destruct (inventory_discrepancies self) as [d|e]; cbn [bind try_except].
  - unfold inventory_verdict.
    destruct (Nat.ltb 0 (Pandas.len d)); do 2 eexists; split; reflexivity.
  - do 2 eexists; split; reflexivity.
Qed.

(** C5.  An exception raised inside the [try] block of a check is caught:
    the check returns the dict with [validation_status] ['ERROR'] and the
    message made of the check's prefix followed by the text of the
    exception.  In particular a source whose query fails gives status
    ERROR, and [main]'s sequence of the three checks always runs to its
    end, whichever of them failed. *)
Theorem exceptions_become_error_results :
  (forall e, customer_try self = Raise e ->
     validate_customer_data self =
     [ ("validation_status", PyStr "ERROR");
       ("message", PyStr ("Error during validation: " ++ exn_str e)%string) ])
  /\ (forall e, revenue_try self = Raise e ->
        validate_revenue_data self =
        [ ("validation_status", PyStr "ERROR");
          ("message",
           PyStr ("Error during validation: " ++ exn_str e)%string) ])
  /\ (forall e, inventory_try self = Raise e ->
        validate_inventory_levels self =
        [ ("validation_status", PyStr "ERROR");
          ("message",
           PyStr ("Error during inventory validation: "
                  ++ exn_str e)%string) ])
  /\ (forall m,
        cursor (postgres self) customer_pg_query = DriverError m ->
        validate_customer_data self =
        [ ("validation_status", PyStr "ERROR");
          ("message",
           PyStr ("Error during validation: Error executing query: "
                  ++ m)%string) ])
  /\ (forall m,
        cursor (postgres self) customer_pg_query = DriverError m
        \/ cursor (oracle self) customer_oracle_query = DriverError m
        \/ cursor (teradata self) customer_teradata_query = DriverError m
        \/ cursor (snowflake self) customer_snowflake_query = DriverError m ->
        status (validate_customer_data self) = ERROR)
  /\ (forall m,
        cursor (postgres self) revenue_pg_query = DriverError m
        \/ cursor (snowflake self) revenue_snowflake_query = DriverError m ->
        status (validate_revenue_data self) = ERROR)
  /\ (forall m,
        cursor (postgres self) inventory_pg_query = DriverError m
        \/ cursor (oracle self) inventory_oracle_query = DriverError m ->
        status (validate_inventory_levels self) = ERROR)
  /\ (exists s1 m1 s2 m2 s3 m3,
        run_checks self = Ok [s1; m1; s2; m2; s3; m3]
        /\ status (validate_customer_data self) = Some s1
        /\ status (validate_revenue_data self) = Some s2
        /\ status (validate_inventory_levels self) = Some s3).
Proof.
  pose proof (customer_error_iff self) as Hc.
  pose proof (@frame_error_iff (revenue_discrepancies self) revenue_verdict
                "Error during validation: " status_revenue_verdict) as Hr.
  pose proof (@frame_error_iff (inventory_discrepancies self)
                inventory_verdict "Error during inventory validation: "
                status_inventory_verdict) as Hi.
  repeat match goal with |- _ /\ _ => split end.
  - intros e H. unfold validate_customer_data. now rewrite H.
  - intros e H. unfold validate_revenue_data. now rewrite H.
  - intros e H. unfold validate_inventory_levels. now rewrite H.
  - intros m H. apply execute_query_error in H.
    unfold validate_customer_data, customer_try, customer_counts,
      customer_rows.
    now rewrite H.
  - intros m H. apply Hc.
    assert (Hrows : exists e, customer_rows self = Raise e).
    { unfold customer_rows.
      destruct H as [H|[H|[H|H]]]; apply execute_query_error in H; raises. }
    destruct Hrows as [e He]. exists e. unfold customer_counts.
    now rewrite He.
  - intros m H. apply Hr.
    assert (Hmerged : exists e, revenue_merged self = Raise e).
    { unfold revenue_merged.
      destruct H as [H|H]; apply execute_query_error in H; raises. }
    destruct Hmerged as [e He]. exists e. unfold revenue_discrepancies.
    now rewrite He.
  - intros m H. apply Hi.
    assert (Hmerged : exists e, inventory_merged self = Raise e).
    { unfold inventory_merged.
      destruct H as [H|H]; apply execute_query_error in H; raises. }
    destruct Hmerged as [e He]. exists e. unfold inventory_discrepancies.
    now rewrite He.
  - destruct report_customer as (s1 & m1 & R1 & S1).
    destruct report_revenue as (s2 & m2 & R2 & S2).
    destruct report_inventory as (s3 & m3 & R3 & S3).
    exists s1, m1, s2, m2, s3, m3. unfold run_checks.
    rewrite R1, R2, R3. repeat split; assumption.
Qed.

End ErrorHandling.

Lemma exceptions_become_error_results_witness :
  let down := mk_connector PostgresConnector
                (fun _ => DriverError "connection refused") in
  validate_customer_data (mk_validator down down down down) =
  [ ("validation_status", PyStr "ERROR");
    ("message",
     PyStr ("Error during validation: Error executing query: "
            ++ "connection refused")%string) ].
Proof.
  intros down.
  destruct (exceptions_become_error_results
              (mk_validator down down down down))
    as (Hcatch & _ & _ & Hquery & _).
  exact (Hquery "connection refused" eq_refl).
Defined.

(** ** Empty result sets *)

(** C6, as the code behaves.  A frame built from no record has no column,
    so [pd.merge] finds no key column and raises [KeyError]: when the two
    sources of a row-aligned check return no row, the check reports ERROR
    with the name of its first join key, not PASSED. *)
Theorem empty_result_sets_give_error
  (self : BusinessValidator) (cols1 cols2 : list string) :
  (cursor (postgres self) revenue_pg_query = ResultSet cols1 [] ->
   cursor (snowflake self) revenue_snowflake_query = ResultSet cols2 [] ->
   validate_revenue_data self =
   [ ("validation_status", PyStr "ERROR");
     ("message", PyStr "Error during validation: 'date'") ])
  /\ (cursor (postgres self) inventory_pg_query = ResultSet cols1 [] ->
      cursor (oracle self) inventory_oracle_query = ResultSet cols2 [] ->
      validate_inventory_levels self =
      [ ("validation_status", PyStr "ERROR");
        ("message",
         PyStr "Error during inventory validation: 'product_id'") ]).
Proof.
  split; intros Hpg Hother.
  - unfold validate_revenue_data, revenue_try, revenue_discrepancies,
      revenue_merged, execute_query.
    rewrite Hpg, Hother. reflexivity.
  - unfold validate_inventory_levels, inventory_try,
      inventory_discrepancies, inventory_merged, execute_query.
    rewrite Hpg, Hother. reflexivity.
Qed.

Lemma empty_result_sets_give_error_witness :
  let empty cls cols := mk_connector cls (fun _ => ResultSet cols []) in
  let self :=
    mk_validator
      (empty PostgresConnector ["date"; "daily_revenue"])
      (empty OracleConnector
         ["product_id"; "product_name"; "current_stock"; "last_updated"])
      (empty TeradataConnector ["customer_count"])
      (empty SnowflakeConnector ["date"; "daily_revenue"]) in
  validate_revenue_data self =
  [ ("validation_status", PyStr "ERROR");
    ("message", PyStr "Error during validation: 'date'") ].
Proof.
  intros empty self.
  exact (proj1 (empty_result_sets_give_error self
                  ["date"; "daily_revenue"] ["date"; "daily_revenue"])
               eq_refl eq_refl).
Defined.

(** ** pd.merge is an inner join *)

Section MergeFacts.

Import Pandas.

Variables left right : DataFrame.
Variable on : list string.
Variable suffixes : string * string.
Variable merged : DataFrame.
Hypothesis merge_ok : merge left right on suffixes = Ok merged.

Lemma merge_frame :
  merged = mk_frame (merged_columns on left right suffixes)
                    (joined_rows on left right).
Proof using merge_ok.
  revert merge_ok. unfold merge.
  destruct (check_keys on left right); cbn [bind]; [|discriminate].
  destruct (check_dtypes on left right); cbn [bind]; [|discriminate].
  destruct (first_dup _); [discriminate|].
  intros H. now injection H as <-.
Qed.

(** The rows of the merged frame are the concatenations of a left row and
    a right row whose keys match, and only those. *)
Lemma merge_rows row :
  In row (rows merged) <->
  exists l r, In l (rows left) /\ In r (rows right)
              /\ keys_match on left right l r = true
              /\ row = l ++ drop_keys on (labels right) r.
Proof using merge_ok.
  rewrite merge_frame. cbn [rows]. unfold joined_rows.
  rewrite in_flat_map. split.
  - intros (l & Hl & Hrow). apply in_map_iff in Hrow.
    destruct Hrow as (r & <- & Hr). apply filter_In in Hr.
    exists l, r. tauto.
  - intros (l & r & Hl & Hr & Hk & ->). exists l. split; [exact Hl|].
    apply in_map_iff. exists r. split; [reflexivity|].
    apply filter_In. tauto.
Qed.

End MergeFacts.

(** Rows whose key cells are all missing match each other. *)
Lemma null_keys_match (left right : Pandas.DataFrame) (on : list string)
  (l r : list value) :
  forallb Pandas.isna (Pandas.cells_at (Pandas.labels left) on l) = true ->
  forallb Pandas.isna (Pandas.cells_at (Pandas.labels right) on r) = true ->
  Pandas.keys_match on left right l r = true.
Proof.
  unfold Pandas.keys_match, Pandas.cells_at, Pandas.dtypes_at.
  induction on as [|k ks IH]; cbn [map zip forallb]; [reflexivity|].
  rewrite !andb_true_iff. intros [Hl Hls] [Hr Hrs].
  split; [|now apply IH].
  cbn [fst snd]. unfold Pandas.key_eqb. now rewrite Hl, Hr.
Qed.


Section SelectFacts.

Import Pandas.

Lemma zip_map_map {A B C} (g : A -> B) (h : A -> C) (l : list A) :
  zip (map g l) (map h l) = map (fun x => (g x, h x)) l.
Proof. induction l as [|x l IH]; simpl; [reflexivity|now rewrite IH]. Qed.

(** Selecting with a mask computed row by row is filtering the rows. *)
Lemma select_rows (df : DataFrame) (f : list value -> bool) :
  rows (select df (map f (rows df))) = filter f (rows df).
Proof.
  unfold select. cbn [rows].
  induction (rows df) as [|row l IH]; simpl; [reflexivity|].
  destruct (f row); simpl; now rewrite IH.
Qed.

Lemma getitem_ok (df : DataFrame) (c : string) (s : Series) :
  getitem df c = Ok s ->
  exists i, index_of c (labels df) = Some i
            /\ s_cells s = map (fun row => nth i row VNone) (rows df).
Proof.
  unfold getitem. destruct (index_of c (labels df)) as [i|]; [|discriminate].
  intros H. injection H as <-. now exists i.
Qed.

Lemma getitem_raise (df : DataFrame) (c : string) (e : exn) :
  getitem df c = Raise e -> index_of c (labels df) = None.
Proof.
  unfold getitem. now destruct (index_of c (labels df)).
Qed.

End SelectFacts.

(** ** validate_inventory_levels: what the inner join reports *)

Lemma filter_nonempty {A} (f : A -> bool) (l : list A) :
  filter f l <> [] <-> exists x, In x l /\ f x = true.
Proof.
  split.
  - destruct (filter f l) as [|x rest] eqn:E; [contradiction|]. intros _.
    exists x. apply filter_In. rewrite E. now left.
  - intros (x & Hx & Hf) E.
    assert (H : In x (filter f l)) by (apply filter_In; tauto).
    now rewrite E in H.
Qed.

Section InventoryJoin.

Variable self : BusinessValidator.
Variables pg_rows oracle_rows : list (dict value).
Variable merged_data : Pandas.DataFrame.

Hypothesis pg_query_ok :
  execute_query (postgres self) inventory_pg_query = Ok pg_rows.
Hypothesis oracle_query_ok :
  execute_query (oracle self) inventory_oracle_query = Ok oracle_rows.
Hypothesis merge_ok :
  Pandas.merge (Pandas.DataFrame_of_records pg_rows)
               (Pandas.DataFrame_of_records oracle_rows)
               ["product_id"; "product_name"] ("_pg", "_oracle")
  = Ok merged_data.

Lemma inventory_merged_ok : inventory_merged self = Ok merged_data.
Proof using All.
  unfold inventory_merged. rewrite pg_query_ok, oracle_query_ok.
  exact merge_ok.
Qed.

(** The discrepancies are the joined rows whose two stock cells differ,
    as [!=] compares the two stock columns. *)
Lemma inventory_discrepancies_rows i j :
  Pandas.index_of "current_stock_pg" (Pandas.labels merged_data) = Some i ->
  Pandas.index_of "current_stock_oracle" (Pandas.labels merged_data)
  = Some j ->
  inventory_discrepancies self =
  Ok (Pandas.mk_frame (Pandas.columns merged_data)
        (filter (reported merged_data i j) (Pandas.rows merged_data))).
Proof using All.
  intros Hi Hj. unfold inventory_discrepancies.
  rewrite inventory_merged_ok. cbn [bind]. unfold Pandas.getitem.
  rewrite Hi, Hj. cbn [bind]. f_equal.
  unfold Pandas.ne, Pandas.column_cells.
  cbn [Pandas.s_cells Pandas.s_dtype].
  rewrite zip_map_map, map_map. cbn [fst snd].
  unfold Pandas.select. f_equal.
  exact (select_rows merged_data (reported merged_data i j)).
Qed.



End InventoryJoin.



(** ** Missing join keys *)

(** C8, as the code behaves.  In both row-aligned checks a row whose join
    key cells are all missing and a row of the other source whose join key
    cells are all missing match each other: their concatenation is a row
    of the merged frame, compared like every other joined row. *)
Theorem null_keys_are_joined (self : BusinessValidator)
  (rows1 rows2 : list (dict value)) (merged_data : Pandas.DataFrame)
  (l r : list value) :
  let left := Pandas.DataFrame_of_records rows1 in
  let right := Pandas.DataFrame_of_records rows2 in
  In l (Pandas.rows left) ->
  In r (Pandas.rows right) ->
  (execute_query (postgres self) revenue_pg_query = Ok rows1 ->
   execute_query (snowflake self) revenue_snowflake_query = Ok rows2 ->
   Pandas.merge left right ["date"] ("_pg", "_sf") = Ok merged_data ->
   forallb Pandas.isna (Pandas.cells_at (Pandas.labels left) ["date"] l)
   = true ->
   forallb Pandas.isna (Pandas.cells_at (Pandas.labels right) ["date"] r)
   = true ->
   revenue_merged self = Ok merged_data
   /\ In (l ++ Pandas.drop_keys ["date"] (Pandas.labels right) r)
         (Pandas.rows merged_data))
  /\ (execute_query (postgres self) inventory_pg_query = Ok rows1 ->
      execute_query (oracle self) inventory_oracle_query = Ok rows2 ->
      Pandas.merge left right ["product_id"; "product_name"]
                   ("_pg", "_oracle") = Ok merged_data ->
      forallb Pandas.isna
        (Pandas.cells_at (Pandas.labels left)
                         ["product_id"; "product_name"] l) = true ->
      forallb Pandas.isna
        (Pandas.cells_at (Pandas.labels right)
                         ["product_id"; "product_name"] r) = true ->
      inventory_merged self = Ok merged_data
      /\ In (l ++ Pandas.drop_keys ["product_id"; "product_name"]
                    (Pandas.labels right) r)
            (Pandas.rows merged_data)).
Proof.
  intros left right Hl Hr. split; intros Hq1 Hq2 Hmerge Hnl Hnr.
  - split.
    + unfold revenue_merged. rewrite Hq1, Hq2. exact Hmerge.
    + apply (@merge_rows _ _ _ _ _ Hmerge). exists l, r.
      repeat split; try assumption. now apply null_keys_match.
  - split.
    + unfold inventory_merged. rewrite Hq1, Hq2. exact Hmerge.
    + apply (@merge_rows _ _ _ _ _ Hmerge). exists l, r.
      repeat split; try assumption. now apply null_keys_match.
Qed.

(** C8, the claim on two one-row tables whose date is NULL.  The two rows
    are joined, and their revenues, 100 and 200, are reported as a
    discrepancy of that joined day. *)
Lemma null_keys_give_a_matched_pair :
  validate_revenue_data
    (revenue_sources [[VNone; VInt 100]] [[VNone; VInt 200]]) =
  [ ("validation_status", PyStr "FAILED");
    ("message", PyStr "Found 1 days with revenue discrepancy > 1%");
    ("discrepancies",
     PyRecords
       [ [ ("date", VNone);
           ("daily_revenue_pg", VInt 100);
           ("daily_revenue_sf", VInt 200);
           ("diff_percentage", VFloat (Fin 100)) ] ]) ].
Proof. vm_compute. reflexivity. Qed.

Lemma null_keys_are_joined_witness :
  In [VNone; VInt 100; VInt 200]
     (Pandas.rows
        (Pandas.mk_frame
           [ ("date", Pandas.object); ("daily_revenue_pg", Pandas.int64);
             ("daily_revenue_sf", Pandas.int64) ]
           [[VNone; VInt 100; VInt 200]])).
Proof.
  refine (proj2 (proj1
    (@null_keys_are_joined
       (revenue_sources [[VNone; VInt 100]] [[VNone; VInt 200]])
       [[("date", VNone); ("daily_revenue", VInt 100)]]
       [[("date", VNone); ("daily_revenue", VInt 200)]]
       (Pandas.mk_frame
          [ ("date", Pandas.object); ("daily_revenue_pg", Pandas.int64);
            ("daily_revenue_sf", Pandas.int64) ]
          [[VNone; VInt 100; VInt 200]])
       [VNone; VInt 100] [VNone; VInt 200]
       (or_introl eq_refl) (or_introl eq_refl))
    eq_refl eq_refl eq_refl eq_refl eq_refl)).
Defined.

(** ** validate_revenue_data on numeric revenue columns *)

Section FloatFacts.

Import Pandas.

Local Open Scope Q_scope.

Lemma inject_Z_minus (m n : Z) :
  inject_Z (m - n) = inject_Z m - inject_Z n.
Proof.
  unfold inject_Z, Qminus, Qplus, Qopp. simpl. f_equal. lia.
Qed.

Lemma to_float_cast (t : dtype) (v : value) :
  to_float (cast t v) = to_float v.
Proof. destruct t, v; reflexivity. Qed.


Lemma wrap64_small (z : Z) :
  (- 2 ^ 63 <= z < 2 ^ 63)%Z -> wrap64 z = z.
Proof.
  intros H. unfold wrap64. rewrite Z.mod_small; lia.
Qed.


End FloatFacts.

Section FrameFacts.

Import Pandas.

Variable A : Type.
Variable J : list A.

(** Frames and series whose rows and cells are given by functions over one
    list of days: each operation of the revenue check acts day by day. *)
Lemma getitem_map (cols : list (string * dtype)) (r : A -> list value)
  (c : string) (i : nat) :
  index_of c (map fst cols) = Some i ->
  getitem (mk_frame cols (map r J)) c =
  Ok (mk_series (nth i (map snd cols) object)
                (map (fun j => nth i (r j) VNone) J)).
Proof.
  intros Hi. unfold getitem, labels, column_cells. cbn [columns rows].
  now rewrite Hi, map_map.
Qed.

Lemma sub_numeric (t1 t2 : dtype) (f g : A -> value) :
  is_numeric_dtype t1 = true -> is_numeric_dtype t2 = true ->
  sub (mk_series t1 (map f J)) (mk_series t2 (map g J)) =
  Ok (mk_series (sub_dtype t1 t2)
                (map (fun j => num_sub t1 t2 (f j) (g j)) J)).
Proof.
  intros H1 H2. unfold sub. cbn [s_dtype s_cells]. rewrite H1, H2.
  cbn [andb]. now rewrite zip_map_map, map_map.
Qed.

Lemma sub_dtype_numeric (t1 t2 : dtype) :
  is_numeric_dtype (sub_dtype t1 t2) = true.
Proof. now destruct t1, t2. Qed.

Lemma truediv_numeric (t1 t2 : dtype) (f g : A -> value) :
  is_numeric_dtype t1 = true -> is_numeric_dtype t2 = true ->
  truediv (mk_series t1 (map f J)) (mk_series t2 (map g J)) =
  Ok (mk_series float64
        (map (fun j => VFloat (f_div (to_float (f j)) (to_float (g j)))) J)).
Proof.
  intros H1 H2. unfold truediv. cbn [s_dtype s_cells]. rewrite H1, H2.
  cbn [andb]. now rewrite zip_map_map, map_map.
Qed.

Lemma setitem_map (cols : list (string * dtype)) (r : A -> list value)
  (c : string) (t : dtype) (g : A -> value) :
  index_of c (map fst cols) = None ->
  setitem (mk_frame cols (map r J)) c (mk_series t (map g J)) =
  mk_frame (cols ++ [(c, t)]) (map (fun j => r j ++ [g j]) J).
Proof.
  intros Hc. unfold setitem, labels. cbn [columns rows s_dtype s_cells].
  now rewrite Hc, zip_map_map, map_map.
Qed.

Lemma select_map (cols : list (string * dtype)) (r : A -> list value)
  (m : A -> bool) :
  select (mk_frame cols (map r J)) (map m J) =
  mk_frame cols (map r (filter m J)).
Proof.
  unfold select. cbn [columns rows]. f_equal.
  induction J as [|j l IH]; simpl; [reflexivity|].
  destruct (m j); simpl; now rewrite IH.
Qed.

End FrameFacts.

Section DayFrames.

Import Pandas.

(** The records [execute_query] builds from rows of the revenue query. *)
Lemma execute_query_days (conn : DatabaseConnector) (query : string)
  (days : list (string * value)) :
  cursor conn query = ResultSet revenue_columns (map day_row days) ->
  execute_query conn query =
  Ok (map (fun p => [("date", VStr (fst p)); ("daily_revenue", snd p)]) days).
Proof.
  intros H. unfold execute_query. rewrite H, map_map. reflexivity.
Qed.

Lemma infer_dtype_text (days : list (string * value)) :
  days <> [] -> infer_dtype (map (fun p => VStr (fst p)) days) = object.
Proof. destruct days; [contradiction|reflexivity]. Qed.

Lemma union_keys_days (days : list (string * value)) :
  days <> [] ->
  union_keys
    (map (fun p => [("date", VStr (fst p)); ("daily_revenue", snd p)]) days)
  = revenue_columns.
Proof.
  destruct days as [|p l]; [contradiction|intros _].
  unfold union_keys. cbn [map fold_left].
  change ([] ++ filter (fun k => negb (mem k []))
                  (dict_keys [("date", VStr (fst p));
                              ("daily_revenue", snd p)]))
    with revenue_columns.
  induction l as [|q l IH]; [reflexivity|]. cbn [map fold_left].
  exact IH.
Qed.

(** [pd.DataFrame] on the records of the revenue query: a text column of
    days and a revenue column of the dtype inferred from its cells. *)
Lemma frame_of_days (days : list (string * value)) :
  days <> [] ->
  DataFrame_of_records
    (map (fun p => [("date", VStr (fst p)); ("daily_revenue", snd p)]) days)
  = mk_frame
      [("date", object); ("daily_revenue", infer_dtype (map snd days))]
      (map (fun p => [VStr (fst p);
                      cast (infer_dtype (map snd days)) (snd p)]) days).
Proof.
  intros Hne. unfold DataFrame_of_records.
  rewrite (union_keys_days Hne). unfold revenue_columns. cbn [map].
  rewrite !map_map. cbn [fst snd].
  change (map (fun p : string * value =>
                 cell [("date", VStr (fst p)); ("daily_revenue", snd p)]
                      "date") days)
    with (map (fun p : string * value => VStr (fst p)) days).
  change (map (fun p : string * value =>
                 cell [("date", VStr (fst p)); ("daily_revenue", snd p)]
                      "daily_revenue") days)
    with (map (@snd string value) days).
  rewrite (infer_dtype_text Hne). reflexivity.
Qed.

End DayFrames.

Section RevenueJoin.

Import Pandas.

Lemma keys_match_days (left right : DataFrame) (tl tr : dtype)
  (a b : string) (x y : value) :
  columns left = [("date", object); ("daily_revenue", tl)] ->
  columns right = [("date", object); ("daily_revenue", tr)] ->
  keys_match ["date"] left right [VStr a; x] [VStr b; y] = String.eqb a b.
Proof.
  intros Hl Hr. unfold keys_match, dtypes_at, cells_at, labels.
  rewrite Hl, Hr. cbn. apply andb_true_r.
Qed.

(** The inner join of the two revenue frames, day by day. *)
Lemma joined_rows_days (pg sf : list (string * value)) (tl tr : dtype) :
  joined_rows ["date"]
    (mk_frame [("date", object); ("daily_revenue", tl)]
       (map (fun p => [VStr (fst p); cast tl (snd p)]) pg))
    (mk_frame [("date", object); ("daily_revenue", tr)]
       (map (fun p => [VStr (fst p); cast tr (snd p)]) sf))
  = map (fun day => [VStr (fst (fst day)); cast tl (snd (fst day));
                     cast tr (snd day)])
        (joined_days pg sf).
Proof.
  unfold joined_rows, joined_days. cbn [rows].
  set (left := mk_frame [("date", object); ("daily_revenue", tl)] _).
  set (right := mk_frame [("date", object); ("daily_revenue", tr)] _).
  assert (Hl : columns left = [("date", object); ("daily_revenue", tl)])
    by reflexivity.
  assert (Hr : columns right = [("date", object); ("daily_revenue", tr)])
    by reflexivity.
  clearbody left right.
  induction pg as [|p l IH]; [reflexivity|].
  cbn [map flat_map]. rewrite map_app, IH. f_equal. clear IH.
  induction sf as [|q l' IH']; [reflexivity|].
  cbn [map filter]. rewrite (@keys_match_days left right tl tr _ _ _ _ Hl Hr).
  destruct (String.eqb (fst p) (fst q)); cbn [map]; [|exact IH'].
  rewrite IH'. unfold labels. rewrite Hr. reflexivity.
Qed.

Lemma in_joined_days (pg sf : list (string * value)) d x y :
  In (d, x, y) (joined_days pg sf) <-> In (d, x) pg /\ In (d, y) sf.
Proof.
  unfold joined_days. rewrite in_flat_map. split.
  - intros ([d1 x1] & Hp & Hin). apply in_map_iff in Hin.
    destruct Hin as ([d2 y2] & Heq & Hq). apply filter_In in Hq.
    destruct Hq as [Hq Hd]. cbn [fst snd] in *.
    apply String.eqb_eq in Hd. injection Heq as -> -> ->.
    subst d2. tauto.
  - intros [Hp Hq]. exists (d, x). split; [exact Hp|].
    apply in_map_iff. exists (d, y). split; [reflexivity|].
    apply filter_In. split; [exact Hq|]. apply String.eqb_refl.
Qed.

Lemma no_joined_day (pg sf : list (string * value)) :
  (forall d x y, In (d, x) pg -> In (d, y) sf -> False) ->
  joined_days pg sf = [].
Proof.
  intros Hnone. destruct (joined_days pg sf) as [|[[d x] y] l] eqn:E;
    [reflexivity|].
  assert (Hin : In (d, x, y) (joined_days pg sf)) by (rewrite E; now left).
  apply in_joined_days in Hin. destruct (Hnone d x y); tauto.
Qed.

(** [pd.merge] on the two revenue frames. *)
Lemma merge_days (pg sf : list (string * value)) (tl tr : dtype) :
  merge
    (mk_frame [("date", object); ("daily_revenue", tl)]
       (map (fun p => [VStr (fst p); cast tl (snd p)]) pg))
    (mk_frame [("date", object); ("daily_revenue", tr)]
       (map (fun p => [VStr (fst p); cast tr (snd p)]) sf))
    ["date"] ("_pg", "_sf")
  = Ok (mk_frame
          [("date", object); ("daily_revenue_pg", tl);
           ("daily_revenue_sf", tr)]
          (map (fun day => [VStr (fst (fst day)); cast tl (snd (fst day));
                            cast tr (snd day)])
               (joined_days pg sf))).
Proof.
  unfold merge. rewrite joined_rows_days. reflexivity.
Qed.

(** The column [diff_percentage], day by day. *)
Lemma diff_percentage_days (days : list (string * value * value))
  (tl tr : dtype) :
  is_numeric_dtype tl = true -> is_numeric_dtype tr = true ->
  diff_percentage
    (mk_frame
       [("date", object); ("daily_revenue_pg", tl); ("daily_revenue_sf", tr)]
       (map (fun day => [VStr (fst (fst day)); cast tl (snd (fst day));
                         cast tr (snd day)]) days))
  = Ok (mk_series float64
          (map (fun day => VFloat (percentage tl tr (snd (fst day))
                                              (snd day)))
               days)).
Proof.
  intros Hl Hr. unfold diff_percentage.
  set (cols := [("date", object); ("daily_revenue_pg", tl);
                ("daily_revenue_sf", tr)]).
  rewrite (@getitem_map _ days cols _ "daily_revenue_pg" 1 eq_refl).
  rewrite (@getitem_map _ days cols _ "daily_revenue_sf" 2 eq_refl).
  subst cols.
  cbn [bind map snd nth].
  rewrite (@sub_numeric _ days tl tr
             (fun day => cast tl (snd (fst day)))
             (fun day => cast tr (snd day)) Hl Hr).
  cbn [bind].
  rewrite (@truediv_numeric _ days (sub_dtype tl tr) tl _ _
             (sub_dtype_numeric tl tr) Hl).
  cbn [bind].
  unfold times100, abs. cbn [s_dtype s_cells]. rewrite !map_map.
  reflexivity.
Qed.

End RevenueJoin.

Section RevenueCheck.

Import Pandas.

Variable self : BusinessValidator.
Variables pg sf : list (string * value).

Hypothesis pg_cursor :
  cursor (postgres self) revenue_pg_query
  = ResultSet revenue_columns (map day_row pg).
Hypothesis sf_cursor :
  cursor (snowflake self) revenue_snowflake_query
  = ResultSet revenue_columns (map day_row sf).
Hypothesis pg_nonempty : pg <> [].
Hypothesis sf_nonempty : sf <> [].

(** The merged frame: one row for each day present in both sources. *)
Lemma revenue_merged_days :
  revenue_merged self =
  Ok (mk_frame
        [("date", object);
         ("daily_revenue_pg", infer_dtype (map snd pg));
         ("daily_revenue_sf", infer_dtype (map snd sf))]
        (map (fun day => [VStr (fst (fst day));
                          cast (infer_dtype (map snd pg)) (snd (fst day));
                          cast (infer_dtype (map snd sf)) (snd day)])
             (joined_days pg sf))).
Proof using All.
  unfold revenue_merged.
  rewrite (execute_query_days _ _ _ pg_cursor),
          (execute_query_days _ _ _ sf_cursor).
  cbn [bind].
  rewrite (frame_of_days pg_nonempty), (frame_of_days sf_nonempty).
  apply merge_days.
Qed.

(** No day in both sources: the merged frame has no row, nothing is
    computed, and the check reports PASSED, whatever the columns hold. *)
Lemma revenue_no_common_day :
  joined_days pg sf = [] ->
  validate_revenue_data self =
  [ ("validation_status", PyStr "PASSED");
    ("message",
     PyStr "Revenue data matches within 1% tolerance across systems") ].
Proof using All.
  intros Hnone. unfold validate_revenue_data, revenue_try,
    revenue_discrepancies.
  rewrite revenue_merged_days, Hnone. cbn [bind map].
  generalize (infer_dtype (map snd pg)) (infer_dtype (map snd sf)).
  intros tp ts. destruct tp, ts; reflexivity.
Qed.

Hypothesis pg_dtype : is_numeric_dtype (infer_dtype (map snd pg)) = true.
Hypothesis sf_dtype : is_numeric_dtype (infer_dtype (map snd sf)) = true.

(** With numeric revenue columns nothing is raised, and the frame of
    discrepancies holds one row for each flagged joined day. *)
Lemma revenue_discrepancies_days :
  revenue_discrepancies self =
  Ok (mk_frame
        (discrepancy_columns (infer_dtype (map snd pg))
                             (infer_dtype (map snd sf)))
        (map (discrepancy_row (infer_dtype (map snd pg))
                              (infer_dtype (map snd sf)))
             (filter (flagged (infer_dtype (map snd pg))
                              (infer_dtype (map snd sf)))
                     (joined_days pg sf)))).
Proof using All.
  unfold revenue_discrepancies. rewrite revenue_merged_days.
  set (tp := infer_dtype (map snd pg)) in *.
  set (ts := infer_dtype (map snd sf)) in *.
  cbn [bind].
  rewrite (@diff_percentage_days (joined_days pg sf) tp ts pg_dtype
             sf_dtype).
  cbn [bind].
  set (cols := [("date", object); ("daily_revenue_pg", tp);
                ("daily_revenue_sf", ts)]).
  rewrite (@setitem_map _ (joined_days pg sf) cols _ "diff_percentage"
             float64 _ eq_refl).
  rewrite (@getitem_map _ (joined_days pg sf)
             (cols ++ [("diff_percentage", float64)]) _
             "diff_percentage" 3 eq_refl).
  cbn [bind]. unfold gt1. cbn [s_cells]. rewrite map_map.
  rewrite (@select_map _ (joined_days pg sf)). reflexivity.
Qed.

Lemma validate_revenue_data_days :
  validate_revenue_data self =
  revenue_verdict
    (mk_frame
       (discrepancy_columns (infer_dtype (map snd pg))
                            (infer_dtype (map snd sf)))
       (map (discrepancy_row (infer_dtype (map snd pg))
                             (infer_dtype (map snd sf)))
            (filter (flagged (infer_dtype (map snd pg))
                             (infer_dtype (map snd sf)))
                    (joined_days pg sf)))).
Proof using All.
  unfold validate_revenue_data, revenue_try.
  now rewrite revenue_discrepancies_days.
Qed.

(** No flagged joined day: PASSED. *)
Lemma revenue_passed :
  (forall d x y, In (d, x) pg -> In (d, y) sf ->
     flagged (infer_dtype (map snd pg)) (infer_dtype (map snd sf))
             (d, x, y) = false) ->
  validate_revenue_data self =
  [ ("validation_status", PyStr "PASSED");
    ("message",
     PyStr "Revenue data matches within 1% tolerance across systems") ].
Proof using All.
  intros Hnone. rewrite validate_revenue_data_days.
  set (fl := flagged _ _) in *.
  assert (E : filter fl (joined_days pg sf) = []).
  { destruct (filter fl (joined_days pg sf)) as [|[[d x] y] l] eqn:F;
      [reflexivity|].
    assert (Hin : In (d, x, y) (filter fl (joined_days pg sf)))
      by (rewrite F; left; reflexivity).
    apply filter_In in Hin. destruct Hin as [Hin Hf].
    apply in_joined_days in Hin. destruct Hin as [Hp Hq].
    rewrite (Hnone d x y Hp Hq) in Hf. discriminate Hf. }
  rewrite E. reflexivity.
Qed.

(** A flagged joined day: FAILED, and the day is among the records. *)
Lemma revenue_failed d x y :
  In (d, x) pg -> In (d, y) sf ->
  flagged (infer_dtype (map snd pg)) (infer_dtype (map snd sf)) (d, x, y)
  = true ->
  status (validate_revenue_data self) = FAILED
  /\ exists recs,
       dict_get (validate_revenue_data self) "discrepancies"
       = Some (PyRecords recs)
       /\ In [ ("date", VStr d);
               ("daily_revenue_pg", cast (infer_dtype (map snd pg)) x);
               ("daily_revenue_sf", cast (infer_dtype (map snd sf)) y);
               ("diff_percentage",
                VFloat (percentage (infer_dtype (map snd pg))
                                   (infer_dtype (map snd sf)) x y)) ] recs.
Proof using All.
  intros Hp Hq Hf. rewrite validate_revenue_data_days.
  set (fl := flagged _ _) in *.
  assert (Hin : In (d, x, y) (filter fl (joined_days pg sf))).
  { apply filter_In. split; [|exact Hf]. apply in_joined_days. tauto. }
  unfold revenue_verdict, len. cbn [rows]. rewrite length_map.
  destruct (filter fl (joined_days pg sf)) as [|day l] eqn:F;
    [contradiction|].
  cbn [length Nat.ltb Nat.leb]. split; [reflexivity|].
  eexists. split; [reflexivity|].
  unfold to_dict_records. cbn [rows]. rewrite map_map.
  apply in_map_iff. exists (d, x, y). split; [reflexivity|exact Hin].
Qed.

(** The status tells whether a joined day is flagged. *)
Lemma revenue_status :
  (status (validate_revenue_data self) = FAILED <->
   exists d x y,
     In (d, x) pg /\ In (d, y) sf
     /\ flagged (infer_dtype (map snd pg)) (infer_dtype (map snd sf))
                (d, x, y) = true)
  /\ (status (validate_revenue_data self) = PASSED <->
      forall d x y,
        In (d, x) pg -> In (d, y) sf ->
        flagged (infer_dtype (map snd pg)) (infer_dtype (map snd sf))
                (d, x, y) = false).
Proof using All.
  set (fl := flagged _ _).
  destruct (existsb fl (joined_days pg sf)) eqn:E.
  - apply existsb_exists in E. destruct E as ([[d x] y] & Hin & Hf).
    apply in_joined_days in Hin. destruct Hin as [Hx Hy].
    destruct (revenue_failed d x y Hx Hy Hf) as [Hst _].
    split; split; try (intros _; exact Hst).
    + intros _. exists d, x, y. tauto.
    + rewrite Hst. clash.
    + intros Hall. rewrite (Hall d x y Hx Hy) in Hf. discriminate Hf.
  - assert (Hnone : forall d x y, In (d, x) pg -> In (d, y) sf ->
              fl (d, x, y) = false).
    { intros d x y Hx Hy. destruct (fl (d, x, y)) eqn:F; [|reflexivity].
      assert (H : existsb fl (joined_days pg sf) = true).
      { apply existsb_exists. exists (d, x, y). split; [|exact F].
        apply in_joined_days. tauto. }
      congruence. }
    pose proof (revenue_passed Hnone) as Hp.
    split; split.
    + rewrite Hp. clash.
    + intros (d & x & y & Hx & Hy & Hf).
      rewrite (Hnone d x y Hx Hy) in Hf. discriminate Hf.
    + intros _. exact Hnone.
    + intros _. rewrite Hp. reflexivity.
Qed.

End RevenueCheck.

(** ** The dtype of a revenue column *)

Section Columns.

Import Pandas.

Lemma in_int64_bounds (n : Z) :
  in_int64 n = true <->
  (-9223372036854775808 <= n <= 9223372036854775807)%Z.
Proof.
  unfold in_int64. rewrite andb_true_iff, !Z.leb_le.
  change INT64_MIN with (-9223372036854775808)%Z.
  change INT64_MAX with 9223372036854775807%Z. tauto.
Qed.

(** On ints of 64 bits, floats and [None] the scan goes to the end, sees
    no int above [INT64_MAX], and has seen a number exactly when there is
    one, something other than an int exactly when there is one. *)
Lemma scan_plain (cells : list value) : forall s,
  uint_ s = false ->
  Forall (fun v => plain_or_none v = true) cells ->
  exists s',
    scan s cells = Some s'
    /\ uint_ s' = false
    /\ float_ s' || int_ s' || nan_ s'
       = float_ s || int_ s || nan_ s || existsb is_number cells
    /\ null_ s' || nan_ s' || float_ s'
       = null_ s || nan_ s || float_ s
         || existsb (fun v => negb (is_int v)) cells.
Proof.
  induction cells as [|v l IH]; intros s Hu Hall.
  - exists s. cbn [scan existsb]. rewrite !orb_false_r. tauto.
  - inversion Hall as [|? ? Hv Hl]; subst.
    destruct v as [|n|x|t]; cbn [plain_or_none plain] in Hv;
      try discriminate Hv.
    + destruct (IH (mk_seen true (nan_ s) (float_ s) (int_ s) (uint_ s)
                            (sint_ s)) Hu Hl) as (s' & E & U & N & O).
      exists s'. cbn [scan existsb is_number is_int negb].
      cbn [null_ nan_ float_ int_] in N, O.
      split; [exact E|]. split; [exact U|]. split; [exact N|].
      rewrite O. now destruct (null_ s), (nan_ s), (float_ s).
    + apply in_int64_bounds in Hv.
      assert (B1 : Z.ltb INT64_MAX n = false)
        by (apply Z.ltb_ge; change INT64_MAX with 9223372036854775807%Z;
            lia).
      assert (B2 : Z.ltb UINT64_MAX n = false)
        by (apply Z.ltb_ge; change UINT64_MAX with 18446744073709551615%Z;
            lia).
      assert (B3 : Z.ltb n INT64_MIN = false)
        by (apply Z.ltb_ge; change INT64_MIN with (-9223372036854775808)%Z;
            lia).
      cbn [scan null_]. destruct (null_ s) eqn:Null.
      * destruct (IH (mk_seen true (nan_ s) (float_ s) true (uint_ s)
                              (sint_ s)) Hu Hl) as (s' & E & U & N & O).
        exists s'. cbn [existsb is_number is_int negb].
        cbn [null_ nan_ float_ int_] in N, O.
        split; [exact E|]. split; [exact U|]. split.
        -- rewrite N. now destruct (float_ s), (int_ s), (nan_ s).
        -- rewrite O. now destruct (nan_ s), (float_ s).
      * unfold saw_int. cbn [null_ nan_ float_ int_ uint_ sint_].
        rewrite Hu, B1, B2, B3. cbn [andb orb].
        destruct (IH (mk_seen false (nan_ s) (float_ s) true false
                        (sint_ s || (Z.leb INT64_MIN n && Z.ltb n 0)))
                     eq_refl Hl) as (s' & E & U & N & O).
        exists s'. cbn [existsb is_number is_int negb].
        cbn [null_ nan_ float_ int_] in N, O.
        split; [exact E|]. split; [exact U|]. split.
        -- rewrite N. now destruct (float_ s), (int_ s), (nan_ s).
        -- rewrite O. now destruct (nan_ s), (float_ s).
    + destruct x as [q| | |].
      * destruct (IH (mk_seen (null_ s) (nan_ s) true (int_ s) (uint_ s)
                              (sint_ s)) Hu Hl) as (s' & E & U & N & O).
        exists s'. cbn [scan existsb is_number is_int negb].
        cbn [null_ nan_ float_ int_] in N, O.
        split; [exact E|]. split; [exact U|]. split.
        -- rewrite N. now destruct (float_ s), (int_ s), (nan_ s).
        -- rewrite O. now destruct (null_ s), (nan_ s), (float_ s).
      * destruct (IH (mk_seen (null_ s) (nan_ s) true (int_ s) (uint_ s)
                              (sint_ s)) Hu Hl) as (s' & E & U & N & O).
        exists s'. cbn [scan existsb is_number is_int negb].
        cbn [null_ nan_ float_ int_] in N, O.
        split; [exact E|]. split; [exact U|]. split.
        -- rewrite N. now destruct (float_ s), (int_ s), (nan_ s).
        -- rewrite O. now destruct (null_ s), (nan_ s), (float_ s).
      * destruct (IH (mk_seen (null_ s) (nan_ s) true (int_ s) (uint_ s)
                              (sint_ s)) Hu Hl) as (s' & E & U & N & O).
        exists s'. cbn [scan existsb is_number is_int negb].
        cbn [null_ nan_ float_ int_] in N, O.
        split; [exact E|]. split; [exact U|]. split.
        -- rewrite N. now destruct (float_ s), (int_ s), (nan_ s).
        -- rewrite O. now destruct (null_ s), (nan_ s), (float_ s).
      * destruct (IH (mk_seen (null_ s) true (float_ s) (int_ s) (uint_ s)
                              (sint_ s)) Hu Hl) as (s' & E & U & N & O).
        exists s'. cbn [scan existsb is_number is_int negb].
        cbn [null_ nan_ float_ int_] in N, O.
        split; [exact E|]. split; [exact U|]. split.
        -- rewrite N. now destruct (float_ s), (int_ s), (nan_ s).
        -- rewrite O. now destruct (null_ s), (nan_ s), (float_ s).
Qed.

(** A column of ints of 64 bits, floats and [None], with a number in it,
    is an [int64] column when it holds nothing but ints and a [float64]
    column otherwise. *)
Lemma plain_column (cells : list value) :
  Forall (fun v => plain_or_none v = true) cells ->
  existsb is_number cells = true ->
  infer_dtype cells =
  if existsb (fun v => negb (is_int v)) cells then float64 else int64.
Proof.
  intros Hall Hnum.
  destruct (@scan_plain cells (mk_seen false false false false false false)
              eq_refl Hall) as (s' & E & U & N & O).
  unfold infer_dtype. rewrite E. cbn [null_ nan_ float_ int_ orb] in N, O.
  rewrite Hnum in N. rewrite <- O. rewrite U.
  destruct (null_ s'), (nan_ s'), (float_ s'), (int_ s');
    cbn in N |- *; congruence.
Qed.

Lemma plain_column_numeric (cells : list value) :
  Forall (fun v => plain_or_none v = true) cells ->
  existsb is_number cells = true ->
  infer_dtype cells = int64 \/ infer_dtype cells = float64.
Proof.
  intros Hall Hnum. rewrite (plain_column Hall Hnum).
  destruct (existsb (fun v => negb (is_int v)) cells); [right|left];
    reflexivity.
Qed.

End Columns.

(** ** The percentage of one day *)

Section Days.

Import Pandas.

Local Open Scope Q_scope.

(** In columns of 64-bit integers or floats the difference is taken in
    float64, or, between two ints of two [int64] columns, in 64-bit
    integers. *)
Lemma percentage_cases (tp ts : dtype) (x y : value) :
  tp = int64 \/ tp = float64 -> ts = int64 \/ ts = float64 ->
  percentage tp ts x y =
  f_times100 (f_abs (f_div (f_sub (to_float x) (to_float y)) (to_float x)))
  \/ exists m n,
       x = VInt m /\ y = VInt n
       /\ percentage tp ts x y =
          f_times100
            (f_abs (f_div (round (inject_Z (wrap64 (m - n))))
                          (round (inject_Z m)))).
Proof.
  intros Hp Hs. unfold percentage. rewrite to_float_cast.
  destruct Hp as [-> | ->], Hs as [-> | ->]; cbn [num_sub];
    try (left; now rewrite !to_float_cast).
  cbn [cast]. destruct x as [|m|u|t], y as [|n|v|t'];
    try (left; reflexivity).
  right. exists m, n. repeat split.
Qed.

Lemma to_float_number (x : value) (a : Q) :
  number x = Some a -> Qabs a < 4503599627370496 -> to_float x = Fin a.
Proof.
  destruct x as [|m|[q| | |]|t]; try discriminate; intros E Ha;
    injection E as <-; [|reflexivity].
  cbn [to_float]. apply round_Z.
  change (Qabs (inject_Z m)) with (inject_Z (Z.abs m)) in Ha.
  change 4503599627370496 with (inject_Z 4503599627370496) in Ha.
  rewrite <- Zlt_Qlt in Ha. change (2 ^ 53)%Z with 9007199254740992%Z. lia.
Qed.

(** The percentage of a day whose two revenues are finite numbers below
    2^52 in absolute value. *)
Lemma percentage_numbers (tp ts : dtype) (x y : value) (a b : Q) :
  tp = int64 \/ tp = float64 -> ts = int64 \/ ts = float64 ->
  number x = Some a -> number y = Some b ->
  Qabs a < 4503599627370496 -> Qabs b < 4503599627370496 ->
  percentage tp ts x y =
  f_times100 (f_abs (f_div (round (a - b)) (Fin a))).
Proof.
  intros Hp Hs Hx Hy Ha Hb.
  pose proof (to_float_number _ Hx Ha) as Fx.
  pose proof (to_float_number _ Hy Hb) as Fy.
  destruct (percentage_cases x y Hp Hs) as [E|(m & n & -> & -> & E)];
    rewrite E.
  - now rewrite Fx, Fy.
  - cbn [to_float] in Fx, Fy. cbn [number] in Hx, Hy.
    injection Hx as <-. injection Hy as <-. rewrite Fx.
    change (Qabs (inject_Z m)) with (inject_Z (Z.abs m)) in Ha.
    change (Qabs (inject_Z n)) with (inject_Z (Z.abs n)) in Hb.
    change 4503599627370496 with (inject_Z 4503599627370496) in Ha, Hb.
    rewrite <- Zlt_Qlt in Ha, Hb.
    rewrite wrap64_small
      by (change (2 ^ 63)%Z with 9223372036854775808%Z; lia).
    now rewrite inject_Z_minus.
Qed.

(** Zero or NaN over anything is not above 1. *)
Lemma zero_over (z : float) :
  f_gt1 (f_times100 (f_abs (f_div (Fin 0) z))) = false.
Proof.
  destruct z as [r| | |]; try reflexivity. cbn [f_div].
  destruct (Qeq_bool r 0); [reflexivity|].
  assert (E : 0 / r == 0) by (unfold Qdiv; ring).
  now rewrite (round_zero E).
Qed.


Lemma self_difference (z : float) :
  f_sub z z = Fin 0 \/ f_sub z z = NaN.
Proof.
  destruct z as [q| | |]; try (right; reflexivity). left. cbn [f_sub].
  apply round_zero. ring.
Qed.

(** A day with the same revenue on both sides is never flagged. *)
Lemma flagged_same (t : dtype) (d : string) (x : value) :
  is_numeric_dtype t = true -> flagged t t (d, x, x) = false.
Proof.
  intros Ht. unfold flagged, percentage. cbn [fst snd].
  rewrite to_float_cast.
  assert (D : to_float (num_sub t t (cast t x) (cast t x)) = Fin 0
              \/ to_float (num_sub t t (cast t x) (cast t x)) = NaN).
  { destruct t; try discriminate Ht; cbn [num_sub];
      try (cbn [to_float]; apply self_difference);
      destruct x as [|m|u|s]; cbn [cast int_sub to_float];
      try apply self_difference;
      rewrite Z.sub_diag; left; reflexivity. }
  destruct D as [-> | ->]; [apply zero_over|reflexivity].
Qed.

(** A day with a missing revenue, [None] or NaN, is never flagged. *)
Lemma flagged_missing (tp ts : dtype) (d : string) (x y : value) :
  isna x = true \/ isna y = true -> flagged tp ts (d, x, y) = false.
Proof.
  intros Hna. unfold flagged, percentage. cbn [fst snd].
  assert (D : to_float (num_sub tp ts (cast tp x) (cast ts y)) = NaN).
  { assert (F : forall u v, isna u = true \/ isna v = true ->
                  f_sub (to_float u) (to_float v) = NaN).
    { intros u v [H|H].
      - destruct u as [| |[| | |]|]; try discriminate H; reflexivity.
      - destruct v as [| |[| | |]|]; try discriminate H;
          now destruct (to_float u). }
    assert (Hc : isna (cast tp x) = true \/ isna (cast ts y) = true).
    { destruct Hna as [H|H]; [left|right].
      - destruct x as [| |[| | |]|]; try discriminate H; now destruct tp.
      - destruct y as [| |[| | |]|]; try discriminate H; now destruct ts. }
    assert (G : forall wrap u v, isna u = true \/ isna v = true ->
                  to_float (int_sub wrap u v) = NaN).
    { intros wrap u v H. pose proof (F u v H) as E.
      destruct u as [|m|u|s], v as [|n|v|s']; cbn [int_sub to_float];
        try exact E.
      destruct H as [H|H]; discriminate H. }
    destruct tp, ts; cbn [num_sub to_float]; auto. }
  now rewrite D.
Qed.

(** The tolerance around a baseline of 100. *)
Lemma tolerance_pass (tp ts : dtype) (d : string) (x y : value) (a s : Q) :
  tp = int64 \/ tp = float64 -> ts = int64 \/ ts = float64 ->
  number x = Some a -> number y = Some s ->
  a == 100 -> 99 <= s -> s <= 101 ->
  flagged tp ts (d, x, y) = false.
Proof.
  intros Hp Hs Hx Hy Ha Hl Hu. unfold flagged. cbn [fst snd].
  assert (Ba : Qabs a < 4503599627370496)
    by (apply Qabs_Qlt_condition; lra).
  assert (Bs : Qabs s < 4503599627370496)
    by (apply Qabs_Qlt_condition; lra).
  rewrite (@percentage_numbers tp ts x y a s Hp Hs Hx Hy Ba Bs).
  assert (L : - (1) <= a - s) by lra. assert (U : a - s <= 1) by lra.
  destruct (@round_between (- (1)) 1 (a - s) (- (1)) 1 L U eq_refl eq_refl)
    as (r & -> & Rl & Ru).
  apply percentage_small; [lra|].
  assert (Hr : Qabs r <= 1) by (apply Qabs_Qle_condition; lra).
  assert (Ha' : Qabs a == 100) by (rewrite Ha; reflexivity).
  rewrite Ha'. lra.
Qed.

Lemma tolerance_fail (tp ts : dtype) (d : string) (x y : value) (a s : Q) :
  tp = int64 \/ tp = float64 -> ts = int64 \/ ts = float64 ->
  number x = Some a -> number y = Some s ->
  a == 100 -> 101 + (1 # 70368744177664) <= s -> s <= 102 ->
  flagged tp ts (d, x, y) = true.
Proof.
  intros Hp Hs Hx Hy Ha Hl Hu. unfold flagged. cbn [fst snd].
  assert (Ba : Qabs a < 4503599627370496)
    by (apply Qabs_Qlt_condition; lra).
  assert (Bs : Qabs s < 4503599627370496)
    by (apply Qabs_Qlt_condition; lra).
  rewrite (@percentage_numbers tp ts x y a s Hp Hs Hx Hy Ba Bs).
  assert (L : - (2) <= a - s) by lra.
  assert (U : a - s <= - (70368744177665 # 70368744177664)) by lra.
  destruct (@round_between (- (2)) (- (70368744177665 # 70368744177664))
              (a - s) (- (2)) (- (70368744177665 # 70368744177664))
              L U eq_refl eq_refl) as (r & -> & Rl & Ru).
  apply percentage_large; [lra|].
  assert (Hr : Qabs r == - r) by (apply Qabs_neg; lra).
  assert (Ha' : Qabs a == 100) by (rewrite Ha; reflexivity).
  rewrite Ha', Hr. lra.
Qed.

(** A float or an int above 101 is above it by 2^-46 at least, the
    spacing of the floats between 64 and 128. *)
Lemma above_101 (y : value) (s : Q) :
  plain y = true -> number y = Some s -> 101 < s -> s <= 102 ->
  101 + (1 # 70368744177664) <= s.
Proof.
  intros Hy Hs Hl Hu.
  destruct y as [|n|[q| | |]|t]; try discriminate; injection Hs as <-.
  - change 101 with (inject_Z 101) in Hl. rewrite <- Zlt_Qlt in Hl.
    assert (H : (102 <= n)%Z) by lia. rewrite Zle_Qle in H.
    change (inject_Z 102) with 102 in H. lra.
  - cbn [plain] in Hy.
    assert (Hq : 0 < q) by lra.
    destruct (@binary64_grid q Hy Hq) as (m & E).
    assert (El : flog2 q = 6%Z).
    { apply flog2_unique; [exact Hq| |].
      - change (2 ^ 6) with 64. lra.
      - change (2 ^ (6 + 1)) with 128. lra. }
    unfold ulp_exponent in E. rewrite El in E.
    change (2 ^ Z.max (6 - 52) (-1074)) with (1 # 70368744177664) in E.
    assert (Hm : (7107243161944064 < m)%Z).
    { rewrite Zlt_Qlt. change (inject_Z 7107243161944064)
        with 7107243161944064. lra. }
    assert (Hm' : (7107243161944065 <= m)%Z) by lia.
    rewrite Zle_Qle in Hm'.
    change (inject_Z 7107243161944065) with 7107243161944065 in Hm'.
    lra.
Qed.








(** Integer revenues below 2^52 in absolute value: rounding does not
    change which days are flagged. *)
Lemma flagged_ints (tp ts : dtype) (d : string) (m n : Z) :
  tp = int64 \/ tp = float64 -> ts = int64 \/ ts = float64 ->
  (Z.abs m < 2 ^ 52)%Z -> (Z.abs n < 2 ^ 52)%Z -> m <> 0%Z ->
  (flagged tp ts (d, VInt m, VInt n) = true <->
   (Z.abs m < 100 * Z.abs (m - n))%Z).
Proof.
  intros Hp Hs Hm Hn Hnz. unfold flagged. cbn [fst snd].
  change (2 ^ 52)%Z with 4503599627370496%Z in Hm, Hn.
  assert (Ba : Qabs (inject_Z m) < 4503599627370496).
  { change (Qabs (inject_Z m)) with (inject_Z (Z.abs m)).
    change 4503599627370496 with (inject_Z 4503599627370496).
    now rewrite <- Zlt_Qlt. }
  assert (Bb : Qabs (inject_Z n) < 4503599627370496).
  { change (Qabs (inject_Z n)) with (inject_Z (Z.abs n)).
    change 4503599627370496 with (inject_Z 4503599627370496).
    now rewrite <- Zlt_Qlt. }
  rewrite (@percentage_numbers tp ts (VInt m) (VInt n) _ _ Hp Hs
             eq_refl eq_refl Ba Bb).
  rewrite <- inject_Z_minus.
  rewrite round_Z by (change (2 ^ 53)%Z with 9007199254740992%Z; lia).
  assert (Ha : ~ inject_Z m == 0).
  { intros E. apply Hnz. apply (proj1 (inject_Z_injective m 0)). exact E. }
  destruct (Z.lt_ge_cases (Z.abs m) (100 * Z.abs (m - n))) as [Gt|Le].
  - split; [intros _; exact Gt|intros _].
    apply percentage_large; [exact Ha|].
    change (Qabs (inject_Z m)) with (inject_Z (Z.abs m)).
    change (Qabs (inject_Z (m - n))) with (inject_Z (Z.abs (m - n))).
    assert (H1 : (Z.abs m + 1 <= Z.abs (m - n) * 100)%Z) by lia.
    rewrite Zle_Qle, inject_Z_plus, inject_Z_mult in H1.
    change (inject_Z 1) with 1 in H1. change (inject_Z 100) with 100 in H1.
    assert (H2 : inject_Z (Z.abs m) <= 4503599627370496).
    { change 4503599627370496 with (inject_Z 4503599627370496).
      rewrite <- Zle_Qle. lia. }
    lra.
  - split; [|intros H; lia]. intros F. exfalso.
    rewrite percentage_small in F; [discriminate F|exact Ha|].
    change (Qabs (inject_Z m)) with (inject_Z (Z.abs m)).
    change (Qabs (inject_Z (m - n))) with (inject_Z (Z.abs (m - n))).
    assert (H1 : (Z.abs (m - n) * 100 <= Z.abs m)%Z) by lia.
    rewrite Zle_Qle, inject_Z_mult in H1. exact H1.
Qed.

End Days.

(** ** A zero baseline in an object column *)

Section ObjectColumns.

Import Pandas.










Variable self : BusinessValidator.
Variables pg sf : list (string * value).

Hypothesis pg_cursor :
  cursor (postgres self) revenue_pg_query
  = ResultSet revenue_columns (map day_row pg).
Hypothesis sf_cursor :
  cursor (snowflake self) revenue_snowflake_query
  = ResultSet revenue_columns (map day_row sf).
Hypothesis pg_nonempty : pg <> [].
Hypothesis sf_nonempty : sf <> [].
Hypothesis pg_object : infer_dtype (map snd pg) = object.
Hypothesis pg_ints : Forall (fun p => is_int (snd p) = true) pg.


End ObjectColumns.

(** ** validate_revenue_data: the tolerance and the zero baseline *)

Section PlainRevenue.

Import Pandas.

Local Open Scope Q_scope.

Lemma plain_is_number (v : value) : plain v = true -> is_number v = true.
Proof. destruct v as [| |[| | |]|]; try discriminate; reflexivity. Qed.

Lemma plain_is_plain_or_none (v : value) :
  plain v = true -> plain_or_none v = true.
Proof. destruct v; try discriminate; intros H; exact H. Qed.

Lemma revenue_dtype (days : list (string * value)) :
  Forall (fun p => plain_or_none (snd p) = true) days ->
  Exists (fun p => is_number (snd p) = true) days ->
  infer_dtype (map snd days) = int64 \/ infer_dtype (map snd days) = float64.
Proof.
  intros Hall Hnum. apply plain_column_numeric.
  - apply Forall_map. exact Hall.
  - apply existsb_exists. apply Exists_exists in Hnum.
    destruct Hnum as (p & Hin & Hp). exists (snd p).
    split; [now apply in_map|exact Hp].
Qed.

Lemma plain_revenue_dtype (days : list (string * value)) :
  Forall (fun p => plain (snd p) = true) days -> days <> [] ->
  infer_dtype (map snd days) = int64 \/ infer_dtype (map snd days) = float64.
Proof.
  intros Hall Hne. apply revenue_dtype.
  - eapply Forall_impl; [|exact Hall]. intros p. apply plain_is_plain_or_none.
  - destruct days as [|p l]; [contradiction|]. apply Exists_cons_hd.
    inversion Hall; subst. now apply plain_is_number.
Qed.

Lemma numeric_of_cases (t : dtype) :
  t = int64 \/ t = float64 -> is_numeric_dtype t = true.
Proof. now intros [-> | ->]. Qed.

End PlainRevenue.

(** C3.  On revenue columns of ints of 64 bits and floats the percentage
    of a joined day is [abs((pg - sf) / pg) * 100], computed in the
    arithmetic of the two columns, and the day is a discrepancy exactly
    when that number is strictly above 1.  With a baseline of 100: when
    every joined day has the other revenue at 101 - eps, for
    0 <= eps <= 2, no day is a discrepancy and the check reports PASSED;
    a joined day with the other revenue at 101 + eps, for 0 < eps <= 1,
    is a discrepancy and the check reports FAILED. *)
Theorem revenue_tolerance_one_percent
  (self : BusinessValidator) (pg sf : list (string * value)) :
  cursor (postgres self) revenue_pg_query
  = ResultSet revenue_columns (map day_row pg) ->
  cursor (snowflake self) revenue_snowflake_query
  = ResultSet revenue_columns (map day_row sf) ->
  Forall (fun p => plain (snd p) = true) pg ->
  Forall (fun p => plain (snd p) = true) sf ->
  pg <> [] -> sf <> [] ->
  let tp := Pandas.infer_dtype (map snd pg) in
  let ts := Pandas.infer_dtype (map snd sf) in
  revenue_discrepancies self =
  Ok (Pandas.mk_frame
        (discrepancy_columns tp ts)
        (map (discrepancy_row tp ts)
             (filter (flagged tp ts) (joined_days pg sf))))
  /\ (forall d x y,
        flagged tp ts (d, x, y) = true <->
        match percentage tp ts x y with
        | Fin p => (1 < p)%Q
        | PInf => True
        | _ => False
        end)
  /\ ((forall d x y, In (d, x) pg -> In (d, y) sf ->
         exists a s eps,
           number x = Some a /\ number y = Some s
           /\ (a == 100 /\ s == 101 - eps /\ 0 <= eps /\ eps <= 2)%Q) ->
      validate_revenue_data self =
      [ ("validation_status", PyStr "PASSED");
        ("message",
         PyStr "Revenue data matches within 1% tolerance across systems") ])
  /\ (forall d x y a s eps,
        In (d, x) pg -> In (d, y) sf ->
        number x = Some a -> number y = Some s ->
        (a == 100)%Q -> (s == 101 + eps)%Q -> (0 < eps)%Q -> (eps <= 1)%Q ->
        status (validate_revenue_data self) = FAILED
        /\ exists recs,
             dict_get (validate_revenue_data self) "discrepancies"
             = Some (PyRecords recs)
             /\ In [ ("date", VStr d);
                     ("daily_revenue_pg", Pandas.cast tp x);
                     ("daily_revenue_sf", Pandas.cast ts y);
                     ("diff_percentage", VFloat (percentage tp ts x y)) ]
                   recs).
Proof.
  intros Hpg Hsf Ppg Psf Npg Nsf tp ts.
  pose proof (plain_revenue_dtype Ppg Npg) as Tp. fold tp in Tp.
  pose proof (plain_revenue_dtype Psf Nsf) as Ts. fold ts in Ts.
  pose proof (numeric_of_cases Tp) as Np.
  pose proof (numeric_of_cases Ts) as Ns.
  split; [exact (@revenue_discrepancies_days self pg sf Hpg Hsf Npg Nsf
                   Np Ns)|].
  split; [|split].
  - intros d x y. unfold flagged. cbn [fst snd].
    destruct (percentage tp ts x y) as [p| | |]; cbn [Pandas.f_gt1];
      try (split; [discriminate|contradiction]); [|tauto].
    apply Qlt_bool_iff.
  - intros Hbelow.
    apply (@revenue_passed self pg sf Hpg Hsf Npg Nsf Np Ns).
    intros d x y Hx Hy.
    destruct (Hbelow d x y Hx Hy)
      as (a & s & eps & Ex & Ey & Ha & Hs & H0 & H2).
    apply (@tolerance_pass tp ts d x y a s Tp Ts Ex Ey Ha); lra.
  - intros d x y a s eps Hx Hy Ex Ey Ha Hs H0 H1.
    apply (@revenue_failed self pg sf Hpg Hsf Npg Nsf Np Ns d x y Hx Hy).
    assert (Py : plain y = true).
    { rewrite Forall_forall in Psf. exact (Psf (d, y) Hy). }
    apply (@tolerance_fail tp ts d x y a s Tp Ts Ex Ey Ha); [|lra].
    apply (@above_101 y s Py Ey); lra.
Qed.

Lemma revenue_tolerance_one_percent_witness :
  status (validate_revenue_data
            (revenue_sources
               [[VStr "2024-05-01"; VInt 100]]
               [[VStr "2024-05-01"; VFloat (Fin (203 # 2))]]))
  = FAILED.
Proof.
  assert (Hplain : forall v, plain v = true ->
            Forall (fun p : string * value => plain (snd p) = true)
                   [("2024-05-01", v)])
    by (intros v Hv; constructor; [exact Hv|constructor]).
  assert (Hne : forall v : value, [("2024-05-01", v)] <> [])
    by (intros v H; discriminate H).
  destruct (@revenue_tolerance_one_percent
              (revenue_sources
                 [[VStr "2024-05-01"; VInt 100]]
                 [[VStr "2024-05-01"; VFloat (Fin (203 # 2))]])
              [("2024-05-01", VInt 100)]
              [("2024-05-01", VFloat (Fin (203 # 2)))]
              eq_refl eq_refl (Hplain (VInt 100) eq_refl)
              (Hplain (VFloat (Fin (203 # 2))) eq_refl)
              (Hne (VInt 100)) (Hne (VFloat (Fin (203 # 2)))))
    as (_ & _ & _ & Hfail).
  refine (proj1 (Hfail "2024-05-01" (VInt 100) (VFloat (Fin (203 # 2)))
                   (inject_Z 100) (203 # 2)%Q (1 # 2)%Q
                   (or_introl eq_refl) (or_introl eq_refl) eq_refl eq_refl
                   _ _ _ _)).
  - reflexivity.
  - reflexivity.
  - reflexivity.
  - discriminate.
Defined.



(** Outside numeric columns the division is Python's own and raises: with
    a text cell in the PostgreSQL revenue column, or with an int that 64
    bits cannot hold, the column is an [object] column, and a joined day
    whose baseline is 0 ends the check in ERROR. *)
Example zero_baseline_in_object_column :
  validate_revenue_data
    (revenue_sources [ [VStr "2024-05-01"; VInt 0];
                       [VStr "2024-05-02"; VStr "n/a"] ]
                     [ [VStr "2024-05-01"; VInt 5] ]) =
  [ ("validation_status", PyStr "ERROR");
    ("message", PyStr "Error during validation: division by zero") ]
  /\ validate_revenue_data
       (revenue_sources [ [VStr "2024-05-01"; VInt 0];
                          [VStr "2024-05-02"; VInt (2 ^ 70)] ]
                        [ [VStr "2024-05-01"; VInt 0];
                          [VStr "2024-05-02"; VInt (2 ^ 70)] ]) =
     [ ("validation_status", PyStr "ERROR");
       ("message", PyStr "Error during validation: division by zero") ].
Proof. split; vm_compute; reflexivity. Qed.


(** ** The status of a check *)




(** * Further properties of the code *)

(** ** db_connectors/config.py *)

Section ConfigFacts.

Import Config.

Variables environ repository : dict string.
Variable int_of_str : string -> result Z.

(** An option without default and without cast: the text found, or
    [UndefinedValueError] naming the option. *)
Lemma config_required (o : string) :
  config environ repository o None as_found =
  match lookup environ repository o with
  | Some s => Returned (Str s)
  | None => Raised (UndefinedValueError (undefined_message o))
  end.
Proof.
  unfold config, lookup.
  destruct (dict_get environ o); [reflexivity|].
  now destruct (dict_get repository o).
Qed.

(** An integer option with a default: the default when the option is
    defined nowhere, else the text found, read as an int. *)
Lemma config_port (o : string) (default : Z) :
  config environ repository o (Some (Int default)) (int int_of_str) =
  match lookup environ repository o with
  | Some s =>
      match int_of_str s with
      | Ok n => Returned (Int n)
      | Raise e => Raised (CastError e)
      end
  | None => Returned (Int default)
  end.
Proof.
  unfold config, lookup.
  destruct (dict_get environ o); [reflexivity|].
  now destruct (dict_get repository o).
Qed.

(** Decides the lookups of a goal one after the other. *)
Ltac lookups :=
  unfold first_undefined; cbn [find];
  repeat match goal with
  | |- context [lookup environ repository ?o] =>
      let E := fresh "E" in
      destruct (lookup environ repository o) eqn:E;
      cbn [and_then find]; try reflexivity
  end.

(** X1.  [get_teradata_config] and [get_snowflake_config] raise
    [UndefinedValueError] for the first of their options, in the order the
    dict is written, that is defined neither in the environment nor in the
    repository; when every option is defined they return the dict of the
    texts found, the environment taking precedence. *)
Theorem config_first_undefined_option :
  match first_undefined environ repository
          ["TERADATA_HOST"; "TERADATA_USER"; "TERADATA_PASSWORD";
           "TERADATA_DATABASE"] with
  | Some o =>
      get_teradata_config environ repository =
      Raised (UndefinedValueError (undefined_message o))
  | None =>
      exists host user password database,
        lookup environ repository "TERADATA_HOST" = Some host
        /\ lookup environ repository "TERADATA_USER" = Some user
        /\ lookup environ repository "TERADATA_PASSWORD" = Some password
        /\ lookup environ repository "TERADATA_DATABASE" = Some database
        /\ get_teradata_config environ repository =
           Returned [ ("host", Str host); ("user", Str user);
                      ("password", Str password);
                      ("database", Str database) ]
  end
  /\ match first_undefined environ repository
             ["SNOWFLAKE_ACCOUNT"; "SNOWFLAKE_USER"; "SNOWFLAKE_PASSWORD";
              "SNOWFLAKE_DATABASE"; "SNOWFLAKE_WAREHOUSE";
              "SNOWFLAKE_SCHEMA"] with
     | Some o =>
         get_snowflake_config environ repository =
         Raised (UndefinedValueError (undefined_message o))
     | None =>
         exists account user password database warehouse schema,
           lookup environ repository "SNOWFLAKE_ACCOUNT" = Some account
           /\ lookup environ repository "SNOWFLAKE_USER" = Some user
           /\ lookup environ repository "SNOWFLAKE_PASSWORD" = Some password
           /\ lookup environ repository "SNOWFLAKE_DATABASE" = Some database
           /\ lookup environ repository "SNOWFLAKE_WAREHOUSE"
              = Some warehouse
           /\ lookup environ repository "SNOWFLAKE_SCHEMA" = Some schema
           /\ get_snowflake_config environ repository =
              Returned [ ("account", Str account); ("user", Str user);
                         ("password", Str password);
                         ("database", Str database);
                         ("warehouse", Str warehouse);
                         ("schema", Str schema) ]
     end.
Proof.
  unfold get_teradata_config, get_snowflake_config.
  rewrite !config_required. split; lookups.
  - do 4 eexists. repeat split; reflexivity.
  - do 6 eexists. repeat split; reflexivity.
Qed.

(** X2.  [get_postgres_config] and [get_oracle_config] read the port last:
    a missing required option is reported first.  With the four required
    options defined, the port is 5432 (PostgreSQL) or 1521 (Oracle) when
    the port option is defined nowhere; when it is defined, the port is
    the text found read as an int, and a text that is no int makes the
    function raise the exception of [int] instead of falling back on the
    default. *)
Theorem config_port_default :
  match first_undefined environ repository
          ["PG_HOST"; "PG_DATABASE"; "PG_USER"; "PG_PASSWORD"] with
  | Some o =>
      get_postgres_config environ repository int_of_str =
      Raised (UndefinedValueError (undefined_message o))
  | None =>
      exists host database user password,
        lookup environ repository "PG_HOST" = Some host
        /\ lookup environ repository "PG_DATABASE" = Some database
        /\ lookup environ repository "PG_USER" = Some user
        /\ lookup environ repository "PG_PASSWORD" = Some password
        /\ get_postgres_config environ repository int_of_str =
           match lookup environ repository "PG_PORT" with
           | None =>
               Returned [ ("host", Str host); ("database", Str database);
                          ("user", Str user); ("password", Str password);
                          ("port", Int 5432) ]
           | Some s =>
               match int_of_str s with
               | Ok n =>
                   Returned [ ("host", Str host);
                              ("database", Str database);
                              ("user", Str user);
                              ("password", Str password);
                              ("port", Int n) ]
               | Raise e => Raised (CastError e)
               end
           end
  end
  /\ match first_undefined environ repository
             ["ORACLE_HOST"; "ORACLE_SERVICE"; "ORACLE_USER";
              "ORACLE_PASSWORD"] with
     | Some o =>
         get_oracle_config environ repository int_of_str =
         Raised (UndefinedValueError (undefined_message o))
     | None =>
         exists host service_name user password,
           lookup environ repository "ORACLE_HOST" = Some host
           /\ lookup environ repository "ORACLE_SERVICE" = Some service_name
           /\ lookup environ repository "ORACLE_USER" = Some user
           /\ lookup environ repository "ORACLE_PASSWORD" = Some password
           /\ get_oracle_config environ repository int_of_str =
              match lookup environ repository "ORACLE_PORT" with
              | None =>
                  Returned [ ("host", Str host);
                             ("service_name", Str service_name);
                             ("user", Str user); ("password", Str password);
                             ("port", Int 1521) ]
              | Some s =>
                  match int_of_str s with
                  | Ok n =>
                      Returned [ ("host", Str host);
                                 ("service_name", Str service_name);
                                 ("user", Str user);
                                 ("password", Str password);
                                 ("port", Int n) ]
                  | Raise e => Raised (CastError e)
                  end
              end
     end.
Proof.
  unfold get_postgres_config, get_oracle_config.
  rewrite !config_required, !config_port. split; lookups;
    do 4 eexists; repeat split;
    match goal with
    | |- context [int_of_str ?s] => now destruct (int_of_str s)
    end.
Qed.

End ConfigFacts.

(** ** DatabaseConnector.close and BusinessValidator.__exit__ *)

Section LifecycleFacts.

Import Lifecycle.

Lemma close_all_app (l1 l2 : list driver_object) : forall closed,
  close_all (l1 ++ l2) closed =
  match close_all l1 closed with
  | (Ok _, closed1) => close_all l2 closed1
  | (Raise e, closed1) => (Raise e, closed1)
  end.
Proof.
  induction l1 as [|o l IH]; intros closed; cbn [app close_all].
  - reflexivity.
  - destruct (obj_close o); [reflexivity|apply IH].
Qed.

Lemma close_if_set_all (x : option driver_object) (closed : list string) :
  close_if_set x closed = close_all (set_objects x) closed.
Proof.
  destruct x as [o|]; cbn [close_if_set set_objects]; [|reflexivity].
  destruct (obj_truthy o); cbn [close_all]; [|reflexivity].
  now destruct (obj_close o).
Qed.

Lemma close_all_objects (c : DatabaseConnector) (closed : list string) :
  close c closed = close_all (connector_objects c) closed.
Proof.
  unfold close, connector_objects.
  rewrite close_all_app, <- close_if_set_all.
  destruct (close_if_set (cursor c) closed) as [[u|e] closed1];
    [apply close_if_set_all|reflexivity].
Qed.

Lemma exit_all_objects (v : BusinessValidator) (closed : list string) :
  __exit__ v closed = close_all (validator_objects v) closed.
Proof.
  unfold __exit__, validator_objects.
  rewrite close_all_app, <- close_all_objects.
  destruct (close (postgres v) closed) as [[u1|e1] c1]; [|reflexivity].
  rewrite close_all_app, <- close_all_objects.
  destruct (close (oracle v) c1) as [[u2|e2] c2]; [|reflexivity].
  rewrite close_all_app, <- close_all_objects.
  destruct (close (teradata v) c2) as [[u3|e3] c3]; [|reflexivity].
  now rewrite <- close_all_objects.
Qed.

Lemma close_all_returns (objs : list driver_object) : forall closed,
  (forall o, In o objs -> obj_close o = None) ->
  close_all objs closed = (Ok tt, closed ++ map obj_name objs).
Proof.
  induction objs as [|o l IH]; intros closed Hall; cbn [close_all map].
  - now rewrite app_nil_r.
  - rewrite (Hall o (or_introl eq_refl)), IH.
    + now rewrite <- app_assoc.
    + intros o' Ho'. apply Hall. now right.
Qed.

Lemma close_all_raises (before : list driver_object) o after e :
  forall closed,
  (forall b, In b before -> obj_close b = None) ->
  obj_close o = Some e ->
  close_all (before ++ o :: after) closed =
  (Raise e, closed ++ map obj_name (before ++ [o])).
Proof.
  intros closed Hbefore Ho.
  rewrite close_all_app, (close_all_returns _ _ Hbefore).
  cbn [close_all]. rewrite Ho, map_app, app_assoc. reflexivity.
Qed.

(** X3.  [__exit__] closes the driver objects of the four connectors in
    the order PostgreSQL, Oracle, Teradata, Snowflake, the cursor of a
    connector before its connection, skipping attributes that are [None]
    or false.  When no [close()] raises, every such object is closed once
    and [__exit__] returns.  When the [close()] of an object raises,
    [__exit__] raises that exception at once: the objects after it are
    never closed. *)
Theorem exit_stops_at_first_failure (v : BusinessValidator) :
  ((forall o, In o (validator_objects v) -> obj_close o = None) ->
   __exit__ v [] = (Ok tt, map obj_name (validator_objects v)))
  /\ (forall before o after e,
        validator_objects v = before ++ o :: after ->
        (forall b, In b before -> obj_close b = None) ->
        obj_close o = Some e ->
        __exit__ v [] = (Raise e, map obj_name (before ++ [o]))).
Proof.
  split.
  - intros Hall. rewrite exit_all_objects. now apply close_all_returns.
  - intros before o after e Hobjs Hbefore Ho.
    rewrite exit_all_objects, Hobjs. now apply close_all_raises.
Qed.

End LifecycleFacts.

Lemma exit_stops_at_first_failure_witness :
  let live name := Lifecycle.mk_object name true None in
  let broken name :=
    Lifecycle.mk_object name true
      (Some (mk_exn Exception "connection already closed")) in
  let connector name o :=
    Lifecycle.mk_state (Some o) (Some (live (name ++ ".cursor")%string)) in
  Lifecycle.__exit__
    (Lifecycle.mk_validator
       (connector "postgres" (live "postgres.connection"))
       (connector "oracle" (broken "oracle.connection"))
       (connector "teradata" (live "teradata.connection"))
       (connector "snowflake" (live "snowflake.connection")))
    []
  = (Raise (mk_exn Exception "connection already closed"),
     ["postgres.cursor"; "postgres.connection"; "oracle.cursor";
      "oracle.connection"]).
Proof.
  intros live broken connector.
  refine (proj2 (exit_stops_at_first_failure
                   (Lifecycle.mk_validator
                      (connector "postgres" (live "postgres.connection"))
                      (connector "oracle" (broken "oracle.connection"))
                      (connector "teradata" (live "teradata.connection"))
                      (connector "snowflake" (live "snowflake.connection"))))
            [live "postgres.cursor"; live "postgres.connection";
             live "oracle.cursor"]
            (broken "oracle.connection")
            [live "teradata.cursor"; live "teradata.connection";
             live "snowflake.cursor"; live "snowflake.connection"]
            (mk_exn Exception "connection already closed")
            eq_refl _ eq_refl).
  intros b [<-|[<-|[<-|[]]]]; reflexivity.
Defined.

(** ** DatabaseConnector.execute_query: the shape of the records *)

Section RecordFacts.

Variable V : Type.

Lemma dict_keys_set (d : dict V) k v :
  dict_keys (dict_set d k v) =
  if dict_contains d k then dict_keys d else dict_keys d ++ [k].
Proof.
  unfold dict_contains, dict_keys.
  induction d as [|[k0 v0] d IH]; cbn [dict_set dict_get map app];
    [reflexivity|].
  destruct (String.eqb k0 k); cbn [map fst]; [reflexivity|].
  rewrite IH. now destruct (dict_get d k).
Qed.

Lemma dict_contains_in (d : dict V) k :
  dict_contains d k = true <-> In k (dict_keys d).
Proof.
  unfold dict_contains, dict_keys.
  induction d as [|[k0 v0] d IH]; cbn [dict_get map fst In].
  - split; [discriminate|contradiction].
  - destruct (String.eqb_spec k0 k) as [E|E].
    + split; [now left|reflexivity].
    + rewrite IH. split; [now right|]. now intros [H|H].
Qed.

(** The keys of a dict are pairwise distinct and come from the pairs it
    was built from. *)
Lemma dict_of_pairs_keys (ps : list (string * V)) :
  NoDup (dict_keys (dict_of_pairs ps))
  /\ forall k, In k (dict_keys (dict_of_pairs ps)) -> In k (map fst ps).
Proof.
  unfold dict_of_pairs.
  enough (G : forall acc,
            NoDup (dict_keys acc) ->
            NoDup (dict_keys
                     (fold_left (fun d p => dict_set d (fst p) (snd p))
                                ps acc))
            /\ forall k,
                 In k (dict_keys
                         (fold_left (fun d p => dict_set d (fst p) (snd p))
                                    ps acc)) ->
                 In k (dict_keys acc) \/ In k (map fst ps)).
  { destruct (G [] (NoDup_nil _)) as [Hnd Hin]. split; [exact Hnd|].
    intros k Hk. now destruct (Hin k Hk). }
  induction ps as [|[k0 v0] ps IH]; intros acc Hacc; cbn [fold_left map].
  - split; [exact Hacc|]. intros k Hk. now left.
  - assert (Hset : NoDup (dict_keys (dict_set acc k0 v0))).
    { rewrite dict_keys_set.
      destruct (dict_contains acc k0) eqn:E; [exact Hacc|].
      apply NoDup_app; [exact Hacc|constructor; [intros []|constructor]|].
      intros k Hk [<-|[]]. apply dict_contains_in in Hk. congruence. }
    destruct (IH _ Hset) as [Hnd Hin]. split; [exact Hnd|].
    intros k Hk. destruct (Hin k Hk) as [H|H]; [|right; now right].
    rewrite dict_keys_set in H. cbn [fst].
    destruct (dict_contains acc k0); [now left|].
    apply in_app_or in H. destruct H as [H|[<-|[]]]; [now left|].
    right; now left.
Qed.

End RecordFacts.

Lemma zip_fst {A B} (xs : list A) : forall (ys : list B),
  length xs = length ys ->
  map fst (zip xs ys) = xs /\ map snd (zip xs ys) = ys.
Proof.
  induction xs as [|x xs IH]; intros [|y ys] Hlen; try discriminate;
    cbn [zip map fst snd]; [now split|].
  injection Hlen as Hlen. destruct (IH ys Hlen) as [-> ->]. now split.
Qed.

Lemma zip_keys {A B} (xs : list A) : forall (ys : list B) k,
  In k (map fst (zip xs ys)) -> In k xs.
Proof.
  induction xs as [|x xs IH]; intros [|y ys] k; cbn [zip map fst In];
    try contradiction.
  intros [H|H]; [now left|right; now apply (IH ys)].
Qed.

Lemma zip_length_le_left {A B} (xs : list A) : forall (ys : list B),
  (length (zip xs ys) <= length xs)%nat.
Proof.
  induction xs as [|x xs IH]; intros [|y ys]; simpl; try lia.
  specialize (IH ys). lia.
Qed.

(** X4.  On a result set [execute_query] returns one record per fetched
    row, in the order fetched.  The keys of a record are pairwise distinct
    column names, and a record never has more entries than the row has
    cells or the cursor has columns: cells beyond the columns are dropped.
    When the column names are distinct and the row has one cell per
    column, the keys of the record are the columns, in order, and its
    values are the cells of the row. *)
Theorem execute_query_records
  (self : DatabaseConnector) (query : string)
  (columns : list string) (fetched : list (list value)) :
  cursor self query = ResultSet columns fetched ->
  exists results,
    execute_query self query = Ok results
    /\ length results = length fetched
    /\ Forall2
         (fun record row =>
            NoDup (dict_keys record)
            /\ (forall k, In k (dict_keys record) -> In k columns)
            /\ (length record <= length columns)%nat
            /\ (length record <= length row)%nat
            /\ (NoDup columns -> length columns = length row ->
                dict_keys record = columns /\ dict_values record = row))
         results fetched.
Proof.
  intros Hcur. unfold execute_query. rewrite Hcur.
  eexists. split; [reflexivity|]. split; [apply length_map|]. clear Hcur.
  induction fetched as [|row rest IH]; cbn [map]; [constructor|].
  constructor; [|exact IH].
  destruct (dict_of_pairs_keys (zip columns row)) as [Hnd Hin].
  pose proof (fold_set_length (zip columns row) []) as Hlen.
  fold (dict_of_pairs (zip columns row)) in Hlen. cbn [length] in Hlen.
  pose proof (zip_length_le columns row).
  pose proof (zip_length_le_left columns row).
  repeat split; try lia; try exact Hnd.
  - intros k Hk. apply (zip_keys columns row). now apply Hin.
  - match goal with
    | E : length columns = length row |- _ =>
        destruct (zip_fst columns row E) as [Hk _]
    end.
    rewrite dict_of_pairs_nodup; [exact Hk|]. now rewrite Hk.
  - match goal with
    | E : length columns = length row |- _ =>
        destruct (zip_fst columns row E) as [Hk Hv]
    end.
    rewrite dict_of_pairs_nodup; [exact Hv|]. now rewrite Hk.
Qed.

Lemma execute_query_records_witness :
  exists results,
    execute_query
      (source PostgresConnector ["product_id"; "product_name"]
              [[VInt 1; VStr "x"; VInt 10]])
      "SELECT product_id, product_name FROM inventory"
    = Ok results
    /\ length results = 1%nat.
Proof.
  destruct (@execute_query_records
              (source PostgresConnector ["product_id"; "product_name"]
                      [[VInt 1; VStr "x"; VInt 10]])
              "SELECT product_id, product_name FROM inventory"
              ["product_id"; "product_name"] [[VInt 1; VStr "x"; VInt 10]]
              eq_refl) as (results & Hq & Hlen & _).
  exists results. split; [exact Hq|exact Hlen].
Defined.

(** ** BusinessValidator.__init__ and main *)




(** ** validate_customer_data: sources without a usable first row *)

Lemma dict_get_absent {V} (d : dict V) k :
  ~ In k (dict_keys d) -> dict_get d k = None.
Proof.
  intros H. pose proof (dict_contains_in d k) as Hc.
  unfold dict_contains in Hc. destruct (dict_get d k); [|reflexivity].
  exfalso. apply H, Hc. reflexivity.
Qed.

Lemma record_lacks_column (columns : list string) (row : list value) k :
  ~ In k columns ->
  getitem (dict_of_pairs (zip columns row)) k
  = Raise (mk_exn KeyError (repr k)).
Proof.
  intros H. unfold getitem. rewrite dict_get_absent; [reflexivity|].
  intros Hk. apply H. apply (zip_keys columns row).
  now apply (dict_of_pairs_keys (zip columns row)).
Qed.

Section CustomerSources.

Variable self : BusinessValidator.
Variables c1 c2 c3 c4 : list string.
Variables f1 f2 f3 f4 : list (list value).

Hypothesis pg_cursor :
  cursor (postgres self) customer_pg_query = ResultSet c1 f1.
Hypothesis oracle_cursor :
  cursor (oracle self) customer_oracle_query = ResultSet c2 f2.
Hypothesis teradata_cursor :
  cursor (teradata self) customer_teradata_query = ResultSet c3 f3.
Hypothesis snowflake_cursor :
  cursor (snowflake self) customer_snowflake_query = ResultSet c4 f4.

Lemma customer_rows_of_result_sets :
  customer_rows self =
  bind (first (map (fun row => dict_of_pairs (zip c1 row)) f1)) (fun r1 =>
  bind (first (map (fun row => dict_of_pairs (zip c2 row)) f2)) (fun r2 =>
  bind (first (map (fun row => dict_of_pairs (zip c3 row)) f3)) (fun r3 =>
  bind (first (map (fun row => dict_of_pairs (zip c4 row)) f4)) (fun r4 =>
  Ok (r1, r2, r3, r4))))).
Proof using All.
  unfold customer_rows, execute_query.
  rewrite pg_cursor, oracle_cursor, teradata_cursor, snowflake_cursor.
  cbn [bind].
  destruct (first (map (fun row => dict_of_pairs (zip c1 row)) f1));
    cbn [bind]; [|reflexivity].
  destruct (first (map (fun row => dict_of_pairs (zip c2 row)) f2));
    cbn [bind]; [|reflexivity].
  destruct (first (map (fun row => dict_of_pairs (zip c3 row)) f3));
    cbn [bind]; reflexivity.
Qed.

(** X6.  When the four sources answer the count query and one of them
    returns no row, [validate_customer_data] reports ERROR with the message
    of the [IndexError] of [[0]], whatever the other sources returned. *)
Theorem customer_source_without_rows :
  f1 = [] \/ f2 = [] \/ f3 = [] \/ f4 = [] ->
  validate_customer_data self =
  [ ("validation_status", PyStr "ERROR");
    ("message", PyStr "Error during validation: list index out of range") ].
Proof using All.
  intros Hempty.
  assert (Hrows : customer_rows self =
                  Raise (mk_exn IndexError "list index out of range")).
  { rewrite customer_rows_of_result_sets.
    destruct f1 as [|x1 l1]; [reflexivity|].
    destruct f2 as [|x2 l2]; [reflexivity|].
    destruct f3 as [|x3 l3]; [reflexivity|].
    destruct f4 as [|x4 l4]; [reflexivity|].
    destruct Hempty as [H|[H|[H|H]]]; discriminate H. }
  unfold validate_customer_data, customer_try, customer_counts.
  rewrite Hrows. reflexivity.
Qed.

(** X7.  When each of the four sources returns at least one row and the
    result set of one of them has no column named [customer_count], the
    check reports ERROR with the message of [KeyError]: the quoted column
    name. *)
Theorem customer_source_without_count_column :
  f1 <> [] -> f2 <> [] -> f3 <> [] -> f4 <> [] ->
  ~ In "customer_count" c1 \/ ~ In "customer_count" c2
  \/ ~ In "customer_count" c3 \/ ~ In "customer_count" c4 ->
  validate_customer_data self =
  [ ("validation_status", PyStr "ERROR");
    ("message", PyStr "Error during validation: 'customer_count'") ].
Proof using All.
  intros H1 H2 H3 H4 Hlacks.
  assert (Hcounts : customer_counts self =
                    Raise (mk_exn KeyError (repr "customer_count"))).
  { unfold customer_counts. rewrite customer_rows_of_result_sets.
    destruct f1 as [|x1 l1]; [contradiction|].
    destruct f2 as [|x2 l2]; [contradiction|].
    destruct f3 as [|x3 l3]; [contradiction|].
    destruct f4 as [|x4 l4]; [contradiction|].
    cbn [map first bind].
    pose proof (@record_lacks_column c1 x1 "customer_count") as L1.
    pose proof (@record_lacks_column c2 x2 "customer_count") as L2.
    pose proof (@record_lacks_column c3 x3 "customer_count") as L3.
    pose proof (@record_lacks_column c4 x4 "customer_count") as L4.
    destruct (getitem (dict_of_pairs (zip c1 x1)) "customer_count")
      as [a|e1] eqn:G1; cbn [bind].
    2: { unfold getitem in G1. destruct (dict_get _ _); [discriminate|].
         now injection G1 as <-. }
    destruct (getitem (dict_of_pairs (zip c2 x2)) "customer_count")
      as [b|e2] eqn:G2; cbn [bind].
    2: { unfold getitem in G2. destruct (dict_get _ _); [discriminate|].
         now injection G2 as <-. }
    destruct (getitem (dict_of_pairs (zip c3 x3)) "customer_count")
      as [c|e3] eqn:G3; cbn [bind].
    2: { unfold getitem in G3. destruct (dict_get _ _); [discriminate|].
         now injection G3 as <-. }
    destruct (getitem (dict_of_pairs (zip c4 x4)) "customer_count")
      as [d|e4] eqn:G4; cbn [bind].
    2: { unfold getitem in G4. destruct (dict_get _ _); [discriminate|].
         now injection G4 as <-. }
    destruct Hlacks as [H|[H|[H|H]]];
      [specialize (L1 H)|specialize (L2 H)|specialize (L3 H)
      |specialize (L4 H)]; discriminate. }
  unfold validate_customer_data, customer_try. rewrite Hcounts. reflexivity.
Qed.

End CustomerSources.

Lemma customer_source_without_rows_witness :
  validate_customer_data
    (mk_validator
       (source PostgresConnector ["customer_count"] [[VInt 5]])
       (source OracleConnector ["customer_count"] [])
       (source TeradataConnector ["customer_count"] [[VInt 5]])
       (source SnowflakeConnector ["customer_count"] [[VInt 5]])) =
  [ ("validation_status", PyStr "ERROR");
    ("message", PyStr "Error during validation: list index out of range") ].
Proof.
  refine (@customer_source_without_rows
            (mk_validator
               (source PostgresConnector ["customer_count"] [[VInt 5]])
               (source OracleConnector ["customer_count"] [])
               (source TeradataConnector ["customer_count"] [[VInt 5]])
               (source SnowflakeConnector ["customer_count"] [[VInt 5]]))
            ["customer_count"] ["customer_count"] ["customer_count"]
            ["customer_count"] [[VInt 5]] [] [[VInt 5]] [[VInt 5]]
            eq_refl eq_refl eq_refl eq_refl _).
  right; left; reflexivity.
Defined.

Lemma customer_source_without_count_column_witness :
  validate_customer_data
    (mk_validator
       (source PostgresConnector ["customer_count"] [[VInt 5]])
       (source OracleConnector ["CUSTOMER_COUNT"] [[VInt 5]])
       (source TeradataConnector ["customer_count"] [[VInt 5]])
       (source SnowflakeConnector ["customer_count"] [[VInt 5]])) =
  [ ("validation_status", PyStr "ERROR");
    ("message", PyStr "Error during validation: 'customer_count'") ].
Proof.
  refine (@customer_source_without_count_column
            (mk_validator
               (source PostgresConnector ["customer_count"] [[VInt 5]])
               (source OracleConnector ["CUSTOMER_COUNT"] [[VInt 5]])
               (source TeradataConnector ["customer_count"] [[VInt 5]])
               (source SnowflakeConnector ["customer_count"] [[VInt 5]]))
            ["customer_count"] ["CUSTOMER_COUNT"] ["customer_count"]
            ["customer_count"] [[VInt 5]] [[VInt 5]] [[VInt 5]] [[VInt 5]]
            eq_refl eq_refl eq_refl eq_refl _ _ _ _ _);
    try discriminate.
  right; left. intros [H|[]]. discriminate H.
Defined.

(** ** The result dicts of the three checks *)

Lemma frame_result_shape (body : result Pandas.DataFrame) :
  (exists d, body = Ok d /\ Pandas.rows d = [])
  \/ (exists d, body = Ok d /\ Pandas.to_dict_records d <> []
                /\ Nat.ltb 0 (Pandas.len d) = true
                /\ Pandas.len d = length (Pandas.to_dict_records d))
  \/ (exists e, body = Raise e).
Proof.
  destruct body as [d|e]; [|right; right; now exists e].
  destruct (Pandas.rows d) as [|row l] eqn:E.
  - left. now exists d.
  - right; left. exists d. unfold Pandas.to_dict_records, Pandas.len.
    rewrite length_map, E. repeat split. discriminate.
Qed.

(** X8.  What a check returns has one of three shapes.  The customer
    check returns the four counts followed by a status PASSED or FAILED
    and a message, or the two-entry ERROR dict.  The revenue and inventory
    checks return the two-entry PASSED dict, or a FAILED dict whose
    [discrepancies] is a non-empty list of records and whose message
    carries the length of that list, or the two-entry ERROR dict: the key
    [discrepancies] is present exactly in the FAILED results. *)
Theorem result_shapes (self : BusinessValidator) :
  ((exists a b c d st msg,
      validate_customer_data self =
        counts_dict a b c d
        ++ [("validation_status", PyStr st); ("message", PyStr msg)]
      /\ (st = "PASSED" \/ st = "FAILED"))
   \/ exists e,
        validate_customer_data self =
        error_result "Error during validation: " e)
  /\ (validate_revenue_data self =
        [ ("validation_status", PyStr "PASSED");
          ("message",
           PyStr "Revenue data matches within 1% tolerance across systems") ]
      \/ (exists recs,
            recs <> []
            /\ validate_revenue_data self =
               [ ("validation_status", PyStr "FAILED");
                 ("message",
                  PyStr ("Found " ++ str_of_nat (length recs)
                         ++ " days with revenue discrepancy > 1%")%string);
                 ("discrepancies", PyRecords recs) ])
      \/ exists e,
           validate_revenue_data self =
           error_result "Error during validation: " e)
  /\ (validate_inventory_levels self =
        [ ("validation_status", PyStr "PASSED");
          ("message", PyStr "Inventory levels match across systems") ]
      \/ (exists recs,
            recs <> []
            /\ validate_inventory_levels self =
               [ ("validation_status", PyStr "FAILED");
                 ("message",
                  PyStr ("Found " ++ str_of_nat (length recs)
                         ++ " products with inventory discrepancies")%string);
                 ("discrepancies", PyRecords recs) ])
      \/ exists e,
           validate_inventory_levels self =
           error_result "Error during inventory validation: " e).
Proof.
  split; [|split].
  - unfold validate_customer_data.
    destruct (customer_counts self) as [results|e] eqn:E.
    + destruct (customer_counts_shape self E) as (a & b & c & d & ->).
      rewrite (customer_try_verdict self E). cbn [try_except]. left.
      unfold customer_verdict.
      destruct (Nat.eqb (length (distinct [a; b; c; d])) 1);
        exists a, b, c, d; do 2 eexists; (split; [reflexivity|tauto]).
    + rewrite (customer_try_raise self E). right. now exists e.
  - unfold validate_revenue_data, revenue_try.
    destruct (frame_result_shape (revenue_discrepancies self))
      as [(d & -> & Hd)|[(d & -> & Hne & Hlt & Hlen)|(e & ->)]];
      cbn [bind try_except]; unfold revenue_verdict.
    + left. unfold Pandas.len. now rewrite Hd.
    + right; left. rewrite Hlt, Hlen. eexists. split; [exact Hne|reflexivity].
    + right; right. now exists e.
  - unfold validate_inventory_levels, inventory_try.
    destruct (frame_result_shape (inventory_discrepancies self))
      as [(d & -> & Hd)|[(d & -> & Hne & Hlt & Hlen)|(e & ->)]];
      cbn [bind try_except]; unfold inventory_verdict.
    + left. unfold Pandas.len. now rewrite Hd.
    + right; left. rewrite Hlt, Hlen. eexists. split; [exact Hne|reflexivity].
    + right; right. now exists e.
Qed.

(** ** Row-aligned checks: a source without rows or without the key *)

Section KeyColumn.

Import Pandas.

Lemma union_keys_subset (records : list (dict value)) : forall acc c,
  In c (fold_left
          (fun acc r =>
             acc ++ filter (fun k => negb (mem k acc)) (dict_keys r))
          records acc) ->
  In c acc \/ exists r, In r records /\ In c (dict_keys r).
Proof.
  induction records as [|r l IH]; intros acc c; cbn [fold_left].
  - now left.
  - intros H. destruct (IH _ _ H) as [Hacc|(r' & Hr' & Hc)].
    + apply in_app_or in Hacc. destruct Hacc as [Hacc|Hf]; [now left|].
      apply filter_In in Hf. right. exists r. split; [now left|tauto].
    + right. exists r'. split; [now right|exact Hc].
Qed.

(** A label of the frame built from a result set is one of the columns of
    the result set, and there is no label at all without a row. *)
Lemma frame_labels (columns : list string) (fetched : list (list value)) c :
  In c (labels (DataFrame_of_records
                  (map (fun row => dict_of_pairs (zip columns row))
                       fetched))) ->
  In c columns /\ fetched <> [].
Proof.
  unfold labels, DataFrame_of_records. cbn [Pandas.columns].
  rewrite map_map. cbn [fst]. rewrite map_id. unfold union_keys.
  intros H. apply union_keys_subset in H.
  destruct H as [[]|(r & Hr & Hc)].
  apply in_map_iff in Hr. destruct Hr as (row & <- & Hrow). split.
  - apply (zip_keys columns row).
    now apply (dict_of_pairs_keys (zip columns row)).
  - intros ->. exact Hrow.
Qed.

Lemma mem_in (c : string) (l : list string) : mem c l = true -> In c l.
Proof.
  unfold mem. intros H. apply existsb_exists in H.
  destruct H as (x & Hx & E). apply String.eqb_eq in E. now subst.
Qed.

Lemma key_missing (on : list string) (k : string)
  (c1 c2 : list string) (f1 f2 : list (list value)) suffixes :
  f1 = [] \/ f2 = [] \/ ~ In k c1 \/ ~ In k c2 ->
  merge (DataFrame_of_records
           (map (fun row => dict_of_pairs (zip c1 row)) f1))
        (DataFrame_of_records
           (map (fun row => dict_of_pairs (zip c2 row)) f2))
        (k :: on) suffixes
  = Raise (mk_exn KeyError (repr k)).
Proof.
  intros H. unfold merge. cbn [check_keys].
  set (left := DataFrame_of_records
                 (map (fun row => dict_of_pairs (zip c1 row)) f1)).
  set (right := DataFrame_of_records
                  (map (fun row => dict_of_pairs (zip c2 row)) f2)).
  destruct (mem k (labels right)) eqn:Er; [|reflexivity].
  destruct (mem k (labels left)) eqn:El; [|reflexivity].
  exfalso. apply mem_in, frame_labels in Er. apply mem_in, frame_labels in El.
  tauto.
Qed.

(** X9.  A row-aligned check whose two sources answer reports ERROR with
    the quoted name of its first join key as soon as one of the two
    result sets has no row, or has no column of that name: [date] for the
    revenue check, [product_id] for the inventory check. *)
Theorem key_column_missing (self : BusinessValidator)
  (c1 c2 : list string) (f1 f2 : list (list value)) :
  (cursor (postgres self) revenue_pg_query = ResultSet c1 f1 ->
   cursor (snowflake self) revenue_snowflake_query = ResultSet c2 f2 ->
   f1 = [] \/ f2 = [] \/ ~ In "date" c1 \/ ~ In "date" c2 ->
   validate_revenue_data self =
   [ ("validation_status", PyStr "ERROR");
     ("message", PyStr "Error during validation: 'date'") ])
  /\ (cursor (postgres self) inventory_pg_query = ResultSet c1 f1 ->
      cursor (oracle self) inventory_oracle_query = ResultSet c2 f2 ->
      f1 = [] \/ f2 = [] \/ ~ In "product_id" c1 \/ ~ In "product_id" c2 ->
      validate_inventory_levels self =
      [ ("validation_status", PyStr "ERROR");
        ("message",
         PyStr "Error during inventory validation: 'product_id'") ]).
Proof.
  split; intros Hpg Hother Hmissing.
  - unfold validate_revenue_data, revenue_try, revenue_discrepancies,
      revenue_merged, execute_query.
    rewrite Hpg, Hother. cbn [bind].
    now rewrite (@key_missing [] "date" c1 c2 f1 f2 _ Hmissing).
  - unfold validate_inventory_levels, inventory_try,
      inventory_discrepancies, inventory_merged, execute_query.
    rewrite Hpg, Hother. cbn [bind].
    now rewrite (@key_missing ["product_name"] "product_id" c1 c2 f1 f2 _
                   Hmissing).
Qed.

End KeyColumn.

Lemma key_column_missing_witness :
  validate_revenue_data
    (mk_validator
       (source PostgresConnector ["date"; "daily_revenue"]
               [[VStr "2024-05-01"; VInt 100]])
       (unreachable OracleConnector)
       (unreachable TeradataConnector)
       (source SnowflakeConnector ["DATE"; "DAILY_REVENUE"]
               [[VStr "2024-05-01"; VInt 100]])) =
  [ ("validation_status", PyStr "ERROR");
    ("message", PyStr "Error during validation: 'date'") ].
Proof.
  refine (proj1
    (key_column_missing
       (mk_validator
          (source PostgresConnector ["date"; "daily_revenue"]
                  [[VStr "2024-05-01"; VInt 100]])
          (unreachable OracleConnector)
          (unreachable TeradataConnector)
          (source SnowflakeConnector ["DATE"; "DAILY_REVENUE"]
                  [[VStr "2024-05-01"; VInt 100]]))
       ["date"; "daily_revenue"] ["DATE"; "DAILY_REVENUE"]
       [[VStr "2024-05-01"; VInt 100]] [[VStr "2024-05-01"; VInt 100]])
    eq_refl eq_refl _).
  right; right; right. intros [H|[H|[]]]; discriminate H.
Defined.

(** ** validate_revenue_data: which days fail *)

Lemma unique_day {A} (days : list (string * A)) d x y :
  NoDup (map fst days) -> In (d, x) days -> In (d, y) days -> x = y.
Proof.
  induction days as [|[d0 z] l IH]; cbn [map fst In]; [contradiction|].
  intros Hnd [Hx|Hx] [Hy|Hy].
  - congruence.
  - injection Hx as -> ->. apply NoDup_cons_iff in Hnd.
    exfalso. apply (proj1 Hnd). apply in_map_iff. now exists (d, y).
  - injection Hy as -> ->. apply NoDup_cons_iff in Hnd.
    exfalso. apply (proj1 Hnd). apply in_map_iff. now exists (d, x).
  - apply NoDup_cons_iff in Hnd. now apply IH.
Qed.

Lemma small_in_int64 (n : Z) : (Z.abs n < 2 ^ 52)%Z -> in_int64 n = true.
Proof.
  intros H. apply in_int64_bounds.
  change (2 ^ 52)%Z with 4503599627370496%Z in H. lia.
Qed.

Section RevenueDays.

Import Pandas.

Variable self : BusinessValidator.
Variables pg sf : list (string * value).

Hypothesis pg_cursor :
  cursor (postgres self) revenue_pg_query
  = ResultSet revenue_columns (map day_row pg).
Hypothesis sf_cursor :
  cursor (snowflake self) revenue_snowflake_query
  = ResultSet revenue_columns (map day_row sf).
Hypothesis pg_nonempty : pg <> [].
Hypothesis sf_nonempty : sf <> [].

(** X10.  On numeric revenue columns, when no day is present in both
    sources the revenue check reports PASSED: the days of one source only
    are left out of the comparison. *)
Theorem revenue_without_common_day :
  Forall (fun p => is_number (snd p) = true) pg ->
  Forall (fun p => is_number (snd p) = true) sf ->
  (forall d x y, In (d, x) pg -> In (d, y) sf -> False) ->
  validate_revenue_data self =
  [ ("validation_status", PyStr "PASSED");
    ("message",
     PyStr "Revenue data matches within 1% tolerance across systems") ].
Proof using All.
  intros _ _ Hnone.
  apply (@revenue_no_common_day self pg sf pg_cursor sf_cursor pg_nonempty
           sf_nonempty).
  now apply no_joined_day.
Qed.

(** X11.  When every revenue is an integer below 2^52 in absolute value
    and no PostgreSQL revenue is 0, the revenue check reports FAILED
    exactly when some day present in both sources has
    [100 * |pg - sf| > |pg|], and PASSED otherwise: the tolerance is one
    hundredth of the absolute PostgreSQL revenue, a difference of exactly
    that size passes, and the two roundings of the computation do not move
    the threshold. *)
Theorem revenue_fails_beyond_one_hundredth :
  (forall d x, In (d, x) pg ->
     exists m, x = VInt m /\ m <> 0%Z /\ (Z.abs m < 2 ^ 52)%Z) ->
  (forall d y, In (d, y) sf ->
     exists n, y = VInt n /\ (Z.abs n < 2 ^ 52)%Z) ->
  (status (validate_revenue_data self) = FAILED <->
   exists d m n,
     In (d, VInt m) pg /\ In (d, VInt n) sf
     /\ (Z.abs m < 100 * Z.abs (m - n))%Z)
  /\ (status (validate_revenue_data self) = PASSED <->
      forall d m n,
        In (d, VInt m) pg -> In (d, VInt n) sf ->
        (100 * Z.abs (m - n) <= Z.abs m)%Z).
Proof using All.
  intros Hint_pg Hint_sf.
  assert (Ppg : Forall (fun p => plain (snd p) = true) pg).
  { apply Forall_forall. intros [d x] Hin.
    destruct (Hint_pg d x Hin) as (m & -> & _ & Hm).
    now apply small_in_int64. }
  assert (Psf : Forall (fun p => plain (snd p) = true) sf).
  { apply Forall_forall. intros [d y] Hin.
    destruct (Hint_sf d y Hin) as (n & -> & Hn).
    now apply small_in_int64. }
  pose proof (plain_revenue_dtype Ppg pg_nonempty) as Tp.
  pose proof (plain_revenue_dtype Psf sf_nonempty) as Ts.
  destruct (@revenue_status self pg sf pg_cursor sf_cursor pg_nonempty
              sf_nonempty (numeric_of_cases Tp) (numeric_of_cases Ts))
    as [Hfailed Hpassed].
  set (tp := infer_dtype (map snd pg)) in *.
  set (ts := infer_dtype (map snd sf)) in *.
  assert (Hday : forall d m n,
            In (d, VInt m) pg -> In (d, VInt n) sf ->
            (flagged tp ts (d, VInt m, VInt n) = true <->
             (Z.abs m < 100 * Z.abs (m - n))%Z)).
  { intros d m n Hx Hy.
    destruct (Hint_pg d _ Hx) as (m' & Em & Hnz & Hm).
    injection Em as <-.
    destruct (Hint_sf d _ Hy) as (n' & En & Hn). injection En as <-.
    now apply flagged_ints. }
  split.
  - rewrite Hfailed. split.
    + intros (d & x & y & Hx & Hy & Hf).
      destruct (Hint_pg d x Hx) as (m & -> & _).
      destruct (Hint_sf d y Hy) as (n & -> & _).
      exists d, m, n. rewrite <- (Hday d m n Hx Hy). tauto.
    + intros (d & m & n & Hx & Hy & Hgt).
      exists d, (VInt m), (VInt n). rewrite (Hday d m n Hx Hy). tauto.
  - rewrite Hpassed. split.
    + intros Hall d m n Hx Hy.
      destruct (Z_lt_le_dec (Z.abs m) (100 * Z.abs (m - n))) as [Hgt|Hle];
        [|exact Hle].
      apply (Hday d m n Hx Hy) in Hgt.
      rewrite (Hall d _ _ Hx Hy) in Hgt. discriminate Hgt.
    + intros Hall d x y Hx Hy.
      destruct (Hint_pg d x Hx) as (m & -> & _).
      destruct (Hint_sf d y Hy) as (n & -> & _).
      destruct (flagged tp ts (d, VInt m, VInt n)) eqn:F; [|reflexivity].
      apply (Hday d m n Hx Hy) in F.
      specialize (Hall d m n Hx Hy). lia.
Qed.

End RevenueDays.

(** X12.  When the two sources return the same rows for the revenue
    query, with revenues that are ints of 64 bits, floats or NULL, at
    least one of them a number, and no day twice, the check reports
    PASSED, also for days whose revenue is 0. *)
Theorem identical_revenue_data_passes
  (self : BusinessValidator) (days : list (string * value)) :
  cursor (postgres self) revenue_pg_query
  = ResultSet revenue_columns (map day_row days) ->
  cursor (snowflake self) revenue_snowflake_query
  = ResultSet revenue_columns (map day_row days) ->
  Forall (fun p => plain_or_none (snd p) = true) days ->
  Exists (fun p => Pandas.is_number (snd p) = true) days ->
  NoDup (map fst days) ->
  validate_revenue_data self =
  [ ("validation_status", PyStr "PASSED");
    ("message",
     PyStr "Revenue data matches within 1% tolerance across systems") ].
Proof.
  intros Hpg Hsf Hcells Hnum Hnd.
  assert (Hne : days <> []) by (intros ->; inversion Hnum).
  pose proof (numeric_of_cases (revenue_dtype Hcells Hnum)) as Ht.
  apply (@revenue_passed self days days Hpg Hsf Hne Hne Ht Ht).
  intros d x y Hx Hy. rewrite (@unique_day _ days d x y Hnd Hx Hy).
  now apply flagged_same.
Qed.

Lemma revenue_without_common_day_witness :
  validate_revenue_data
    (revenue_sources [[VStr "2024-05-01"; VInt 100]]
                     [[VStr "2024-05-02"; VInt 500]]) =
  [ ("validation_status", PyStr "PASSED");
    ("message",
     PyStr "Revenue data matches within 1% tolerance across systems") ].
Proof.
  refine (@revenue_without_common_day
            (revenue_sources [[VStr "2024-05-01"; VInt 100]]
                             [[VStr "2024-05-02"; VInt 500]])
            [("2024-05-01", VInt 100)] [("2024-05-02", VInt 500)]
            eq_refl eq_refl _ _ _ _ _); try discriminate.
  - constructor; [reflexivity|constructor].
  - constructor; [reflexivity|constructor].
  - intros d x y [H1|[]] [H2|[]]. congruence.
Defined.

Lemma revenue_fails_beyond_one_hundredth_witness :
  status (validate_revenue_data
            (revenue_sources [[VStr "2024-05-01"; VInt 100]]
                             [[VStr "2024-05-01"; VInt 102]]))
  = FAILED.
Proof.
  refine (proj2 (proj1
    (@revenue_fails_beyond_one_hundredth
       (revenue_sources [[VStr "2024-05-01"; VInt 100]]
                        [[VStr "2024-05-01"; VInt 102]])
       [("2024-05-01", VInt 100)] [("2024-05-01", VInt 102)]
       eq_refl eq_refl _ _ _ _)) _); try discriminate.
  - intros d x [H|[]]. injection H as <- <-.
    exists 100%Z. split; [reflexivity|]. split; [discriminate|reflexivity].
  - intros d y [H|[]]. injection H as <- <-.
    exists 102%Z. split; reflexivity.
  - exists "2024-05-01", 100%Z, 102%Z.
    repeat split; try (left; reflexivity).
Defined.

Lemma identical_revenue_data_passes_witness :
  validate_revenue_data
    (revenue_sources [[VStr "2024-05-01"; VInt 0]]
                     [[VStr "2024-05-01"; VInt 0]]) =
  [ ("validation_status", PyStr "PASSED");
    ("message",
     PyStr "Revenue data matches within 1% tolerance across systems") ].
Proof.
  refine (@identical_revenue_data_passes
            (revenue_sources [[VStr "2024-05-01"; VInt 0]]
                             [[VStr "2024-05-01"; VInt 0]])
            [("2024-05-01", VInt 0)] eq_refl eq_refl _ _ _).
  - constructor; [reflexivity|constructor].
  - apply Exists_cons_hd. reflexivity.
  - constructor; [intros []|constructor].
Defined.

(** ** validate_inventory_levels: a missing stock *)

Section InventoryStock.

Variable self : BusinessValidator.
Variables pg_rows oracle_rows : list (dict value).
Variable merged_data : Pandas.DataFrame.

Hypothesis pg_query_ok :
  execute_query (postgres self) inventory_pg_query = Ok pg_rows.
Hypothesis oracle_query_ok :
  execute_query (oracle self) inventory_oracle_query = Ok oracle_rows.
Hypothesis merge_ok :
  Pandas.merge (Pandas.DataFrame_of_records pg_rows)
               (Pandas.DataFrame_of_records oracle_rows)
               ["product_id"; "product_name"] ("_pg", "_oracle")
  = Ok merged_data.

(** X13.  A joined row of the inventory check whose stock is missing
    (NULL) on either side is always a discrepancy, also when it is missing
    on both sides: the check then reports FAILED and the row is among the
    records. *)
Theorem inventory_missing_stock_is_reported i j row :
  Pandas.index_of "current_stock_pg" (Pandas.labels merged_data) = Some i ->
  Pandas.index_of "current_stock_oracle" (Pandas.labels merged_data)
  = Some j ->
  In row (Pandas.rows merged_data) ->
  Pandas.isna (nth i row VNone) = true
  \/ Pandas.isna (nth j row VNone) = true ->
  status (validate_inventory_levels self) = FAILED
  /\ exists recs,
       dict_get (validate_inventory_levels self) "discrepancies"
       = Some (PyRecords recs)
       /\ In (dict_of_pairs (zip (Pandas.labels merged_data) row)) recs.
Proof using All.
  intros Hi Hj Hrow Hna.
  pose proof (@inventory_discrepancies_rows self pg_rows oracle_rows
                merged_data pg_query_ok oracle_query_ok merge_ok i j Hi Hj)
    as Hd.
  assert (Hin : In row (filter (reported merged_data i j)
                               (Pandas.rows merged_data))).
  { apply filter_In. split; [exact Hrow|].
    unfold reported, Pandas.differs.
    destruct Hna as [-> | ->]; [reflexivity|].
    now rewrite orb_true_r. }
  unfold validate_inventory_levels, inventory_try. rewrite Hd.
  cbn [bind try_except]. unfold inventory_verdict, Pandas.len.
  cbn [Pandas.rows].
  destruct (filter (reported merged_data i j) (Pandas.rows merged_data))
    as [|r0 l] eqn:E; [contradiction|].
  cbn [length Nat.ltb Nat.leb]. split; [reflexivity|].
  eexists. split; [reflexivity|].
  unfold Pandas.to_dict_records, Pandas.labels.
  cbn [Pandas.rows Pandas.columns].
  apply in_map_iff. exists row. split; [reflexivity|exact Hin].
Qed.

End InventoryStock.

Lemma inventory_missing_stock_is_reported_witness :
  status (validate_inventory_levels
            (inventory_sources
               [[VInt 1; VStr "x"; VNone; VStr "2024-05-01"]]
               [[VInt 1; VStr "x"; VNone; VStr "2024-05-01"]]))
  = FAILED.
Proof.
  refine (proj1
    (@inventory_missing_stock_is_reported
       (inventory_sources
          [[VInt 1; VStr "x"; VNone; VStr "2024-05-01"]]
          [[VInt 1; VStr "x"; VNone; VStr "2024-05-01"]])
       [[("product_id", VInt 1); ("product_name", VStr "x");
         ("current_stock", VNone); ("last_updated", VStr "2024-05-01")]]
       [[("product_id", VInt 1); ("product_name", VStr "x");
         ("current_stock", VNone); ("last_updated", VStr "2024-05-01")]]
       (Pandas.mk_frame
          [ ("product_id", Pandas.int64); ("product_name", Pandas.object);
            ("current_stock_pg", Pandas.object);
            ("last_updated_pg", Pandas.object);
            ("current_stock_oracle", Pandas.object);
            ("last_updated_oracle", Pandas.object) ]
          [[VInt 1; VStr "x"; VNone; VStr "2024-05-01"; VNone;
            VStr "2024-05-01"]])
       eq_refl eq_refl eq_refl 2%nat 4%nat
       [VInt 1; VStr "x"; VNone; VStr "2024-05-01"; VNone; VStr "2024-05-01"]
       eq_refl eq_refl (or_introl eq_refl) (or_introl eq_refl))).
Defined.

(** ** validate_inventory_levels on result sets of the query's shape *)

Section ItemFrames.

Import Pandas.

Lemma infer_dtype_ints {A} (f : A -> Z) (l : list A) :
  l <> [] -> Forall (fun x => in_int64 (f x) = true) l ->
  infer_dtype (map (fun x => VInt (f x)) l) = int64.
Proof.
  intros Hne Hall. rewrite plain_column.
  - assert (E : existsb (fun v => negb (is_int v))
                        (map (fun x => VInt (f x)) l) = false).
    { apply not_true_is_false. intros H. apply existsb_exists in H.
      destruct H as (v & Hv & Hn). apply in_map_iff in Hv.
      destruct Hv as (x & <- & _). discriminate Hn. }
    now rewrite E.
  - apply Forall_map. eapply Forall_impl; [|exact Hall].
    intros x Hx. exact Hx.
  - destruct l; [contradiction|reflexivity].
Qed.

Lemma infer_dtype_strs {A} (f : A -> string) (l : list A) :
  l <> [] -> infer_dtype (map (fun x => VStr (f x)) l) = object.
Proof. destruct l; [contradiction|reflexivity]. Qed.

(** The records [execute_query] builds from rows of the inventory query. *)
Lemma execute_query_items (conn : DatabaseConnector) (query : string)
  (items : list item) :
  cursor conn query = ResultSet inventory_columns (map item_row items) ->
  execute_query conn query = Ok (map item_record items).
Proof.
  intros H. unfold execute_query. rewrite H, map_map. reflexivity.
Qed.

Lemma union_keys_items (items : list item) :
  items <> [] -> union_keys (map item_record items) = inventory_columns.
Proof.
  destruct items as [|p l]; [contradiction|intros _].
  unfold union_keys. cbn [map fold_left].
  change ([] ++ filter (fun k => negb (mem k [])) (dict_keys (item_record p)))
    with inventory_columns.
  induction l as [|q l IH]; [reflexivity|]. cbn [map fold_left].
  exact IH.
Qed.

Lemma items_in_range (items : list item) :
  Forall (fun a => item_in_int64 a = true) items ->
  Forall (fun a => in_int64 (item_id a) = true) items
  /\ Forall (fun a => in_int64 (item_stock a) = true) items.
Proof.
  intros H. split; (eapply Forall_impl; [|exact H]); intros a Ha;
    unfold item_in_int64 in Ha; apply andb_true_iff in Ha; tauto.
Qed.

(** [pd.DataFrame] on the records of the inventory query: integer columns
    for the identifier and the stock, text columns for the other two. *)
Lemma frame_of_items (items : list item) :
  items <> [] -> Forall (fun a => item_in_int64 a = true) items ->
  DataFrame_of_records (map item_record items)
  = mk_frame item_columns (map item_row items).
Proof.
  intros Hne Hrange. destruct (items_in_range Hrange) as [Hid Hstock].
  unfold DataFrame_of_records.
  rewrite (union_keys_items Hne). unfold inventory_columns. cbn [map].
  rewrite !map_map.
  change (map (fun x => cell (item_record x) "product_id") items)
    with (map (fun x => VInt (item_id x)) items).
  change (map (fun x => cell (item_record x) "product_name") items)
    with (map (fun x => VStr (item_name x)) items).
  change (map (fun x => cell (item_record x) "current_stock") items)
    with (map (fun x => VInt (item_stock x)) items).
  change (map (fun x => cell (item_record x) "last_updated") items)
    with (map (fun x => VStr (item_updated x)) items).
  rewrite (infer_dtype_ints _ Hne Hid), (infer_dtype_ints _ Hne Hstock),
    !(infer_dtype_strs _ Hne).
  reflexivity.
Qed.

Lemma keys_match_items (left right : DataFrame) (a b : item) :
  columns left = item_columns -> columns right = item_columns ->
  keys_match ["product_id"; "product_name"] left right
             (item_row a) (item_row b)
  = same_product a b.
Proof.
  intros Hl Hr.
  unfold keys_match, cells_at, dtypes_at, labels, key_eqb, same_product.
  rewrite Hl, Hr. cbn. now rewrite andb_true_r.
Qed.

(** The inner join of the two inventory frames, product by product. *)
Lemma joined_rows_items (pg ora : list item) :
  joined_rows ["product_id"; "product_name"]
    (mk_frame item_columns (map item_row pg))
    (mk_frame item_columns (map item_row ora))
  = map joined_item_row (joined_items pg ora).
Proof.
  unfold joined_rows, joined_items. cbn [rows].
  set (left := mk_frame item_columns (map item_row pg)).
  set (right := mk_frame item_columns (map item_row ora)).
  assert (Hl : columns left = item_columns) by reflexivity.
  assert (Hr : columns right = item_columns) by reflexivity.
  clearbody left right.
  induction pg as [|p l IH]; [reflexivity|].
  cbn [map flat_map]. rewrite map_app, IH. f_equal. clear IH.
  induction ora as [|q l' IH']; [reflexivity|].
  cbn [map filter]. rewrite (@keys_match_items left right _ _ Hl Hr).
  destruct (same_product p q); cbn [map]; [|exact IH'].
  rewrite IH'. unfold labels. rewrite Hr. reflexivity.
Qed.

Lemma in_joined_items (pg ora : list item) a b :
  In (a, b) (joined_items pg ora) <->
  In a pg /\ In b ora
  /\ item_id a = item_id b /\ item_name a = item_name b.
Proof.
  unfold joined_items. rewrite in_flat_map. split.
  - intros (a' & Ha & Hin). apply in_map_iff in Hin.
    destruct Hin as (b' & Heq & Hb). apply filter_In in Hb.
    destruct Hb as [Hb Hsame]. injection Heq as -> ->.
    unfold same_product in Hsame. apply andb_true_iff in Hsame.
    destruct Hsame as [Hid Hname].
    apply Z.eqb_eq in Hid. apply String.eqb_eq in Hname. tauto.
  - intros (Ha & Hb & Hid & Hname). exists a. split; [exact Ha|].
    apply in_map_iff. exists b. split; [reflexivity|].
    apply filter_In. split; [exact Hb|]. unfold same_product.
    rewrite Hid, Hname, Z.eqb_refl, String.eqb_refl. reflexivity.
Qed.

(** [pd.merge] on the two inventory frames. *)
Lemma merge_items (pg ora : list item) :
  merge (mk_frame item_columns (map item_row pg))
        (mk_frame item_columns (map item_row ora))
        ["product_id"; "product_name"] ("_pg", "_oracle")
  = Ok (mk_frame joined_item_columns
          (map joined_item_row (joined_items pg ora))).
Proof.
  unfold merge. rewrite joined_rows_items. reflexivity.
Qed.

End ItemFrames.

Section InventoryItems.

Import Pandas.

Variable self : BusinessValidator.
Variables pg ora : list item.

Hypothesis pg_cursor :
  cursor (postgres self) inventory_pg_query
  = ResultSet inventory_columns (map item_row pg).
Hypothesis oracle_cursor :
  cursor (oracle self) inventory_oracle_query
  = ResultSet inventory_columns (map item_row ora).
Hypothesis pg_nonempty : pg <> [].
Hypothesis oracle_nonempty : ora <> [].
Hypothesis pg_range : Forall (fun a => item_in_int64 a = true) pg.
Hypothesis oracle_range : Forall (fun a => item_in_int64 a = true) ora.

(** Nothing is raised, and the frame of discrepancies holds one row for
    each pair of rows of one product whose stocks differ. *)
Lemma inventory_discrepancies_items :
  inventory_discrepancies self =
  Ok (mk_frame joined_item_columns
        (map joined_item_row (filter stock_differs (joined_items pg ora)))).
Proof using All.
  unfold inventory_discrepancies, inventory_merged.
  rewrite (execute_query_items _ _ _ pg_cursor),
          (execute_query_items _ _ _ oracle_cursor).
  cbn [bind].
  rewrite (frame_of_items pg_nonempty pg_range),
          (frame_of_items oracle_nonempty oracle_range).
  rewrite merge_items. cbn [bind].
  rewrite (@getitem_map _ (joined_items pg ora) joined_item_columns _
             "current_stock_pg" 2 eq_refl).
  rewrite (@getitem_map _ (joined_items pg ora) joined_item_columns _
             "current_stock_oracle" 4 eq_refl).
  cbn [bind]. unfold ne. cbn [s_cells s_dtype].
  rewrite zip_map_map, map_map.
  rewrite (@select_map _ (joined_items pg ora)). reflexivity.
Qed.

Lemma validate_inventory_levels_items :
  validate_inventory_levels self =
  inventory_verdict
    (mk_frame joined_item_columns
       (map joined_item_row (filter stock_differs (joined_items pg ora)))).
Proof using All.
  unfold validate_inventory_levels, inventory_try.
  now rewrite inventory_discrepancies_items.
Qed.

Lemma in_differing_items a b :
  In (a, b) (filter stock_differs (joined_items pg ora)) <->
  In a pg /\ In b ora
  /\ item_id a = item_id b /\ item_name a = item_name b
  /\ item_stock a <> item_stock b.
Proof.
  rewrite filter_In, in_joined_items. unfold stock_differs. cbn [fst snd].
  rewrite negb_true_iff, Z.eqb_neq. tauto.
Qed.

(** X14.  On result sets of the inventory query's shape (identifier and
    stock integers of 64 bits, text name and timestamp, at least one row
    on each side) the inventory check never reports ERROR: it reports
    FAILED exactly when some product, identified by identifier and name,
    has a row in each source with different stocks, and PASSED otherwise.
    Each such pair of rows is one reported record, carrying the stock and
    the timestamp of both sides, and the message counts these pairs; rows
    of a product of one source only and differences in [last_updated]
    never make the check fail. *)
Theorem inventory_fails_on_stock_difference :
  (status (validate_inventory_levels self) = FAILED <->
   exists a b,
     In a pg /\ In b ora
     /\ item_id a = item_id b /\ item_name a = item_name b
     /\ item_stock a <> item_stock b)
  /\ (status (validate_inventory_levels self) = PASSED <->
      forall a b,
        In a pg -> In b ora ->
        item_id a = item_id b -> item_name a = item_name b ->
        item_stock a = item_stock b)
  /\ (status (validate_inventory_levels self) = FAILED ->
      dict_get (validate_inventory_levels self) "discrepancies"
      = Some (PyRecords
                (map joined_item_record
                     (filter stock_differs (joined_items pg ora))))
      /\ dict_get (validate_inventory_levels self) "message"
         = Some (PyStr
              ("Found "
               ++ str_of_nat
                    (length (filter stock_differs (joined_items pg ora)))
               ++ " products with inventory discrepancies"))).
Proof using All.
  rewrite validate_inventory_levels_items.
  pose proof in_differing_items as Hin.
  unfold inventory_verdict, len. cbn [rows]. rewrite length_map.
  destruct (filter stock_differs (joined_items pg ora)) as [|[a b] l] eqn:F.
  - cbn [length Nat.ltb Nat.leb].
    assert (Hnone : forall a b,
              In a pg -> In b ora -> item_id a = item_id b ->
              item_name a = item_name b -> item_stock a = item_stock b).
    { intros a b Ha Hb Hid Hname.
      destruct (Z.eq_dec (item_stock a) (item_stock b)) as [E|N];
        [exact E|].
      destruct (proj2 (Hin a b)); tauto. }
    repeat match goal with |- _ /\ _ => split end.
    + split; [clash|]. intros (a & b & Ha & Hb & Hid & Hname & N).
      destruct N. now apply Hnone.
    + split; [intros _; exact Hnone|reflexivity].
    + clash.
  - cbn [length Nat.ltb Nat.leb].
    assert (Hab : In (a, b) ((a, b) :: l)) by (left; reflexivity).
    apply Hin in Hab. destruct Hab as (Ha & Hb & Hid & Hname & N).
    repeat match goal with |- _ /\ _ => split end.
    + split; [intros _|reflexivity]. exists a, b. tauto.
    + split; [clash|]. intros Hall. destruct N. now apply Hall.
    + intros _. split; [|reflexivity].
      unfold to_dict_records. cbn [rows]. rewrite map_map. reflexivity.
Qed.

End InventoryItems.

Lemma inventory_fails_on_stock_difference_witness :
  status (validate_inventory_levels (inventory_sources table_A table_B))
  = FAILED.
Proof.
  refine (proj2 (proj1
    (@inventory_fails_on_stock_difference
       (inventory_sources table_A table_B)
       [ mk_item 1 "x" 10 "2024-05-01"; mk_item 2 "y" 20 "2024-05-01";
         mk_item 3 "z" 30 "2024-05-01" ]
       [ mk_item 1 "x" 10 "2024-05-01"; mk_item 2 "y" 25 "2024-05-01";
         mk_item 4 "w" 40 "2024-05-01" ]
       eq_refl eq_refl _ _ _ _)) _); try discriminate.
  - repeat constructor.
  - repeat constructor.
  - exists (mk_item 2 "y" 20 "2024-05-01"), (mk_item 2 "y" 25 "2024-05-01").
    cbn [item_id item_name item_stock].
    repeat split; try discriminate.
    + right; left; reflexivity.
    + right; left; reflexivity.
Defined.

(** ** validate_revenue_data: a missing revenue *)

Section RevenueMissing.

Import Pandas.

Variable self : BusinessValidator.
Variables pg sf : list (string * value).

Hypothesis pg_cursor :
  cursor (postgres self) revenue_pg_query
  = ResultSet revenue_columns (map day_row pg).
Hypothesis sf_cursor :
  cursor (snowflake self) revenue_snowflake_query
  = ResultSet revenue_columns (map day_row sf).
Hypothesis pg_cells : Forall (fun p => plain_or_none (snd p) = true) pg.
Hypothesis sf_cells : Forall (fun p => plain_or_none (snd p) = true) sf.
Hypothesis pg_number : Exists (fun p => is_number (snd p) = true) pg.
Hypothesis sf_number : Exists (fun p => is_number (snd p) = true) sf.

(** X15.  When every revenue cell is an int of 64 bits, a float or NULL
    and each source has at least one number, the revenue check never
    reports ERROR and a day whose revenue is missing (NULL or NaN) on
    either side is left out of the comparison: the check reports FAILED
    exactly when some day present in both sources with a revenue on both
    sides is above the threshold, and PASSED otherwise. *)
Theorem revenue_missing_value_is_ignored :
  let tp := infer_dtype (map snd pg) in
  let ts := infer_dtype (map snd sf) in
  status (validate_revenue_data self) <> ERROR
  /\ (forall d x y, isna x = true \/ isna y = true ->
        flagged tp ts (d, x, y) = false)
  /\ (status (validate_revenue_data self) = FAILED <->
      exists d x y,
        In (d, x) pg /\ In (d, y) sf
        /\ isna x = false /\ isna y = false
        /\ flagged tp ts (d, x, y) = true)
  /\ (status (validate_revenue_data self) = PASSED <->
      forall d x y,
        In (d, x) pg -> In (d, y) sf ->
        isna x = false -> isna y = false ->
        flagged tp ts (d, x, y) = false).
Proof using All.
  intros tp ts.
  assert (pg_nonempty : pg <> []) by (intros ->; inversion pg_number).
  assert (sf_nonempty : sf <> []) by (intros ->; inversion sf_number).
  pose proof (numeric_of_cases (revenue_dtype pg_cells pg_number)) as Np.
  pose proof (numeric_of_cases (revenue_dtype sf_cells sf_number)) as Ns.
  destruct (@revenue_status self pg sf pg_cursor sf_cursor pg_nonempty
              sf_nonempty Np Ns) as [Hfailed Hpassed].
  fold tp ts in Hfailed, Hpassed.
  assert (Hmiss : forall d x y, isna x = true \/ isna y = true ->
            flagged tp ts (d, x, y) = false)
    by (intros d x y; apply flagged_missing).
  split; [|split; [exact Hmiss|split]].
  - rewrite (@validate_revenue_data_days self pg sf pg_cursor sf_cursor
               pg_nonempty sf_nonempty Np Ns).
    rewrite status_revenue_verdict. now destruct (Nat.ltb 0 _).
  - rewrite Hfailed. split.
    + intros (d & x & y & Hx & Hy & Hf). exists d, x, y.
      destruct (isna x) eqn:Ex;
        [rewrite (Hmiss d x y) in Hf; [discriminate Hf|now left]|].
      destruct (isna y) eqn:Ey;
        [rewrite (Hmiss d x y) in Hf; [discriminate Hf|now right]|].
      tauto.
    + intros (d & x & y & Hx & Hy & _ & _ & Hf). exists d, x, y. tauto.
  - rewrite Hpassed. split.
    + intros Hall d x y Hx Hy _ _. now apply Hall.
    + intros Hall d x y Hx Hy.
      destruct (isna x) eqn:Ex; [apply Hmiss; now left|].
      destruct (isna y) eqn:Ey; [apply Hmiss; now right|].
      now apply Hall.
Qed.

End RevenueMissing.

Lemma revenue_missing_value_is_ignored_witness :
  status (validate_revenue_data
            (revenue_sources
               [[VStr "2024-05-01"; VNone]; [VStr "2024-05-02"; VInt 100]]
               [[VStr "2024-05-01"; VInt 500]; [VStr "2024-05-02"; VNone]]))
  = PASSED.
Proof.
  refine (proj2 (proj2 (proj2 (proj2
    (@revenue_missing_value_is_ignored
       (revenue_sources
          [[VStr "2024-05-01"; VNone]; [VStr "2024-05-02"; VInt 100]]
          [[VStr "2024-05-01"; VInt 500]; [VStr "2024-05-02"; VNone]])
       [("2024-05-01", VNone); ("2024-05-02", VInt 100)]
       [("2024-05-01", VInt 500); ("2024-05-02", VNone)]
       eq_refl eq_refl _ _ _ _)))) _).
  - repeat constructor.
  - repeat constructor.
  - apply Exists_cons_tl. apply Exists_cons_hd. reflexivity.
  - apply Exists_cons_hd. reflexivity.
  - intros d x y [H1|[H1|[]]] [H2|[H2|[]]] Nx Ny;
      inversion H1; inversion H2; subst;
      first [discriminate Nx | discriminate Ny | congruence].
Defined.
